(** * cubeviz: the slice controller ([cubeviz/controls/slice.py])

    A shallow embedding of [SliceController]: the slider, the two text
    boxes, the layout's synced index and the viewers it fans out to.

    - Python integers are [Z], Python floats are the kernel's binary64
      [float], text is [string] (ASCII).
    - The controller mutates widgets and the layout and may raise in the
      middle of a handler, so every method is a computation in a small
      state-and-exception monad [M].
    - [int(text)] and [str(int)] are executable definitions. [float(text)],
      [str(float)], [format] on floats and numpy's [argsort] are taken
      through the interface [Builtins]; what the proofs need from
      [argsort] is stated as [ArgsortSpec] and [ArgsortStable].
    - The Qt slider ([QAbstractSlider]) bounds a value into its range and
      notifies its listener, synchronously, only when the value changes.
      Qt's C [int] is taken unbounded. An exception raised by the listener
      is passed on to the caller of [setValue]; every statement below about
      [setValue] is made where the listener returns. *)

From Stdlib Require Import ZArith List String Ascii Bool Lia Floats.
From Stdlib Require Import Permutation Sorted DecimalString DecimalZ.
Import ListNotations.

(* ================================================================== *)
(** * Python builtins on integers and text *)
(* ================================================================== *)

Module Py.

Local Open Scope string_scope.

(** Exceptions the controller's code can raise. [RecursionError] stands
    for a signal cascade deeper than the model's bound; [slider_fuel]
    below shows the cascade never gets there. *)
Inductive exn :=
| ValueError | TypeError | IndexError | ZeroDivisionError | RecursionError.

(** Values compared by [==] in the source. *)
Inductive value :=
| VInt (n : Z)
| VStr (s : string)
| VNone.

(** [a == b]: values of different types are never equal. *)
Definition eq (a b : value) : bool :=
  match a, b with
  | VInt m, VInt n => Z.eqb m n
  | VStr s, VStr t => String.eqb s t
  | VNone, VNone => true
  | _, _ => false
  end.

(** White space skipped by [int]: tab to carriage return, and the blank.
    The separators 28..31, which [str.strip] removes, are not skipped:
    [int] raises [ValueError] on them. *)
Definition is_space (c : ascii) : bool :=
  let n := nat_of_ascii c in
  ((9 <=? n) && (n <=? 13) || (n =? 32))%nat.

Fixpoint lstrip (s : string) : string :=
  match s with
  | String c r => if is_space c then lstrip r else s
  | EmptyString => EmptyString
  end.

Fixpoint rstrip (s : string) : string :=
  match s with
  | String c r =>
      match rstrip r with
      | EmptyString => if is_space c then EmptyString else String c EmptyString
      | r' => String c r'
      end
  | EmptyString => EmptyString
  end.

Definition strip (s : string) : string := rstrip (lstrip s).

Definition digit_of (c : ascii) : option Z :=
  let n := nat_of_ascii c in
  if ((48 <=? n) && (n <=? 57))%nat then Some (Z.of_nat (n - 48)) else None.

(** Decimal digits, with single underscores allowed between digits.
    [prev] tells whether the previous character was a digit. *)
Fixpoint digits (s : string) (prev : bool) (acc : Z) : option Z :=
  match s with
  | EmptyString => if prev then Some acc else None
  | String c r =>
      match digit_of c with
      | Some d => digits r true (10 * acc + d)
      | None => if Ascii.eqb c "_" && prev then digits r false acc else None
      end
  end.

(** [int(text)] in base ten: optional white space around an optional sign
    and the digits; [None] is [ValueError]. *)
Definition int (text : string) : option Z :=
  match strip text with
  | String "-" r => option_map Z.opp (digits r false 0)
  | String "+" r => digits r false 0
  | t => digits t false 0
  end.

(** [str(n)] for an integer. *)
Definition str (n : Z) : string := NilZero.string_of_int (Z.to_int n).

(** [seq[i]] with Python's negative indices. *)
Definition index {A : Type} (l : list A) (i : Z) : option A :=
  let n := Z.of_nat (List.length l) in
  if (0 <=? i)%Z && (i <? n)%Z then nth_error l (Z.to_nat i)
  else if (- n <=? i)%Z && (i <? 0)%Z then nth_error l (Z.to_nat (n + i))
  else None.

End Py.

(* ================================================================== *)
(** * Floats, numpy's ordering and [argsort] *)
(* ================================================================== *)

Module Np.

Local Open Scope float_scope.

(** The order numpy sorts floats by: [<], with every NaN after every
    number. *)
Definition lt (a b : float) : bool :=
  (a <? b) || (negb (is_nan a) && is_nan b).

(** [abs(axis - w)], elementwise. *)
Definition abs_diff (axis : list float) (w : float) : list float :=
  map (fun a => abs (a - w)) axis.

Definition key (l : list float) (i : nat) : float := nth i l nan.

(** What [argsort] promises: a permutation of the indices that puts the
    keys in numpy's order. *)
Record ArgsortSpec (argsort : list float -> list nat) : Prop := {
  argsort_perm : forall l, Permutation (argsort l) (seq 0 (List.length l));
  argsort_sorted : forall l,
    StronglySorted (fun i j => lt (key l j) (key l i) = false) (argsort l)
}.

(** A stable [argsort] keeps indices with equal keys in increasing order. *)
Definition ArgsortStable (argsort : list float -> list nat) : Prop :=
  forall l,
    StronglySorted (fun i j => lt (key l i) (key l j) = true \/ (i < j)%nat)
      (argsort l).

(** Keys first, indices second: the order a stable argsort produces. *)
Definition before (l : list float) (i j : nat) : Prop :=
  lt (key l i) (key l j) = true \/ (lt (key l j) (key l i) = false /\ (i < j)%nat).

(** A stable argsort by insertion, the reference implementation of the
    two contracts above. *)
Fixpoint insert (l : list float) (i : nat) (sorted : list nat) : list nat :=
  match sorted with
  | [] => [i]
  | j :: r => if lt (key l j) (key l i) then j :: insert l i r
              else i :: sorted
  end.

Definition stable_argsort (l : list float) : list nat :=
  fold_right (insert l) [] (seq 0 (List.length l)).



End Np.

(** Python and numpy functions on floats that the controller calls and
    that are not part of the repository. *)
Class Builtins := {
  (** [float(text)]; [None] is [ValueError]. *)
  float_of_text : string -> option float;
  (** [str(x)]. *)
  str_of_float : float -> string;
  (** [fmt.format(x)]. *)
  format_float : string -> float -> string;
  (** [np.argsort(a)]. *)
  argsort : list float -> list nat
}.

(* ================================================================== *)
(** * The widgets, the layout and the controller's state *)
(* ================================================================== *)

Local Open Scope string_scope.
Local Open Scope Z_scope.

Definition RED_BACKGROUND : string := "background-color: rgba(255, 0, 0, 128);".

(** Imported from [controls/units.py]; the value is the one the docstring
    of the label's setter names. Only the label's text depends on it. *)
Definition OBS_WAVELENGTH_TEXT : string := "Obs Wavelength".

(** A [QLineEdit]. *)
Record LineEdit := {
  text : string;
  styleSheet : string;
  le_enabled : bool
}.

(** A [QSlider]: [minimum <= maximum] and the value bounded by them. *)
Record Slider := {
  minimum : Z;
  maximum : Z;
  value : Z;
  sl_enabled : bool
}.

(** What a viewer widget was asked to draw: [fast_draw_slice_at_index]
    or [update_slice_index]. *)
Inductive Draw :=
| FastDraw (index : Z)
| FullDraw (index : Z).

(** A cube view's widget: its [synced] flag and the draw requests it
    received, newest first. *)
Record Viewer := {
  synced : bool;
  draws : list Draw
}.

Record UnitsController := { redshift_z : float }.

(** The parent layout. Views are objects shared between [cube_views] and
    [_active_cube], so the layout holds a store of viewers and the two
    attributes hold references into it. *)
Record Layout := {
  synced_index : Z;
  viewers : nat -> Viewer;
  cube_views : list nat;
  active_cube : nat;
  single_viewer_mode : bool;
  units_controller : option UnitsController
}.

(** Events emitted on specviz's dispatch. *)
Inductive Event :=
| ChangedDispersionPosition (pos : Z)
| ChangedUnits (x : string).

Record Controller := {
  slice_textbox : LineEdit;
  wavelength_textbox : LineEdit;
  slice_slider : Slider;
  wavelength_textbox_label : string;
  slider_flag : bool;
  wavelength_label_text : string;
  wavelength_format : string;
  wavelength_units : option string;
  wavelengths : option (list float);
  cv_layout : Layout;
  (** subscribed to [SliceIndexUpdateMessage] on the hub *)
  subscribed : bool;
  (** events emitted so far, newest first *)
  emitted : list Event
}.

(** ** Field updates *)

Definition setText (t : string) (w : LineEdit) : LineEdit :=
  {| text := t; styleSheet := styleSheet w; le_enabled := le_enabled w |}.

Definition setStyleSheet (st : string) (w : LineEdit) : LineEdit :=
  {| text := text w; styleSheet := st; le_enabled := le_enabled w |}.

Definition setEnabled (b : bool) (w : LineEdit) : LineEdit :=
  {| text := text w; styleSheet := styleSheet w; le_enabled := b |}.

Definition with_slice_textbox (f : LineEdit -> LineEdit) (s : Controller) :=
  {| slice_textbox := f (slice_textbox s);
     wavelength_textbox := wavelength_textbox s;
     slice_slider := slice_slider s;
     wavelength_textbox_label := wavelength_textbox_label s;
     slider_flag := slider_flag s;
     wavelength_label_text := wavelength_label_text s;
     wavelength_format := wavelength_format s;
     wavelength_units := wavelength_units s;
     wavelengths := wavelengths s;
     cv_layout := cv_layout s;
     subscribed := subscribed s;
     emitted := emitted s |}.

Definition with_wavelength_textbox (f : LineEdit -> LineEdit) (s : Controller) :=
  {| slice_textbox := slice_textbox s;
     wavelength_textbox := f (wavelength_textbox s);
     slice_slider := slice_slider s;
     wavelength_textbox_label := wavelength_textbox_label s;
     slider_flag := slider_flag s;
     wavelength_label_text := wavelength_label_text s;
     wavelength_format := wavelength_format s;
     wavelength_units := wavelength_units s;
     wavelengths := wavelengths s;
     cv_layout := cv_layout s;
     subscribed := subscribed s;
     emitted := emitted s |}.

Definition with_slice_slider (f : Slider -> Slider) (s : Controller) :=
  {| slice_textbox := slice_textbox s;
     wavelength_textbox := wavelength_textbox s;
     slice_slider := f (slice_slider s);
     wavelength_textbox_label := wavelength_textbox_label s;
     slider_flag := slider_flag s;
     wavelength_label_text := wavelength_label_text s;
     wavelength_format := wavelength_format s;
     wavelength_units := wavelength_units s;
     wavelengths := wavelengths s;
     cv_layout := cv_layout s;
     subscribed := subscribed s;
     emitted := emitted s |}.

Definition with_label (l : string) (s : Controller) :=
  {| slice_textbox := slice_textbox s;
     wavelength_textbox := wavelength_textbox s;
     slice_slider := slice_slider s;
     wavelength_textbox_label := l;
     slider_flag := slider_flag s;
     wavelength_label_text := wavelength_label_text s;
     wavelength_format := wavelength_format s;
     wavelength_units := wavelength_units s;
     wavelengths := wavelengths s;
     cv_layout := cv_layout s;
     subscribed := subscribed s;
     emitted := emitted s |}.

Definition with_slider_flag (b : bool) (s : Controller) :=
  {| slice_textbox := slice_textbox s;
     wavelength_textbox := wavelength_textbox s;
     slice_slider := slice_slider s;
     wavelength_textbox_label := wavelength_textbox_label s;
     slider_flag := b;
     wavelength_label_text := wavelength_label_text s;
     wavelength_format := wavelength_format s;
     wavelength_units := wavelength_units s;
     wavelengths := wavelengths s;
     cv_layout := cv_layout s;
     subscribed := subscribed s;
     emitted := emitted s |}.

Definition with_label_text (l : string) (s : Controller) :=
  {| slice_textbox := slice_textbox s;
     wavelength_textbox := wavelength_textbox s;
     slice_slider := slice_slider s;
     wavelength_textbox_label := wavelength_textbox_label s;
     slider_flag := slider_flag s;
     wavelength_label_text := l;
     wavelength_format := wavelength_format s;
     wavelength_units := wavelength_units s;
     wavelengths := wavelengths s;
     cv_layout := cv_layout s;
     subscribed := subscribed s;
     emitted := emitted s |}.

(** The unit name, the format and the axis are always stored together. *)
Definition with_axis (u : string) (fmt : string) (axis : list float)
    (s : Controller) :=
  {| slice_textbox := slice_textbox s;
     wavelength_textbox := wavelength_textbox s;
     slice_slider := slice_slider s;
     wavelength_textbox_label := wavelength_textbox_label s;
     slider_flag := slider_flag s;
     wavelength_label_text := wavelength_label_text s;
     wavelength_format := fmt;
     wavelength_units := Some u;
     wavelengths := Some axis;
     cv_layout := cv_layout s;
     subscribed := subscribed s;
     emitted := emitted s |}.

Definition with_layout (f : Layout -> Layout) (s : Controller) :=
  {| slice_textbox := slice_textbox s;
     wavelength_textbox := wavelength_textbox s;
     slice_slider := slice_slider s;
     wavelength_textbox_label := wavelength_textbox_label s;
     slider_flag := slider_flag s;
     wavelength_label_text := wavelength_label_text s;
     wavelength_format := wavelength_format s;
     wavelength_units := wavelength_units s;
     wavelengths := wavelengths s;
     cv_layout := f (cv_layout s);
     subscribed := subscribed s;
     emitted := emitted s |}.

Definition with_subscribed (b : bool) (s : Controller) :=
  {| slice_textbox := slice_textbox s;
     wavelength_textbox := wavelength_textbox s;
     slice_slider := slice_slider s;
     wavelength_textbox_label := wavelength_textbox_label s;
     slider_flag := slider_flag s;
     wavelength_label_text := wavelength_label_text s;
     wavelength_format := wavelength_format s;
     wavelength_units := wavelength_units s;
     wavelengths := wavelengths s;
     cv_layout := cv_layout s;
     subscribed := b;
     emitted := emitted s |}.

Definition emit (e : Event) (s : Controller) :=
  {| slice_textbox := slice_textbox s;
     wavelength_textbox := wavelength_textbox s;
     slice_slider := slice_slider s;
     wavelength_textbox_label := wavelength_textbox_label s;
     slider_flag := slider_flag s;
     wavelength_label_text := wavelength_label_text s;
     wavelength_format := wavelength_format s;
     wavelength_units := wavelength_units s;
     wavelengths := wavelengths s;
     cv_layout := cv_layout s;
     subscribed := subscribed s;
     emitted := e :: emitted s |}.

Definition set_synced_index (i : Z) (L : Layout) : Layout :=
  {| synced_index := i;
     viewers := viewers L;
     cube_views := cube_views L;
     active_cube := active_cube L;
     single_viewer_mode := single_viewer_mode L;
     units_controller := units_controller L |}.

(** One more draw request on the viewer that [view] refers to. *)
Definition draw_on (view : nat) (d : Draw) (L : Layout) : Layout :=
  {| synced_index := synced_index L;
     viewers := fun v =>
       if Nat.eqb v view
       then {| synced := synced (viewers L v); draws := d :: draws (viewers L v) |}
       else viewers L v;
     cube_views := cube_views L;
     active_cube := active_cube L;
     single_viewer_mode := single_viewer_mode L;
     units_controller := units_controller L |}.

Definition set_value (v : Z) (w : Slider) : Slider :=
  {| minimum := minimum w; maximum := maximum w; value := v;
     sl_enabled := sl_enabled w |}.

Definition set_range (lo hi : Z) (w : Slider) : Slider :=
  {| minimum := lo; maximum := hi; value := value w;
     sl_enabled := sl_enabled w |}.

Definition set_slider_enabled (b : bool) (w : Slider) : Slider :=
  {| minimum := minimum w; maximum := maximum w; value := value w;
     sl_enabled := b |}.

(** [QAbstractSlider]'s bounding of a requested value. *)
Definition bound (w : Slider) (v : Z) : Z :=
  Z.max (minimum w) (Z.min (maximum w) v).

(* ================================================================== *)
(** * Computations that mutate the controller and may raise *)
(* ================================================================== *)

Inductive outcome (A : Type) :=
| Ok (a : A)
| Raise (e : Py.exn).
Arguments Ok {A} a.
Arguments Raise {A} e.

Definition M (A : Type) : Type := Controller -> outcome A * Controller.

Definition ret {A} (a : A) : M A := fun s => (Ok a, s).
Definition raise {A} (e : Py.exn) : M A := fun s => (Raise e, s).
Definition bind {A B} (c : M A) (k : A -> M B) : M B :=
  fun s => match c s with
           | (Ok a, s') => k a s'
           | (Raise e, s') => (Raise e, s')
           end.
Definition get : M Controller := fun s => (Ok s, s).
Definition modify (f : Controller -> Controller) : M unit :=
  fun s => (Ok tt, f s).
Definition when (b : bool) (c : M unit) : M unit :=
  if b then c else ret tt.
(** An [Optional] result of a builtin that raises [e] on failure. *)
Definition lift {A} (e : Py.exn) (o : option A) : M A :=
  match o with Some a => ret a | None => raise e end.

Declare Scope py_scope.
Delimit Scope py_scope with py.
Notation "x <- c ;; k" := (bind c (fun x => k))
  (at level 61, c at next level, right associativity) : py_scope.
Notation "c ;; k" := (bind c (fun _ => k))
  (at level 61, right associativity) : py_scope.
Local Open Scope py_scope.

(** The state an execution ends in. *)
Definition final {A} (r : outcome A * Controller) : Controller := snd r.

(* ================================================================== *)
(** * [SliceController] *)
(* ================================================================== *)

Section SliceController.

Context {B : Builtins}.

(** ['{} ({})'.format(label_text, units)] *)
Definition label_of (label_text : string) (units : option string) : string :=
  label_text ++ " (" ++ match units with Some u => u | None => "None" end ++ ")".

(** [__init__]: the widgets as Qt creates them, disabled. *)
Definition init (L : Layout) : Controller :=
  {| slice_textbox := {| text := ""; styleSheet := ""; le_enabled := false |};
     wavelength_textbox := {| text := ""; styleSheet := ""; le_enabled := false |};
     slice_slider := {| minimum := 0; maximum := 99; value := 0; sl_enabled := false |};
     wavelength_textbox_label := "";
     slider_flag := false;
     wavelength_label_text := OBS_WAVELENGTH_TEXT;
     wavelength_format := "{}";
     wavelength_units := None;
     wavelengths := None;
     cv_layout := L;
     subscribed := false;
     emitted := [] |}.

(** [np.argsort(abs(axis - w))[0]]; [None] is the [IndexError] of an
    empty result. *)
Definition nearest_index (axis : list float) (w : float) : option nat :=
  hd_error (argsort (Np.abs_diff axis w)).

(** The same on [self._wavelengths], which is [None] before [enable]. *)
Definition nearest (w : float) : M Z :=
  s <- get ;;
  axis <- lift Py.TypeError (wavelengths s) ;;
  i <- lift Py.IndexError (nearest_index axis w) ;;
  ret (Z.of_nat i).

(** [self._wavelengths[i]] *)
Definition wavelength_at (i : Z) : M float :=
  s <- get ;;
  axis <- lift Py.TypeError (wavelengths s) ;;
  lift Py.IndexError (Py.index axis i).

(** [len(self._wavelengths)] *)
Definition axis_len : M Z :=
  s <- get ;;
  axis <- lift Py.TypeError (wavelengths s) ;;
  ret (Z.of_nat (List.length axis)).

Definition wavelength_label_setter (new_label : string) : M unit :=
  modify (with_label_text new_label) ;;
  s <- get ;;
  modify (with_label (label_of (wavelength_label_text s) (wavelength_units s))).

Definition set_enabled (b : bool) : M unit :=
  modify (with_slice_slider (set_slider_enabled b)) ;;
  modify (with_slice_textbox (setEnabled b)) ;;
  modify (with_wavelength_textbox (setEnabled b)).

Definition get_index : M Z :=
  s <- get ;; ret (synced_index (cv_layout s)).

Definition draw_request (fast : bool) (index : Z) : Draw :=
  if fast then FastDraw index else FullDraw index.

(** [for view in cube_views: if view._widget.synced: ...] *)
Definition draw_synced (d : Draw) (L : Layout) : Layout :=
  fold_left (fun L view => if synced (viewers L view) then draw_on view d L else L)
    (cube_views L) L.

Definition apply_to_viewers (index : Z) : M unit :=
  s <- get ;;
  let L := cv_layout s in
  let active_widget := viewers L (active_cube L) in
  let d := draw_request (slider_flag s) index in
  (if synced active_widget && negb (single_viewer_mode L)
   then modify (with_layout (fun L => set_synced_index index (draw_synced d L)))
   else modify (with_layout (draw_on (active_cube L) d))) ;;
  modify (emit (ChangedDispersionPosition index)).

Definition _on_slider_pressed : M unit :=
  modify (with_slider_flag true).

Definition _on_slider_released : M unit :=
  modify (with_slider_flag false) ;;
  s <- get ;;
  let index := value (slice_slider s) in
  let L := cv_layout s in
  let active_widget := viewers L (active_cube L) in
  (if synced active_widget && negb (single_viewer_mode L)
   then modify (with_layout
                  (fun L => set_synced_index index (draw_synced (FullDraw index) L)))
   else modify (with_layout (draw_on (active_cube L) (FullDraw index)))) ;;
  modify (emit (ChangedDispersionPosition index)).

Definition _update_slice_textboxes (index : Z) : M unit :=
  modify (with_slice_textbox (setText (Py.str index))) ;;
  s <- get ;;
  w <- wavelength_at index ;;
  modify (with_wavelength_textbox
            (setText (format_float (wavelength_format s) w))).

(** ** Handlers that reach the slider

    [setValue] on the slider runs [_on_slider_change] synchronously, which
    broadcasts to [master_index_update], which may call [setValue] again.
    The handlers are first written over the [setValue] they call. *)
Section Signals.

Variable setValue : Z -> M unit.

Definition master_index_update_from (index : Z) : M unit :=
  s <- get ;;
  let tb_index :=
    match Py.int (text (slice_textbox s)) with
    | Some n => n
    | None => -1
    end in
  when (negb (tb_index =? index))
    (modify (with_slice_textbox (setText (Py.str index)))) ;;
  wv_index <-
    match float_of_text (text (wavelength_textbox s)) with
    | Some wavelength => nearest wavelength
    | None => ret (-1)
    end ;;
  when (negb (index =? wv_index))
    (w <- wavelength_at index ;;
     modify (with_wavelength_textbox (setText (str_of_float w)))) ;;
  s <- get ;;
  let slider_index := value (slice_slider s) in
  when (negb (slider_index =? index)) (setValue index) ;;
  apply_to_viewers index.

(** [self._hub.broadcast(msg)], as far as this controller listens. *)
Definition broadcast (index : Z) : M unit :=
  s <- get ;;
  when (subscribed s) (master_index_update_from index).

Definition _on_slider_change_from : M unit :=
  s <- get ;;
  broadcast (value (slice_slider s)).

End Signals.

(** [QAbstractSlider::setValue]: bound the value, return if it is the
    current one, otherwise store it and emit [valueChanged]. [fuel] bounds
    the depth of the cascade. *)
Fixpoint slider_setValue (fuel : nat) (v : Z) : M unit :=
  fun s =>
    let v' := bound (slice_slider s) v in
    if v' =? value (slice_slider s) then (Ok tt, s)
    else match fuel with
         | O => (Raise Py.RecursionError, s)
         | S fuel' =>
             _on_slider_change_from (slider_setValue fuel')
               (with_slice_slider (set_value v') s)
         end.

(** The listener finds the slider at the index it was notified of and does
    not call [setValue] again, so one level is always enough
    ([slider_fuel], [setValue_no_overflow]). *)
Definition signal_depth : nat := 2.

Definition setValue : Z -> M unit := slider_setValue signal_depth.

(** [QAbstractSlider::setRange]: store the range and bound the value again. *)
Definition setRange (lo hi : Z) : M unit :=
  s <- get ;;
  let w := slice_slider s in
  let hi' := Z.max lo hi in
  when (negb ((lo =? minimum w) && (hi' =? maximum w)))
    (modify (with_slice_slider (set_range lo hi')) ;;
     setValue (value w)).

Definition setMinimum (lo : Z) : M unit :=
  s <- get ;; setRange lo (Z.max (maximum (slice_slider s)) lo).

Definition setMaximum (hi : Z) : M unit :=
  s <- get ;; setRange (Z.min (minimum (slice_slider s)) hi) hi.

Definition master_index_update : Z -> M unit :=
  master_index_update_from setValue.

Definition _on_slider_change : M unit :=
  _on_slider_change_from setValue.

Definition enable (units : string) (axis : list float) : M unit :=
  set_enabled true ;;
  modify (with_subscribed true) ;;
  setMinimum 0 ;;
  modify (fun s =>
    with_label (label_of (wavelength_label_text s) (Some units))
      (with_axis units "{:.3}" axis s)) ;;
  setMaximum (Z.of_nat (List.length axis) - 1) ;;
  let middle_index := Z.of_nat (List.length axis) / 2 in
  setValue middle_index ;;
  w <- wavelength_at middle_index ;;
  s <- get ;;
  modify (with_wavelength_textbox
            (setText (format_float (wavelength_format s) w))) ;;
  modify (with_layout (set_synced_index middle_index)).

Definition set_wavelengths (new_wavelengths : list float) (new_units : string)
    : M unit :=
  modify (fun s =>
    with_label (label_of (wavelength_label_text s) (Some new_units))
      (with_axis new_units "{:.3}" new_wavelengths s)) ;;
  setMaximum (Z.of_nat (List.length new_wavelengths) - 1) ;;
  s <- get ;;
  w <- wavelength_at (synced_index (cv_layout s)) ;;
  modify (with_wavelength_textbox
            (setText (format_float (wavelength_format s) w))) ;;
  modify (emit (ChangedUnits new_units)).

Definition update_index (index : Z) : M unit := setValue index.

Definition change_slider_value (amount : Z) : M unit :=
  s <- get ;;
  let new_index := value (slice_slider s) + amount in
  setValue new_index ;;
  modify (emit (ChangedDispersionPosition new_index)).

Definition _on_text_slice_change : M unit :=
  s <- get ;;
  match Py.int (text (slice_textbox s)) with
  | None => modify (with_slice_textbox (setStyleSheet RED_BACKGROUND))
  | Some index =>
      modify (with_slice_textbox (setStyleSheet "")) ;;
      if Py.eq (Py.VInt index) (Py.VStr (text (slice_textbox s))) then ret tt
      else
        let index := if index <? 0 then 0 else index in
        n <- axis_len ;;
        let index := if index >? n - 1 then n - 1 else index in
        setValue index
  end.

Definition _on_text_wavelength_change (pos : option float) : M unit :=
  s <- get ;;
  let wavelength :=
    match pos with
    | Some p => Some p
    | None => float_of_text (text (wavelength_textbox s))
    end in
  match wavelength with
  | None => modify (with_wavelength_textbox (setStyleSheet RED_BACKGROUND))
  | Some w =>
      index <- nearest w ;;
      modify (with_wavelength_textbox (setStyleSheet "")) ;;
      setValue index
  end.

(** [x / y] on Python floats. *)
Definition truediv (x y : float) : M float :=
  if (y =? 0)%float then raise Py.ZeroDivisionError else ret (x / y)%float.

(** [self._cv_layout._units_controller and not ...redshift_z == 0.0] *)
Definition has_redshift (L : Layout) : option float :=
  match units_controller L with
  | Some u => if (redshift_z u =? 0)%float then None else Some (redshift_z u)
  | None => None
  end.

Definition specviz_wavelength_slider_change (pos : option float) : M unit :=
  s <- get ;;
  let deactivate_flag := negb (slider_flag s) in
  when deactivate_flag (modify (with_slider_flag true)) ;;
  pos <-
    match has_redshift (cv_layout s) with
    | Some z =>
        p <- lift Py.TypeError pos ;;
        rest_wavelength <- truediv p (1 + z)%float ;;
        i <- nearest rest_wavelength ;;
        w <- wavelength_at i ;;
        ret (Some w)
    | None => ret pos
    end ;;
  _on_text_wavelength_change pos ;;
  when deactivate_flag (modify (with_slider_flag false)).

End SliceController.

(* ================================================================== *)
(** * A worked configuration *)
(* ================================================================== *)

Module Example.

Local Open Scope float_scope.

(** The float literals of the examples, each with the text Python's
    [str] gives it and its text under the format ['{:.3}']. All are exact
    in binary64. *)
Definition literals : list (string * (float * string)) :=
  [ ("1.0", (1, "1.0"));
    ("1.0625", (1.0625, "1.06"));
    ("2.25", (2.25, "2.25"));
    ("2.5", (2.5, "2.5"));
    ("4.0", (4, "4.0")) ]%string.

Fixpoint parse (t : list (string * (float * string))) (s : string)
    : option float :=
  match t with
  | [] => None
  | (lit, (x, _)) :: t' => if String.eqb s lit then Some x else parse t' s
  end.

Fixpoint render (t : list (string * (float * string))) (fmt : bool)
    (x : float) : string :=
  match t with
  | [] => "nan"
  | (lit, (y, short)) :: t' =>
      if Leibniz.eqb x y then (if fmt then short else lit)
      else render t' fmt x
  end.

(** Python's [float], [str] and [format] restricted to [literals] (any
    other text is taken as unparsable), with the stable argsort. *)
#[export] Instance builtins : Builtins := {|
  float_of_text := parse literals;
  str_of_float := render literals false;
  format_float := fun fmt => render literals (String.eqb fmt "{:.3}");
  argsort := Np.stable_argsort
|}.


Definition axis : list float := [1; 1.0625; 2.5; 4].

Definition viewer0 : Viewer := {| synced := true; draws := [] |}.
Definition viewer1 : Viewer := {| synced := false; draws := [] |}.

(** Three views: 0 and 2 synced, 1 not; view 0 is active. *)
Definition layout : Layout :=
  {| synced_index := 0;
     viewers := fun v => if Nat.eqb v 1 then viewer1 else viewer0;
     cube_views := [0; 1; 2]%nat;
     active_cube := 0%nat;
     single_viewer_mode := false;
     units_controller := None |}.

(** The same views in single-viewer mode. *)
Definition layout_single : Layout :=
  {| synced_index := 0;
     viewers := fun v => if Nat.eqb v 1 then viewer1 else viewer0;
     cube_views := [0; 1; 2]%nat;
     active_cube := 0%nat;
     single_viewer_mode := true;
     units_controller := None |}.

(** The same views with a units controller at redshift 1. *)
Definition layout_redshift : Layout :=
  {| synced_index := 0;
     viewers := fun v => if Nat.eqb v 1 then viewer1 else viewer0;
     cube_views := [0; 1; 2]%nat;
     active_cube := 0%nat;
     single_viewer_mode := false;
     units_controller := Some {| redshift_z := 1 |} |}.

(** The same views with a units controller at redshift -1. *)
Definition layout_redshift_minus_one : Layout :=
  {| synced_index := 0;
     viewers := fun v => if Nat.eqb v 1 then viewer1 else viewer0;
     cube_views := [0; 1; 2]%nat;
     active_cube := 0%nat;
     single_viewer_mode := false;
     units_controller := Some {| redshift_z := -1 |} |}.

(** The controller after [enable] on [axis]: slider and synced index at
    the middle index 2. *)
Definition start : Controller :=
  Eval vm_compute in final (enable "um" axis (init layout)).
Definition start_single : Controller :=
  Eval vm_compute in final (enable "um" axis (init layout_single)).
Definition start_redshift : Controller :=
  Eval vm_compute in final (enable "um" axis (init layout_redshift)).
Definition start_redshift_minus_one : Controller :=
  Eval vm_compute in final (enable "um" axis (init layout_redshift_minus_one)).

End Example.

(* ================================================================== *)
(** * Vocabulary of the statements *)
(* ================================================================== *)

Section Vocabulary.

Context {B : Builtins}.

Local Open Scope Z_scope.
Local Open Scope py_scope.

(** The controller holds [axis] and listens on the hub, and the slider's
    range is the axis's index range. *)
Record Ranged (s : Controller) (axis : list float) : Prop := {
  ranged_axis : wavelengths s = Some axis;
  ranged_nonempty : axis <> [];
  ranged_subscribed : subscribed s = true;
  ranged_minimum : minimum (slice_slider s) = 0;
  ranged_maximum : maximum (slice_slider s) = Z.of_nat (List.length axis) - 1
}.

(** The controller is bound to [axis]: moreover the slider's value is an
    index of the axis, as it is after [enable]. *)
Record Bound (s : Controller) (axis : list float) : Prop := {
  bound_ranged : Ranged s axis;
  bound_value : 0 <= value (slice_slider s) < Z.of_nat (List.length axis)
}.

(** The synced index is a valid index of [axis]. *)
Definition SyncedInRange (s : Controller) (axis : list float) : Prop :=
  0 <= synced_index (cv_layout s) < Z.of_nat (List.length axis).

(** The fan-out rule shared by [apply_to_viewers] and
    [_on_slider_released]. *)
Definition fan_out (d : Draw) (index : Z) (L : Layout) : Layout :=
  if synced (viewers L (active_cube L)) && negb (single_viewer_mode L)
  then set_synced_index index (draw_synced d L)
  else draw_on (active_cube L) d L.

(** The state [apply_to_viewers(index)] leaves. *)
Definition applied (index : Z) (s : Controller) : Controller :=
  emit (ChangedDispersionPosition index)
    (with_layout (fan_out (draw_request (slider_flag s) index) index) s).

(** Does the text of the wavelength box resolve to index [i]? *)
Definition resolves_to (axis : list float) (t : string) (i : Z) : bool :=
  match float_of_text t with
  | Some w =>
      match nearest_index axis w with
      | Some k => Z.of_nat k =? i
      | None => false
      end
  | None => false
  end.

(** The text boxes after [master_index_update] for [i]. *)
Definition reconciled (axis : list float) (i : Z) (s : Controller)
    : Controller :=
  let s1 :=
    match Py.int (text (slice_textbox s)) with
    | Some n => if n =? i then s
                else with_slice_textbox (setText (Py.str i)) s
    | None => with_slice_textbox (setText (Py.str i)) s
    end in
  if resolves_to axis (text (wavelength_textbox s)) i then s1
  else with_wavelength_textbox
         (setText (str_of_float (nth (Z.to_nat i) axis nan))) s1.

(** The state after the slider moved to [i] and its listener ran. *)
Definition moved (axis : list float) (i : Z) (s : Controller) : Controller :=
  applied i (reconciled axis i (with_slice_slider (set_value i) s)).

(** The invariant: the controller is bound to [axis] and the layout's
    synced index is an index of [axis]. *)
Definition Inv (s : Controller) (axis : list float) : Prop :=
  Bound s axis /\ SyncedInRange s axis.

(** The index [_on_text_slice_change] passes to the slider. *)
Definition clamped (n len : Z) : Z :=
  let index := if n <? 0 then 0 else n in
  if index >? len - 1 then len - 1 else index.

(** The fast-draw flag around an externally driven update: raised if it
    was down, and then lowered again afterwards. *)
Definition fast_draw_scope (c : M unit) : M unit :=
  s <- get ;;
  let deactivate_flag := negb (slider_flag s) in
  when deactivate_flag (modify (with_slider_flag true)) ;;
  c ;;
  when deactivate_flag (modify (with_slider_flag false)).

End Vocabulary.

(** ** Auxiliary notions of the proofs *)

Module Aux.

Local Open Scope Z_scope.

(** Text with no white space in it. *)
Definition no_space (s : string) : Prop :=
  Forall (fun c => Py.is_space c = false) (list_ascii_of_string s).

(** A rank whose lexicographic order is numpy's order on floats. *)
Definition rank (x : spec_float) : Z * (Z * Z) :=
  match x with
  | S754_nan => (3, (0, 0))
  | S754_infinity s => (if s then -2 else 2, (0, 0))
  | S754_zero _ => (0, (0, 0))
  | S754_finite s m e =>
      if s then (-1, (- e, - Zpos m)) else (1, (e, Zpos m))
  end.

(** The lexicographic order on ranks. *)
Definition lex_lt (a b : Z * (Z * Z)) : Prop :=
  fst a < fst b \/
  (fst a = fst b /\
   (fst (snd a) < fst (snd b) \/
    (fst (snd a) = fst (snd b) /\ snd (snd a) < snd (snd b)))).

(** [Np.lt] read on the specification of floats. *)
Definition sf_lt (x y : spec_float) : bool :=
  SFltb x y
  || (negb (negb (SFeqb x x)) && negb (SFeqb y y)).

(** Number of binary digits of a mantissa. *)
Definition dig (m : positive) : Z := Zpos (digits2_pos m).

(** [fexp] and the zero test at binary64. *)
Definition fexp64 (e : Z) : Z := fexp prec emax e.

Definition is_zero_sf (x : spec_float) : bool :=
  match x with S754_zero _ => true | _ => false end.

End Aux.

(** ** Vocabulary of the further properties *)

(** The layout's views are as before: the same views listed, the same
    active one, the same mode and units controller, and every viewer
    synced or not as it was. Only the draw requests and the synced index
    may differ. *)
Record same_views (L L' : Layout) : Prop := {
  same_cube_views : cube_views L' = cube_views L;
  same_active_cube : active_cube L' = active_cube L;
  same_mode : single_viewer_mode L' = single_viewer_mode L;
  same_units_controller : units_controller L' = units_controller L;
  same_synced : forall v, synced (viewers L' v) = synced (viewers L v)
}.

(** What the slider leaves alone when its value or its range is set: the
    axis with its units and format, the label, the subscription, the
    fast-draw flag, the widgets' enabled flags and style sheets, and the
    layout's views. *)
Record Kept (s s' : Controller) : Prop := {
  kept_wavelengths : wavelengths s' = wavelengths s;
  kept_units : wavelength_units s' = wavelength_units s;
  kept_format : wavelength_format s' = wavelength_format s;
  kept_label : wavelength_textbox_label s' = wavelength_textbox_label s;
  kept_label_text : wavelength_label_text s' = wavelength_label_text s;
  kept_subscribed : subscribed s' = subscribed s;
  kept_flag : slider_flag s' = slider_flag s;
  kept_slider_enabled :
    sl_enabled (slice_slider s') = sl_enabled (slice_slider s);
  kept_slice_enabled :
    le_enabled (slice_textbox s') = le_enabled (slice_textbox s);
  kept_wavelength_enabled :
    le_enabled (wavelength_textbox s') = le_enabled (wavelength_textbox s);
  kept_slice_style :
    styleSheet (slice_textbox s') = styleSheet (slice_textbox s);
  kept_wavelength_style :
    styleSheet (wavelength_textbox s') = styleSheet (wavelength_textbox s);
  kept_views : same_views (cv_layout s) (cv_layout s')
}.

(** The computation returns and leaves the controller bound to [axis]
    with the synced index an index of [axis]. *)
Definition keeps (axis : list float) (c : M unit) (s : Controller) : Prop :=
  fst (c s) = Ok tt /\ Inv (final (c s)) axis.

Section Cursor.

Context {B : Builtins}.

Local Open Scope py_scope.

(** The position [specviz_wavelength_slider_change] hands on. [z] is the
    redshift if there is one and it is not zero: the observed position is
    then turned into the rest wavelength, and that into the nearest
    wavelength of the axis. *)
Definition rest_position (z : option float) (pos : option float)
    : M (option float) :=
  match z with
  | Some z =>
      p <- lift Py.TypeError pos ;;
      rest_wavelength <- truediv p (1 + z)%float ;;
      i <- nearest rest_wavelength ;;
      w <- wavelength_at i ;;
      ret (Some w)
  | None => ret pos
  end.

End Cursor.

(* ================================================================== *)
(** * Facts about [int] and [str] *)
(* ================================================================== *)

Module PyFacts.

Import Py Aux.
Local Open Scope Z_scope.

(** An integer never equals a string. *)
Lemma eq_int_str n s : eq (VInt n) (VStr s) = false.
Proof. reflexivity. Qed.

Lemma lstrip_no_space s : no_space s -> lstrip s = s.
Proof.
  destruct s as [|c r]; [reflexivity|]. intros H. inversion H; subst.
  cbn. now rewrite H2.
Qed.

Lemma rstrip_no_space s : no_space s -> rstrip s = s.
Proof.
  induction s as [|c r IH]; [reflexivity|]. intros H. inversion H; subst.
  cbn. rewrite IH by assumption. rewrite H2. now destruct r.
Qed.

Lemma strip_no_space s : no_space s -> strip s = s.
Proof.
  intros H. unfold strip. now rewrite lstrip_no_space, rstrip_no_space.
Qed.

Lemma uint_no_space u : no_space (NilEmpty.string_of_uint u).
Proof.
  induction u; cbn; constructor; auto.
Qed.

Lemma digits_acc u p :
  digits (NilEmpty.string_of_uint u) true (Zpos p)
  = Some (Zpos (Pos.of_uint_acc u p)).
Proof.
  revert p.
  induction u; intros p; cbn [NilEmpty.string_of_uint Pos.of_uint_acc];
    try reflexivity;
    rewrite <- IHu; cbn [digits];
    match goal with
    | |- context [digit_of ?c] =>
        let d := eval vm_compute in (digit_of c) in
        change (digit_of c) with d; cbv iota
    end;
    f_equal; lia.
Qed.

Lemma digits_uint u b :
  u <> Decimal.Nil ->
  digits (NilEmpty.string_of_uint u) b 0 = Some (Z.of_uint u).
Proof.
  revert b. unfold Z.of_uint.
  induction u; intros b Hne; try congruence;
    cbn [NilEmpty.string_of_uint digits Pos.of_uint];
    match goal with
    | |- context [digit_of ?c] =>
        let d := eval vm_compute in (digit_of c) in
        change (digit_of c) with d; cbv iota
    end;
    cbn [Z.mul Z.add Z.of_N]; try apply digits_acc.
  destruct u; try (apply IHu; discriminate). reflexivity.
Qed.

Lemma digits_decimal u b :
  digits (NilZero.string_of_uint u) b 0 = Some (Z.of_uint u).
Proof.
  destruct u; try (apply digits_uint; discriminate). reflexivity.
Qed.

(** [int(str(n)) == n] *)
Lemma int_str n : int (str n) = Some n.
Proof.
  unfold int, str. rewrite strip_no_space.
  - rewrite <- (DecimalZ.of_to n) at 2.
    destruct (Z.to_int n) as [u|u]; cbn [NilZero.string_of_int Z.of_int].
    + pose proof (digits_decimal u false) as H.
      destruct u; cbn [NilZero.string_of_uint NilEmpty.string_of_uint] in *;
        exact H.
    + now rewrite digits_decimal.
  - destruct (Z.to_int n) as [u|u]; cbn [NilZero.string_of_int].
    + destruct u; try apply uint_no_space. repeat constructor.
    + constructor; [reflexivity|].
      destruct u; try apply uint_no_space. repeat constructor.
Qed.

End PyFacts.

(* ================================================================== *)
(** * Facts about the float order *)
(* ================================================================== *)

Module NpFacts.

Import Np Aux.
Local Open Scope Z_scope.

Lemma lt_sf a b : lt a b = sf_lt (Prim2SF a) (Prim2SF b).
Proof.
  unfold lt, sf_lt, is_nan. now rewrite ltb_spec, !eqb_spec.
Qed.

Ltac cmp_cases :=
  repeat match goal with
  | |- context [Z.compare ?a ?b] =>
      destruct (Z.compare_spec a b); subst
  | |- context [Pos.compare_cont Eq ?a ?b] =>
      change (Pos.compare_cont Eq a b) with (Pos.compare a b);
      destruct (Pos.compare_spec a b); subst
  end.

Lemma sf_lt_rank x y : sf_lt x y = true <-> lex_lt (rank x) (rank y).
Proof.
  unfold sf_lt, lex_lt, SFltb, SFeqb.
  destruct x as [[|]|[|]| |[|] mx ex], y as [[|]|[|]| |[|] my ey];
    cbn [SFcompare rank fst snd negb andb orb];
    cmp_cases; cbn [negb andb orb CompOpp]; split; intros; try discriminate;
    try reflexivity; try lia.
Qed.

Lemma lt_rank a b :
  lt a b = true <-> lex_lt (rank (Prim2SF a)) (rank (Prim2SF b)).
Proof. rewrite lt_sf. apply sf_lt_rank. Qed.

Lemma lt_false_rank a b :
  lt a b = false <-> ~ lex_lt (rank (Prim2SF a)) (rank (Prim2SF b)).
Proof.
  rewrite <- lt_rank. destruct (lt a b); split; intros; congruence.
Qed.

Lemma lt_irrefl a : lt a a = false.
Proof. apply lt_false_rank. unfold lex_lt. lia. Qed.

Lemma lt_asym a b : lt a b = true -> lt b a = false.
Proof.
  rewrite lt_rank, lt_false_rank. unfold lex_lt. lia.
Qed.

(** [lt a b = false] reads [b <= a]; it is transitive. *)
Lemma ge_trans a b c : lt a b = false -> lt b c = false -> lt a c = false.
Proof.
  rewrite !lt_false_rank. unfold lex_lt. lia.
Qed.

Lemma lt_ge_trans a b c : lt a b = true -> lt c b = false -> lt a c = true.
Proof.
  rewrite !lt_rank, lt_false_rank. unfold lex_lt. lia.
Qed.

Lemma ge_lt_trans a b c : lt b a = false -> lt b c = true -> lt a c = true.
Proof.
  rewrite !lt_rank, lt_false_rank. unfold lex_lt. lia.
Qed.


Lemma ltb_lt a b : (a <? b)%float = true -> lt a b = true.
Proof. unfold lt. now intros ->. Qed.



Lemma Prim2SF_zero : Prim2SF 0 = S754_zero false.
Proof. reflexivity. Qed.

Lemma Prim2SF_infinity : Prim2SF infinity = S754_infinity false.
Proof. reflexivity. Qed.

(** A finite float minus itself is [+0]. *)
Lemma sub_self a : is_finite a = true -> (a - a)%float = 0%float.
Proof.
  intros H. apply Prim2SF_inj. rewrite sub_spec, Prim2SF_zero. revert H.
  unfold is_finite, is_nan, is_infinity.
  rewrite !eqb_spec, abs_spec, Prim2SF_infinity.
  destruct (Prim2SF a) as [[|]|[|]| |s m e]; cbn; try discriminate;
    try reflexivity.
  intros _. unfold SF64sub, SFsub. rewrite Z.min_id.
  unfold shl_align. rewrite !Z.sub_diag. reflexivity.
Qed.

(** An absolute value not above zero is [+0]. *)
Lemma lt_zero_abs y : lt 0 (abs y) = false -> abs y = 0%float.
Proof.
  rewrite lt_sf, abs_spec, Prim2SF_zero. intros H.
  apply Prim2SF_inj. rewrite abs_spec, Prim2SF_zero.
  destruct (Prim2SF y) as [[|]|[|]| |[|] m e]; cbn in *;
    try discriminate; reflexivity.
Qed.

Lemma lt_zero_neq x : lt 0 x = true -> (x =? 0)%float = false.
Proof.
  rewrite lt_sf, eqb_spec, Prim2SF_zero.
  destruct (Prim2SF x) as [[|]|[|]| |[|] m e]; cbn; try discriminate;
    reflexivity.
Qed.

Lemma key_abs_diff axis w j :
  (j < List.length axis)%nat ->
  key (abs_diff axis w) j = abs (nth j axis nan - w).
Proof.
  intros Hj. unfold key, abs_diff.
  rewrite (nth_indep _ nan (abs (nan - w))) by (rewrite length_map; exact Hj).
  apply (map_nth (fun a => abs (a - w))).
Qed.

End NpFacts.

(* ================================================================== *)
(** * Subtraction of binary64 floats: zero exactly on equal operands *)
(* ================================================================== *)

Module SubFacts.

Import Aux.
Local Open Scope Z_scope.

Lemma dig_pos m : 0 < dig m.
Proof. unfold dig. lia. Qed.

Lemma dig_spec m : 2 ^ (dig m - 1) <= Zpos m < 2 ^ dig m.
Proof.
  unfold dig. induction m as [m IH|m IH|]; cbn [digits2_pos].
  - rewrite Pos2Z.inj_succ.
    replace (Z.succ (Zpos (digits2_pos m)) - 1)
      with (Z.succ (Zpos (digits2_pos m) - 1)) by lia.
    rewrite !Z.pow_succ_r by lia. lia.
  - rewrite Pos2Z.inj_succ.
    replace (Z.succ (Zpos (digits2_pos m)) - 1)
      with (Z.succ (Zpos (digits2_pos m) - 1)) by lia.
    rewrite !Z.pow_succ_r by lia. lia.
  - cbn. lia.
Qed.

Lemma dig_unique m d : 2 ^ (d - 1) <= Zpos m < 2 ^ d -> dig m = d.
Proof.
  intros [Hlo Hhi]. pose proof (dig_spec m) as [Hlo' Hhi'].
  pose proof (dig_pos m) as Hd.
  assert (Hd0 : 0 < d).
  { destruct (Z.lt_ge_cases 0 d) as [|Hle]; [assumption|].
    rewrite (Z.pow_neg_r 2 (d - 1)) in Hlo by lia.
    destruct (Z.eq_dec d 0) as [->|]; [cbn in Hhi; lia|].
    rewrite (Z.pow_neg_r 2 d) in Hhi by lia. lia. }
  destruct (Z.lt_trichotomy (dig m) d) as [Hlt | [Heq | Hgt]];
    [exfalso | assumption | exfalso].
  - assert (2 ^ dig m <= 2 ^ (d - 1)) by (apply Z.pow_le_mono_r; lia). lia.
  - assert (2 ^ d <= 2 ^ (dig m - 1)) by (apply Z.pow_le_mono_r; lia). lia.
Qed.

Lemma dig_shift m m' k :
  0 <= k -> Zpos m' = Zpos m * 2 ^ k -> dig m' = dig m + k.
Proof.
  intros Hk E. apply dig_unique. rewrite E.
  pose proof (dig_spec m) as [Hlo Hhi]. pose proof (dig_pos m).
  replace (dig m + k - 1) with (dig m - 1 + k) by lia.
  rewrite !Z.pow_add_r by lia.
  assert (0 < 2 ^ k) by (apply Z.pow_pos_nonneg; lia). nia.
Qed.

Lemma iter_xO m d : Zpos (Pos.iter xO m d) = Zpos m * 2 ^ Zpos d.
Proof.
  change (Pos.iter xO m d) with (shift_pos d m).
  rewrite shift_pos_correct, Z.pow_pos_fold. lia.
Qed.

(** The mantissa after [shl_align] to a lower exponent. *)
Lemma shl_align_spec m e e' :
  e' <= e ->
  Zpos (fst (shl_align m e e')) = Zpos m * 2 ^ (e - e') /\
  snd (shl_align m e e') = e'.
Proof.
  intros Hle. unfold shl_align.
  destruct (e' - e) as [|p|p] eqn:E; cbn [fst snd]; try lia.
  - replace (e - e') with 0 by lia. split; lia.
  - rewrite iter_xO. replace (e - e') with (Zpos p) by lia. split; lia.
Qed.

(** ** Right shifts never lose a whole mantissa *)

Lemma shr_1_m mrs :
  0 <= shr_m mrs -> shr_m (shr_1 mrs) = shr_m mrs / 2.
Proof.
  destruct mrs as [m r s]. cbn [shr_m]. intros Hm.
  rewrite <- Z.div2_div.
  destruct m as [|[p|p|]|p]; try reflexivity; lia.
Qed.

Lemma shr_iter_m p : forall mrs,
  0 <= shr_m mrs ->
  shr_m (iter_pos shr_1 p mrs) = shr_m mrs / 2 ^ Zpos p.
Proof.
  induction p as [p IH|p IH|]; intros mrs Hm; cbn [iter_pos].
  - assert (H1 : 0 <= shr_m (shr_1 mrs))
      by (rewrite shr_1_m by assumption; apply Z.div_pos; lia).
    assert (H2 : 0 <= shr_m (iter_pos shr_1 p (shr_1 mrs)))
      by (rewrite IH by assumption; apply Z.div_pos; [|apply Z.pow_pos_nonneg];
          lia).
    rewrite IH, IH, shr_1_m by assumption.
    assert (0 < 2 ^ Zpos p) by (apply Z.pow_pos_nonneg; lia).
    rewrite !Z.div_div by lia. f_equal.
    assert (E : Zpos p~1 = 1 + Zpos p + Zpos p) by lia. rewrite E.
    rewrite !Z.pow_add_r, Z.pow_1_r by lia. ring.
  - assert (H2 : 0 <= shr_m (iter_pos shr_1 p mrs))
      by (rewrite IH by assumption; apply Z.div_pos; [|apply Z.pow_pos_nonneg];
          lia).
    rewrite IH, IH by assumption.
    assert (0 < 2 ^ Zpos p) by (apply Z.pow_pos_nonneg; lia).
    rewrite !Z.div_div by lia. f_equal.
    assert (E : Zpos p~0 = Zpos p + Zpos p) by lia. rewrite E.
    rewrite Z.pow_add_r by lia. ring.
  - rewrite shr_1_m by assumption. now rewrite Z.pow_1_r.
Qed.

Lemma fexp64_eq e : fexp64 e = Z.max (e - 53) (-1074).
Proof. reflexivity. Qed.

(** After [shr_fexp] a positive mantissa at an exponent not below [emin]
    is still positive, at an exponent not below [emin]. *)
Lemma shr_fexp_pos m e l :
  -1074 <= e ->
  0 < shr_m (fst (shr_fexp prec emax (Zpos m) e l)) /\
  -1074 <= snd (shr_fexp prec emax (Zpos m) e l).
Proof.
  intros He. unfold shr_fexp, shr. cbn [Zdigits2].
  change (fexp prec emax) with fexp64. rewrite fexp64_eq.
  fold (dig m). pose proof (dig_spec m) as [Hlo Hhi]. pose proof (dig_pos m).
  assert (Hm : shr_m (shr_record_of_loc (Zpos m) l) = Zpos m)
    by (destruct l as [|[| |]]; reflexivity).
  destruct (Z.max (dig m + e - 53) (-1074) - e) as [|p|p] eqn:E;
    cbn [fst snd]; rewrite ?Hm; try (split; lia).
  rewrite shr_iter_m by (rewrite Hm; lia). rewrite Hm. split; [|lia].
  apply Z.div_str_pos. split; [apply Z.pow_pos_nonneg; lia|].
  apply Z.le_trans with (2 ^ (dig m - 1)); [|assumption].
  apply Z.pow_le_mono_r; lia.
Qed.

Lemma binary_round_aux_nonzero s m e :
  -1074 <= e ->
  is_zero_sf (binary_round_aux prec emax s (Zpos m) e loc_Exact) = false.
Proof.
  intros He. unfold binary_round_aux.
  pose proof (shr_fexp_pos m e loc_Exact He) as [H1 He1].
  destruct (shr_fexp prec emax (Zpos m) e loc_Exact) as [mrs' e'].
  cbn [fst snd] in H1, He1.
  set (m2 := round_nearest_even (shr_m mrs') (loc_of_shr_record mrs')).
  assert (Hm2 : 0 < m2).
  { subst m2. unfold round_nearest_even.
    destruct (loc_of_shr_record mrs') as [|[| |]]; try lia.
    destruct (Z.even _); lia. }
  destruct m2 as [|m2|m2]; try lia.
  pose proof (shr_fexp_pos m2 e' loc_Exact He1) as [H3 _].
  destruct (shr_fexp prec emax (Zpos m2) e' loc_Exact) as [mrs'' e''].
  cbn [fst] in H3.
  destruct (shr_m mrs'') as [|m3|m3]; try lia.
  now destruct (e'' <=? emax - prec).
Qed.

Lemma binary_normalize_zero M e :
  -1074 <= e ->
  is_zero_sf (binary_normalize prec emax M e false) = (M =? 0).
Proof.
  intros He. unfold binary_normalize, binary_round.
  destruct M as [|m|m]; [reflexivity| |];
    match goal with
    | |- context [shl_align ?a ?b ?c] =>
        assert (Hs : -1074 <= snd (shl_align a b c));
        [ unfold shl_align;
          destruct (c - b) as [|p|p] eqn:E; cbn [snd]; try lia;
          change (fexp prec emax) with fexp64 in *;
          rewrite fexp64_eq in *; lia
        | destruct (shl_align a b c) as [mz ez]; cbn [snd] in Hs;
          now apply binary_round_aux_nonzero ]
    end.
Qed.

(** ** Valid finite floats *)

Lemma bounded_canonical m e :
  bounded prec emax m e = true -> fexp64 (dig m + e) = e /\ -1074 <= e.
Proof.
  unfold bounded, canonical_mantissa. intros [H _]%andb_prop.
  apply Z.eqb_eq in H. change (fexp prec emax) with fexp64 in H.
  fold (dig m) in H. split; [exact H|]. rewrite fexp64_eq in H. lia.
Qed.

(** Two valid finite floats of the same value are the same float. *)
Lemma aligned_eq mx ex my ey :
  bounded prec emax mx ex = true -> bounded prec emax my ey = true ->
  fst (shl_align mx ex (Z.min ex ey)) = fst (shl_align my ey (Z.min ex ey)) ->
  mx = my /\ ex = ey.
Proof.
  intros [Hcx Hx]%bounded_canonical [Hcy Hy]%bounded_canonical E.
  destruct (shl_align_spec mx ex (Z.min ex ey)) as [Ex _]; [lia|].
  destruct (shl_align_spec my ey (Z.min ex ey)) as [Ey _]; [lia|].
  rewrite E in Ex.
  assert (Hd : dig mx + ex = dig my + ey).
  { pose proof (dig_shift mx _ (ex - Z.min ex ey) ltac:(lia) Ex) as D1.
    pose proof (dig_shift my _ (ey - Z.min ex ey) ltac:(lia) Ey) as D2.
    lia. }
  assert (Hee : ex = ey) by congruence. subst ey.
  split; [|reflexivity].
  rewrite Z.min_id, Z.sub_diag in *. cbn in Ex, Ey. lia.
Qed.

Lemma SFeqb_finite sx mx ex sy my ey :
  SFeqb (S754_finite sx mx ex) (S754_finite sy my ey) = true <->
  sx = sy /\ mx = my /\ ex = ey.
Proof.
  unfold SFeqb. cbn [SFcompare]. split.
  - destruct sx, sy; try discriminate;
      destruct (Z.compare_spec ex ey); try discriminate; subst;
      change (Pos.compare_cont Eq mx my) with (Pos.compare mx my);
      destruct (Pos.compare_spec mx my); try discriminate; subst; auto.
  - intros (-> & -> & ->). rewrite Z.compare_refl, Pos.compare_cont_refl.
    now destruct sy.
Qed.

Lemma SFeqb_abs_zero R : SFeqb (SFabs R) (S754_zero false) = is_zero_sf R.
Proof. now destruct R as [[|]|[|]| |[|] m e]. Qed.

(** On valid floats with a finite subtrahend, the difference is a zero
    exactly when the operands compare equal. *)
Lemma sub_zero_sf X Y :
  valid_binary X = true -> valid_binary Y = true ->
  match Y with S754_zero _ | S754_finite _ _ _ => True | _ => False end ->
  is_zero_sf (SF64sub X Y) = SFeqb X Y.
Proof.
  intros HX HY Hfin.
  destruct Y as [sy| | |sy my ey]; try contradiction;
    destruct X as [sx|sx| |sx mx ex]; try reflexivity;
    try (now destruct sx, sy).
  cbn [valid_binary] in HX, HY.
  destruct (bounded_canonical _ _ HX) as [_ Hex].
  destruct (bounded_canonical _ _ HY) as [_ Hey].
  unfold SF64sub, SFsub. rewrite binary_normalize_zero by lia.
  destruct (SFeqb (S754_finite sx mx ex) (S754_finite sy my ey)) eqn:E.
  - apply SFeqb_finite in E. destruct E as (-> & -> & ->).
    rewrite Z.sub_diag. reflexivity.
  - apply Z.eqb_neq. intros HM. apply Bool.not_true_iff_false in E.
    apply E, SFeqb_finite.
    assert (Hs : sx = sy)
      by (destruct sx, sy; cbn in HM; try reflexivity; lia).
    subst sy. split; [reflexivity|].
    apply aligned_eq; try assumption.
    unfold cond_Zopp in HM. destruct sx; lia.
Qed.

(** [abs(x - y) == 0] exactly when [x == y], for a finite [y]. *)
Lemma abs_sub_eqb x y :
  is_finite y = true -> (abs (x - y) =? 0)%float = (x =? y)%float.
Proof.
  intros Hfin.
  rewrite !eqb_spec, abs_spec, sub_spec, NpFacts.Prim2SF_zero, SFeqb_abs_zero.
  apply sub_zero_sf; try apply Prim2SF_valid.
  revert Hfin. unfold is_finite, is_nan, is_infinity.
  rewrite !eqb_spec, abs_spec, NpFacts.Prim2SF_infinity.
  now destruct (Prim2SF y) as [[|]|[|]| |s m e].
Qed.

End SubFacts.

(* ================================================================== *)
(** * [argsort]: the reference implementation meets its contracts *)
(* ================================================================== *)

Module ArgsortFacts.

Import Np NpFacts.
Local Open Scope nat_scope.

Lemma before_trans l i j x : before l i j -> before l j x -> before l i x.
Proof.
  unfold before. intros [Hij | [Hji Hlt]] [Hjx | [Hxj Hlt']].
  - left. destruct (lt (key l i) (key l x)) eqn:E; [reflexivity|].
    pose proof (lt_asym _ _ Hjx) as Hxj.
    now rewrite (ge_trans _ _ _ E Hxj) in Hij.
  - left. eapply lt_ge_trans; eassumption.
  - left. eapply ge_lt_trans; eassumption.
  - right. split; [eapply ge_trans; eassumption | lia].
Qed.

Lemma StronglySorted_weaken {A} (R R' : A -> A -> Prop) (l : list A) :
  (forall a b, R a b -> R' a b) -> StronglySorted R l -> StronglySorted R' l.
Proof.
  intros HR. induction 1 as [|a l Hs IH Hall]; constructor; auto.
  eapply Forall_impl; [|exact Hall]. auto.
Qed.

Lemma insert_Forall (P : nat -> Prop) l i s :
  P i -> Forall P s -> Forall P (insert l i s).
Proof.
  intros Hi. induction 1 as [|j r Hj Hr IH]; cbn.
  - auto.
  - destruct (lt (key l j) (key l i)); auto.
Qed.

Lemma insert_perm l i s : Permutation (insert l i s) (i :: s).
Proof.
  induction s as [|j r IH]; cbn.
  - reflexivity.
  - destruct (lt (key l j) (key l i)).
    + rewrite IH. apply perm_swap.
    + reflexivity.
Qed.

Lemma insert_sorted l i s :
  StronglySorted (before l) s -> Forall (fun j => i < j) s ->
  StronglySorted (before l) (insert l i s).
Proof.
  induction 1 as [|j r Hs IH Hall]; intros Hgt; cbn.
  - repeat constructor.
  - inversion Hgt as [|? ? Hij Hgt']; subst.
    destruct (lt (key l j) (key l i)) eqn:E.
    + constructor; [auto|].
      apply insert_Forall; [now left | assumption].
    + assert (Hb : before l i j) by (right; auto).
      constructor; [now constructor|].
      constructor; [assumption|].
      eapply Forall_impl; [|exact Hall].
      intros x Hx. eapply before_trans; eassumption.
Qed.

Lemma sort_from l start n :
  let r := fold_right (insert l) [] (seq start n) in
  StronglySorted (before l) r /\ Forall (fun j => start <= j) r /\
  Permutation r (seq start n).
Proof.
  revert start. induction n as [|n IH]; intros start; cbn.
  - repeat constructor.
  - destruct (IH (S start)) as (Hs & Hge & Hp).
    repeat split.
    + apply insert_sorted; [assumption|].
      eapply Forall_impl; [|exact Hge]. cbn. intros; lia.
    + apply insert_Forall; [lia|].
      eapply Forall_impl; [|exact Hge]. cbn. intros; lia.
    + rewrite insert_perm. now constructor.
Qed.

Lemma stable_argsort_spec : ArgsortSpec stable_argsort.
Proof.
  split; intros l; destruct (sort_from l 0 (List.length l)) as (Hs & _ & Hp).
  - exact Hp.
  - eapply StronglySorted_weaken; [|exact Hs].
    intros i j [H | [H _]]; [now apply lt_asym | exact H].
Qed.

Lemma stable_argsort_stable : ArgsortStable stable_argsort.
Proof.
  intros l. destruct (sort_from l 0 (List.length l)) as (Hs & _ & _).
  eapply StronglySorted_weaken; [|exact Hs].
  intros i j [H | [_ H]]; auto.
Qed.

(** ** The argsort that is not stable sorts all the same *)




(** ** The first index an argsort returns *)

Section Head.

Variable f : list float -> list nat.
Hypothesis Hspec : ArgsortSpec f.

Lemma head_some (l : list float) :
  l <> [] -> exists k, hd_error (f l) = Some k.
Proof.
  intros Hl. pose proof (argsort_perm f Hspec l) as Hp.
  destruct (f l) as [|k r] eqn:E.
  - apply Permutation_nil in Hp. destruct l; [congruence | discriminate].
  - now exists k.
Qed.

Lemma head_in_range l k : hd_error (f l) = Some k -> k < List.length l.
Proof.
  intros Hk. pose proof (argsort_perm f Hspec l) as Hp.
  destruct (f l) as [|k' r]; inversion Hk; subst.
  assert (In k (seq 0 (List.length l)))
    by (eapply Permutation_in; [exact Hp | now left]).
  apply in_seq in H. lia.
Qed.

Lemma head_rest l k j :
  hd_error (f l) = Some k -> j < List.length l -> j <> k ->
  In j (tl (f l)).
Proof.
  intros Hk Hj Hne. pose proof (argsort_perm f Hspec l) as Hp.
  destruct (f l) as [|k' r]; inversion Hk; subst.
  assert (In j (k :: r)).
  { eapply Permutation_in; [symmetry; exact Hp|]. apply in_seq. lia. }
  destruct H; [congruence | assumption].
Qed.

(** No index has a key below the head's. *)
Lemma head_min l k j :
  hd_error (f l) = Some k -> j < List.length l ->
  lt (key l j) (key l k) = false.
Proof.
  intros Hk Hj. destruct (Nat.eq_dec j k) as [->|Hne].
  - apply lt_irrefl.
  - pose proof (head_rest l k j Hk Hj Hne) as Hin.
    pose proof (argsort_sorted f Hspec l) as Hs.
    destruct (f l) as [|k' r]; inversion Hk; subst.
    inversion Hs as [|? ? _ Hall]; subst.
    rewrite Forall_forall in Hall. now apply Hall.
Qed.

(** With a stable argsort, every lower index has a greater key. *)
Lemma head_lowest l k j :
  ArgsortStable f -> hd_error (f l) = Some k -> j < k ->
  lt (key l k) (key l j) = true.
Proof.
  intros Hst Hk Hj.
  pose proof (head_in_range l k Hk) as Hr.
  assert (Hin : In j (tl (f l))) by (apply (head_rest l k j Hk); lia).
  specialize (Hst l).
  destruct (f l) as [|k' r]; inversion Hk; subst.
  inversion Hst as [|? ? _ Hall]; subst.
  rewrite Forall_forall in Hall. destruct (Hall _ Hin); [assumption | lia].
Qed.

End Head.

End ArgsortFacts.

(* ================================================================== *)
(** * The controller's handlers in closed form *)
(* ================================================================== *)

Section ControllerFacts.

Context {B : Builtins}.

Local Open Scope Z_scope.
Local Open Scope py_scope.

Lemma apply_to_viewers_eq i s : apply_to_viewers i s = (Ok tt, applied i s).
Proof.
  unfold apply_to_viewers, applied, fan_out, bind, get, modify, with_layout, emit.
  cbn.
  destruct (synced _ && negb _); reflexivity.
Qed.

Lemma index_in_range {A} (l : list A) (d : A) i :
  0 <= i < Z.of_nat (List.length l) ->
  Py.index l i = Some (nth (Z.to_nat i) l d).
Proof.
  intros H. unfold Py.index.
  replace (0 <=? i) with true by (symmetry; apply Z.leb_le; lia).
  replace (i <? Z.of_nat (List.length l)) with true
    by (symmetry; apply Z.ltb_lt; lia).
  cbn. apply nth_error_nth'. lia.
Qed.

Lemma wavelength_at_eq s axis i :
  wavelengths s = Some axis -> 0 <= i < Z.of_nat (List.length axis) ->
  wavelength_at i s = (Ok (nth (Z.to_nat i) axis nan), s).
Proof.
  intros Ha Hi. unfold wavelength_at, bind, get, lift. cbn. rewrite Ha. cbn.
  now rewrite (index_in_range axis nan i Hi).
Qed.

Lemma nearest_eq s axis w k :
  wavelengths s = Some axis -> nearest_index axis w = Some k ->
  nearest w s = (Ok (Z.of_nat k), s).
Proof.
  intros Ha Hk. unfold nearest, bind, get, lift. cbn. rewrite Ha. cbn.
  now rewrite Hk.
Qed.

Lemma abs_diff_length axis w : List.length (Np.abs_diff axis w) = List.length axis.
Proof. apply length_map. Qed.

Lemma nearest_index_some axis w :
  Np.ArgsortSpec argsort -> axis <> [] ->
  exists k, nearest_index axis w = Some k /\ (k < List.length axis)%nat.
Proof.
  intros Hs Hne.
  destruct (ArgsortFacts.head_some argsort Hs (Np.abs_diff axis w)) as [k Hk].
  - destruct axis; [congruence | discriminate].
  - exists k. split; [exact Hk|].
    rewrite <- (abs_diff_length axis w).
    eapply (ArgsortFacts.head_in_range argsort); eassumption.
Qed.

(** [master_index_update] when the slider already shows the index: the
    text boxes are reconciled and the index is applied to the viewers. *)
Lemma master_index_update_at f i axis s :
  Np.ArgsortSpec argsort ->
  wavelengths s = Some axis -> 0 <= i < Z.of_nat (List.length axis) ->
  value (slice_slider s) = i ->
  master_index_update_from f i s = apply_to_viewers i (reconciled axis i s).
Proof.
  intros Hs Ha Hi Hv.
  assert (Hne : axis <> []) by (destruct axis; [cbn in Hi; lia | discriminate]).
  unfold master_index_update_from, reconciled, resolves_to.
  unfold bind at 1. unfold get at 1. cbv iota beta.
  set (s1 := match Py.int (text (slice_textbox s)) with
             | Some n => if n =? i then s
                         else with_slice_textbox (setText (Py.str i)) s
             | None => with_slice_textbox (setText (Py.str i)) s
             end).
  assert (H1 : when (negb (match Py.int (text (slice_textbox s)) with
                           | Some n => n | None => -1 end =? i))
                 (modify (with_slice_textbox (setText (Py.str i)))) s
               = (Ok tt, s1)).
  { subst s1. destruct (Py.int (text (slice_textbox s))) as [n|].
    - destruct (n =? i); reflexivity.
    - replace (-1 =? i) with false by (symmetry; apply Z.eqb_neq; lia).
      reflexivity. }
  assert (Ha1 : wavelengths s1 = Some axis).
  { subst s1. destruct (Py.int _) as [n|]; [destruct (n =? i)|]; exact Ha. }
  assert (Hv1 : value (slice_slider s1) = i).
  { subst s1. destruct (Py.int _) as [n|]; [destruct (n =? i)|]; exact Hv. }
  unfold bind at 1. rewrite H1. cbv iota beta.
  destruct (float_of_text (text (wavelength_textbox s))) as [w|].
  - destruct (nearest_index_some axis w Hs Hne) as (k & Hk & _).
    unfold bind at 1. rewrite (nearest_eq s1 axis w k Ha1 Hk). cbv iota beta. rewrite Hk.
    rewrite (Z.eqb_sym i). destruct (Z.of_nat k =? i); cbn [negb when].
    + unfold bind at 1. unfold ret at 1. cbv iota beta.
      unfold bind at 1. unfold get at 1. cbv iota beta.
      rewrite Hv1, Z.eqb_refl. reflexivity.
    + unfold bind at 1. unfold bind at 1.
      rewrite (wavelength_at_eq s1 axis i Ha1 Hi). cbv iota beta.
      unfold modify at 1. cbv iota beta.
      unfold bind at 1. unfold get at 1. cbv iota beta.
      cbn [with_wavelength_textbox slice_slider]. rewrite Hv1, Z.eqb_refl.
      reflexivity.
  - unfold bind at 1. unfold ret at 1. cbv iota beta.
    replace (i =? -1) with false by (symmetry; apply Z.eqb_neq; lia).
    cbn [negb when].
    unfold bind at 1. unfold bind at 1.
    rewrite (wavelength_at_eq s1 axis i Ha1 Hi). cbv iota beta.
    unfold modify at 1. cbv iota beta.
    unfold bind at 1. unfold get at 1. cbv iota beta.
    cbn [with_wavelength_textbox slice_slider]. rewrite Hv1, Z.eqb_refl.
    reflexivity.
Qed.


Lemma bind_cong {A C} (c : M A) (k k' : A -> M C) s :
  (forall a s', c s = (Ok a, s') -> k a s' = k' a s') ->
  bind c k s = bind c k' s.
Proof.
  intros H. unfold bind. destruct (c s) as [[a|e] s']; auto.
Qed.

Lemma nearest_pure w s : snd (nearest w s) = s.
Proof.
  unfold nearest, bind, get, lift, ret, raise. cbv iota beta.
  destruct (wavelengths s) as [axis|]; [|reflexivity].
  destruct (nearest_index axis w); reflexivity.
Qed.

Lemma wavelength_at_pure i s : snd (wavelength_at i s) = s.
Proof.
  unfold wavelength_at, bind, get, lift, ret, raise. cbv iota beta.
  destruct (wavelengths s) as [axis|]; [|reflexivity].
  destruct (Py.index axis i); reflexivity.
Qed.

(** The cascade stops after one round: the handler finds the slider at
    the index it was notified of and never calls [setValue] again. *)
Lemma master_index_update_from_ext f g i s :
  value (slice_slider s) = i ->
  master_index_update_from f i s = master_index_update_from g i s.
Proof.
  intros Hv. unfold master_index_update_from.
  apply bind_cong. intros s0 s0' E. inversion E; subst s0 s0'; clear E.
  apply bind_cong. intros [] s1 E1.
  assert (Hv1 : value (slice_slider s1) = i).
  { destruct (negb _) in E1; inversion E1; try subst s1; exact Hv. }
  apply bind_cong. intros wv s2 E2.
  assert (Hv2 : value (slice_slider s2) = i).
  { destruct (float_of_text _) as [w|].
    - pose proof (nearest_pure w s1) as Hp. rewrite E2 in Hp. cbn in Hp.
      now subst s2.
    - inversion E2; now subst s2. }
  apply bind_cong. intros [] s3 E3.
  assert (Hv3 : value (slice_slider s3) = i).
  { destruct (negb _) in E3; cbn [when] in E3; [|inversion E3; now subst s3].
    unfold bind in E3.
    pose proof (wavelength_at_pure i s2) as Hp. revert E3 Hp.
    destruct (wavelength_at i s2) as [[w|e] s2']; cbn; intros E3 Hp;
      subst s2'; inversion E3; try subst s3; exact Hv2. }
  apply bind_cong. intros s4 s4' E. inversion E; subst s4 s4'; clear E.
  rewrite Hv3, Z.eqb_refl. reflexivity.
Qed.

Lemma slider_fuel n v s :
  slider_setValue (S n) v s = slider_setValue 1 v s.
Proof.
  cbn [slider_setValue].
  destruct (bound (slice_slider s) v =? value (slice_slider s)); [reflexivity|].
  unfold _on_slider_change_from, broadcast, bind, get, when. cbv iota beta.
  destruct (subscribed _); [|reflexivity].
  apply master_index_update_from_ext. reflexivity.
Qed.

Lemma setValue_no_overflow v s : fst (setValue v s) <> Raise Py.RecursionError.
Proof.
  unfold setValue, signal_depth. rewrite slider_fuel. cbn [slider_setValue].
  destruct (bound (slice_slider s) v =? value (slice_slider s));
    [discriminate|].
  unfold _on_slider_change_from, broadcast, bind, get, when. cbv iota beta.
  destruct (subscribed _); [|discriminate].
  rewrite (master_index_update_from_ext _ (fun _ => ret tt)) by reflexivity.
  unfold master_index_update_from, nearest, wavelength_at.
  unfold bind, get, when, modify, ret, lift, raise.
  cbv iota beta.
  repeat match goal with
  | |- context [match ?x with _ => _ end] =>
      lazymatch x with
      | context [match _ with _ => _ end] => fail
      | _ => destruct x eqn:?
      end; cbn [negb fst snd]
  end; try discriminate;
  rewrite apply_to_viewers_eq; discriminate.
Qed.


(** ** [setValue] on a bound controller *)

Lemma reconciled_frame axis i s :
  let s' := reconciled axis i s in
  slice_slider s' = slice_slider s /\ wavelengths s' = wavelengths s /\
  subscribed s' = subscribed s /\ cv_layout s' = cv_layout s /\
  emitted s' = emitted s /\ slider_flag s' = slider_flag s /\
  styleSheet (slice_textbox s') = styleSheet (slice_textbox s) /\
  styleSheet (wavelength_textbox s') = styleSheet (wavelength_textbox s).
Proof.
  unfold reconciled.
  destruct (Py.int _) as [n|]; [destruct (n =? i)|];
    destruct (resolves_to _ _ _); cbn; repeat split; reflexivity.
Qed.

Lemma bound_in_range s axis v :
  Ranged s axis ->
  0 <= bound (slice_slider s) v < Z.of_nat (List.length axis).
Proof.
  intros [_ Hne _ Hmin Hmax]. unfold bound. rewrite Hmin, Hmax.
  destruct axis; [congruence|]. cbn [List.length] in *. lia.
Qed.

Lemma bound_id s axis v :
  Ranged s axis -> 0 <= v < Z.of_nat (List.length axis) ->
  bound (slice_slider s) v = v.
Proof.
  intros [_ _ _ Hmin Hmax] Hv. unfold bound. rewrite Hmin, Hmax. lia.
Qed.

Lemma setValue_eq v axis s :
  Np.ArgsortSpec argsort -> Ranged s axis ->
  setValue v s =
  (Ok tt,
   if bound (slice_slider s) v =? value (slice_slider s) then s
   else moved axis (bound (slice_slider s) v) s).
Proof.
  intros Hs Hb. pose proof (bound_in_range s axis v Hb) as Hi.
  unfold setValue, signal_depth. cbn [slider_setValue].
  destruct (bound (slice_slider s) v =? value (slice_slider s)); [reflexivity|].
  unfold _on_slider_change_from, broadcast, bind, get, when. cbv iota beta.
  cbn [subscribed with_slice_slider]. rewrite (ranged_subscribed _ _ Hb).
  cbn [slice_slider with_slice_slider value set_value].
  rewrite (master_index_update_at _ _ axis); auto.
  - apply apply_to_viewers_eq.
  - exact (ranged_axis _ _ Hb).
Qed.

Lemma moved_frame axis i s :
  let s' := moved axis i s in
  value (slice_slider s') = i /\
  minimum (slice_slider s') = minimum (slice_slider s) /\
  maximum (slice_slider s') = maximum (slice_slider s) /\
  wavelengths s' = wavelengths s /\ subscribed s' = subscribed s /\
  slider_flag s' = slider_flag s /\
  emitted s' = ChangedDispersionPosition i :: emitted s /\
  styleSheet (slice_textbox s') = styleSheet (slice_textbox s) /\
  styleSheet (wavelength_textbox s') = styleSheet (wavelength_textbox s) /\
  cv_layout s' = fan_out (draw_request (slider_flag s) i) i (cv_layout s).
Proof.
  unfold moved, applied.
  destruct (reconciled_frame axis i (with_slice_slider (set_value i) s))
    as (H1 & H2 & H3 & H4 & H5 & H6 & H7 & H8).
  cbn [slice_slider emit with_layout wavelengths subscribed slider_flag
       emitted slice_textbox wavelength_textbox cv_layout].
  rewrite H1, H2, H3, H4, H5, H6, H7, H8. cbn. repeat split; reflexivity.
Qed.

Lemma Bound_moved axis i s :
  Ranged s axis -> 0 <= i < Z.of_nat (List.length axis) ->
  Bound (moved axis i s) axis.
Proof.
  intros [Ha Hne Hsub Hmin Hmax] Hi.
  destruct (moved_frame axis i s) as (H1 & H2 & H3 & H4 & H5 & _).
  split; [split|]; congruence.
Qed.

(** Whatever the slider held, after [setValue] it holds an index. *)
Lemma Bound_setValue v axis s :
  Np.ArgsortSpec argsort -> Ranged s axis ->
  Bound (final (setValue v s)) axis.
Proof.
  intros Hs Hb. rewrite (setValue_eq v axis s Hs Hb). cbn [final snd].
  pose proof (bound_in_range s axis v Hb) as Hi.
  destruct (_ =? _) eqn:E.
  - apply Z.eqb_eq in E. split; [assumption | congruence].
  - now apply Bound_moved.
Qed.

Lemma setValue_value v axis s :
  Np.ArgsortSpec argsort -> Ranged s axis ->
  value (slice_slider (final (setValue v s))) = bound (slice_slider s) v.
Proof.
  intros Hs Hb. rewrite (setValue_eq v axis s Hs Hb). cbn [final snd].
  destruct (_ =? _) eqn:E.
  - apply Z.eqb_eq in E. congruence.
  - apply moved_frame.
Qed.

Lemma fan_out_synced_index d i L :
  synced_index (fan_out d i L) = i \/
  synced_index (fan_out d i L) = synced_index L.
Proof.
  unfold fan_out. destruct (synced _ && negb _); [left | right]; reflexivity.
Qed.

(** [setValue] leaves the synced index alone or sets it to the slider's
    new value. *)
Lemma setValue_synced_index v axis s :
  Np.ArgsortSpec argsort -> Ranged s axis ->
  let s' := final (setValue v s) in
  synced_index (cv_layout s') = bound (slice_slider s) v \/
  synced_index (cv_layout s') = synced_index (cv_layout s).
Proof.
  intros Hs Hb. rewrite (setValue_eq v axis s Hs Hb). cbn [final snd].
  destruct (_ =? _); [now right|].
  destruct (moved_frame axis (bound (slice_slider s) v) s)
    as (_ & _ & _ & _ & _ & _ & _ & _ & _ & HL).
  cbv zeta in HL. rewrite HL. apply fan_out_synced_index.
Qed.

Lemma _on_text_wavelength_change_resolved s axis pos w k :
  wavelengths s = Some axis ->
  match pos with
  | Some p => Some p
  | None => float_of_text (text (wavelength_textbox s))
  end = Some w ->
  nearest_index axis w = Some k ->
  _on_text_wavelength_change pos s =
  setValue (Z.of_nat k) (with_wavelength_textbox (setStyleSheet "") s).
Proof.
  intros Ha Hw Hk.
  unfold _on_text_wavelength_change. unfold bind at 1, get at 1.
  cbv iota beta. rewrite Hw.
  unfold bind at 1. rewrite (nearest_eq s axis w k Ha Hk).
  reflexivity.
Qed.

End ControllerFacts.

(* ================================================================== *)
(** * The worked configuration is a bound controller *)
(* ================================================================== *)

Lemma example_start_bound : Bound Example.start Example.axis.
Proof.
  split; [split; [reflexivity | discriminate | reflexivity..]|].
  vm_compute; split; [discriminate | reflexivity].
Qed.

Lemma example_argsort_spec : Np.ArgsortSpec (@argsort Example.builtins).
Proof. exact ArgsortFacts.stable_argsort_spec. Qed.

Lemma example_argsort_stable : Np.ArgsortStable (@argsort Example.builtins).
Proof. exact ArgsortFacts.stable_argsort_stable. Qed.

(* ================================================================== *)
(** * Nearest-wavelength resolution *)
(* ================================================================== *)

Section Resolution.

Context {B : Builtins}.

Local Open Scope Z_scope.


(** C5 (amended). Resolving the wavelength of an axis member [axis[i]] that
    is a finite number returns an index [k] holding a wavelength equal to
    it. [k = i] when no other index holds that wavelength; with a stable
    ordering routine [k] is the lowest index holding it, so [k <= i]. *)
Theorem resolve_axis_member axis i a :
  Np.ArgsortSpec argsort ->
  nth_error axis i = Some a -> is_finite a = true ->
  exists k : nat,
    nearest_index axis a = Some k /\
    (k < List.length axis)%nat /\
    (nth k axis nan =? a)%float = true /\
    ((forall j, (j < List.length axis)%nat -> j <> i ->
        (nth j axis nan =? a)%float = false) ->
     k = i) /\
    (Np.ArgsortStable argsort ->
     (k <= i)%nat /\
     forall j, (j < k)%nat -> (nth j axis nan =? a)%float = false).
Proof.
  intros Hs Ha Hfin.
  assert (Hi : (i < List.length axis)%nat)
    by (apply nth_error_Some; congruence).
  assert (Hne : axis <> []) by (destruct axis; [cbn in Hi; lia | discriminate]).
  destruct (nearest_index_some axis a Hs Hne) as (k & Hk & Hlt).
  assert (Hdi : Np.key (Np.abs_diff axis a) i = 0%float).
  { rewrite NpFacts.key_abs_diff by assumption.
    rewrite (nth_error_nth _ _ nan Ha), (NpFacts.sub_self a Hfin).
    reflexivity. }
  assert (Hdk : abs (nth k axis nan - a) = 0%float).
  { apply NpFacts.lt_zero_abs. rewrite <- Hdi at 1.
    rewrite <- NpFacts.key_abs_diff by assumption.
    apply (ArgsortFacts.head_min argsort Hs (Np.abs_diff axis a) k i);
      [exact Hk|].
    now rewrite abs_diff_length. }
  assert (Hsame : (nth k axis nan =? a)%float = true).
  { rewrite <- (SubFacts.abs_sub_eqb _ _ Hfin), Hdk. reflexivity. }
  exists k. split; [exact Hk|]. split; [exact Hlt|]. split; [exact Hsame|].
  split.
  - intros Hnone. destruct (Nat.eq_dec k i) as [|Hki]; [assumption|].
    rewrite (Hnone k Hlt Hki) in Hsame. discriminate.
  - intros Hst.
    assert (Hki : (k <= i)%nat).
    { destruct (Nat.le_gt_cases k i) as [|Hik]; [assumption|]. exfalso.
      pose proof (ArgsortFacts.head_lowest argsort Hs (Np.abs_diff axis a)
                    k i Hst Hk Hik) as Hlow.
      rewrite Hdi, NpFacts.key_abs_diff, Hdk in Hlow by assumption.
      now rewrite NpFacts.lt_irrefl in Hlow. }
    split; [exact Hki|].
    intros j Hj. rewrite <- (SubFacts.abs_sub_eqb _ _ Hfin).
    apply NpFacts.lt_zero_neq. rewrite <- Hdk.
    rewrite <- !NpFacts.key_abs_diff by lia.
    exact (ArgsortFacts.head_lowest argsort Hs (Np.abs_diff axis a) k j
             Hst Hk Hj).
Qed.

End Resolution.



(** C5 as the spec states it fails on an axis that repeats a wavelength,
    and on an infinite wavelength: index 1 resolves to index 0. *)
Lemma resolve_axis_member_counterexample :
  (nth_error [1; 1]%float 1 = Some 1%float /\
   @nearest_index Example.builtins [1; 1]%float 1%float = Some 0%nat) /\
  (nth_error [1; infinity]%float 1 = Some infinity /\
   @nearest_index Example.builtins [1; infinity]%float infinity = Some 0%nat).
Proof. repeat split. Qed.

(** C5 (amended), at index 1 of the worked axis, which holds each
    wavelength once. *)
Lemma resolve_axis_member_witness :
  exists k : nat,
    @nearest_index Example.builtins Example.axis 1.0625%float = Some k /\
    k = 1%nat.
Proof.
  destruct (@resolve_axis_member Example.builtins Example.axis 1%nat
              1.0625%float example_argsort_spec eq_refl eq_refl)
    as (k & Hk & _ & _ & Huniq & _).
  exists k. split; [exact Hk|]. apply Huniq.
  intros [|[|[|[|j]]]] Hj Hne; try reflexivity;
    [congruence | cbn in Hj; lia].
Defined.

(* ================================================================== *)
(** * The synced index stays an index of the axis *)
(* ================================================================== *)

Section Invariant.

Context {B : Builtins}.

Local Open Scope Z_scope.
Local Open Scope py_scope.

Lemma setValue_run v axis s :
  Np.ArgsortSpec argsort -> Ranged s axis ->
  exists s',
    setValue v s = (Ok tt, s') /\ Bound s' axis /\
    value (slice_slider s') = bound (slice_slider s) v /\
    (synced_index (cv_layout s') = synced_index (cv_layout s) \/
     SyncedInRange s' axis).
Proof.
  intros Hs Hr. exists (final (setValue v s)).
  split; [|split; [|split]].
  - rewrite (setValue_eq v axis s Hs Hr). reflexivity.
  - apply Bound_setValue; assumption.
  - now apply (setValue_value v axis).
  - destruct (setValue_synced_index v axis s Hs Hr) as [H|H]; [right|now left].
    unfold SyncedInRange. rewrite H. now apply bound_in_range.
Qed.

Lemma setMinimum_zero s :
  minimum (slice_slider s) = 0 -> 0 <= maximum (slice_slider s) ->
  setMinimum 0 s = (Ok tt, s).
Proof.
  intros Hmin Hmax. unfold setMinimum, setRange, bind, get, when.
  cbv iota beta. rewrite Hmin.
  replace (Z.max 0 (Z.max (maximum (slice_slider s)) 0))
    with (maximum (slice_slider s)) by lia.
  now rewrite !Z.eqb_refl.
Qed.

Lemma setMaximum_run s axis :
  Np.ArgsortSpec argsort ->
  wavelengths s = Some axis -> axis <> [] -> subscribed s = true ->
  minimum (slice_slider s) = 0 ->
  0 <= value (slice_slider s) <= maximum (slice_slider s) ->
  exists s',
    setMaximum (Z.of_nat (List.length axis) - 1) s = (Ok tt, s') /\
    Bound s' axis /\
    (synced_index (cv_layout s') = synced_index (cv_layout s) \/
     SyncedInRange s' axis).
Proof.
  intros Hs Ha Hne Hsub Hmin Hval.
  assert (Hlen : 0 < Z.of_nat (List.length axis))
    by (destruct axis; [congruence | cbn; lia]).
  unfold setMaximum, setRange, bind, get, when. cbv iota beta. rewrite Hmin.
  replace (Z.min 0 (Z.of_nat (List.length axis) - 1)) with 0 by lia.
  replace (Z.max 0 (Z.of_nat (List.length axis) - 1))
    with (Z.of_nat (List.length axis) - 1) by lia.
  cbn [Z.eqb andb].
  destruct (Z.of_nat (List.length axis) - 1 =? maximum (slice_slider s)) eqn:E;
    cbn [negb].
  - apply Z.eqb_eq in E. exists s.
    split; [reflexivity|]. split; [|now left].
    split; [split; auto; lia | lia].
  - unfold modify. cbv iota beta.
    destruct (setValue_run (value (slice_slider s)) axis
                (with_slice_slider (set_range 0 (Z.of_nat (List.length axis) - 1)) s)
                Hs) as (s' & Hrun & Hb & _ & Hsync).
    + split; auto.
    + exists s'. auto.
Qed.

Lemma Bound_frame s s' axis :
  slice_slider s' = slice_slider s -> wavelengths s' = wavelengths s ->
  subscribed s' = subscribed s -> Bound s axis -> Bound s' axis.
Proof.
  intros H1 H2 H3 [[Ha Hne Hsub Hmin Hmax] Hv].
  split; [split|]; congruence.
Qed.

Lemma enable_invariant s units axis :
  Np.ArgsortSpec argsort -> axis <> [] ->
  minimum (slice_slider s) = 0 ->
  0 <= value (slice_slider s) <= maximum (slice_slider s) ->
  fst (enable units axis s) = Ok tt /\ Inv (final (enable units axis s)) axis.
Proof.
  intros Hs Hne Hmin Hval.
  assert (Hlen : 0 < Z.of_nat (List.length axis))
    by (destruct axis; [congruence | cbn; lia]).
  assert (Hmid : 0 <= Z.of_nat (List.length axis) / 2
                 < Z.of_nat (List.length axis)).
  { split; [apply Z.div_pos; lia | apply Z.div_lt_upper_bound; lia]. }
  destruct (enable units axis s) as [o s'] eqn:E. cbn [fst final snd].
  unfold enable in E.
  unfold bind at 1 in E. unfold set_enabled, bind at 1, modify at 1 in E.
  cbv iota beta in E. unfold bind at 1, modify at 1 in E. cbv iota beta in E.
  unfold modify at 1 in E. cbv iota beta in E.
  unfold bind at 1, modify at 1 in E. cbv iota beta in E.
  unfold bind at 1 in E. rewrite setMinimum_zero in E by (cbn; lia).
  cbv iota beta in E.
  unfold bind at 1, modify at 1 in E. cbv iota beta in E.
  unfold bind at 1 in E.
  lazymatch type of E with
  | context [setMaximum _ ?s3] =>
      destruct (setMaximum_run s3 axis Hs) as (s5 & E5 & Hb5 & _);
      [reflexivity | assumption | reflexivity | exact Hmin | exact Hval |]
  end.
  rewrite E5 in E. cbv iota beta in E.
  destruct (setValue_run (Z.of_nat (List.length axis) / 2) axis s5 Hs
              (bound_ranged _ _ Hb5)) as (s6 & E6 & Hb6 & Hv6 & _).
  unfold bind at 1 in E. rewrite E6 in E. cbv iota beta in E.
  unfold bind at 1 in E.
  rewrite (wavelength_at_eq s6 axis _
             (ranged_axis _ _ (bound_ranged _ _ Hb6)) Hmid) in E.
  cbv iota beta in E. unfold bind at 1, get at 1 in E. cbv iota beta in E.
  unfold bind at 1, modify at 1 in E. cbv iota beta in E. unfold modify in E.
  inversion E; subst o s'; clear E. split; [reflexivity|]. split.
  - eapply Bound_frame; [| | | exact Hb6]; reflexivity.
  - exact Hmid.
Qed.

Lemma set_wavelengths_invariant s axis new_wavelengths new_units :
  Np.ArgsortSpec argsort -> Inv s axis ->
  synced_index (cv_layout s) < Z.of_nat (List.length new_wavelengths) ->
  fst (set_wavelengths new_wavelengths new_units s) = Ok tt /\
  Inv (final (set_wavelengths new_wavelengths new_units s)) new_wavelengths.
Proof.
  intros Hs [[[Ha Hne Hsub Hmin Hmax] Hv] Hsync] Hnew.
  unfold SyncedInRange in Hsync.
  assert (Hne' : new_wavelengths <> [])
    by (destruct new_wavelengths; [cbn in Hnew; lia | discriminate]).
  destruct (set_wavelengths new_wavelengths new_units s) as [o s'] eqn:E.
  cbn [fst final snd]. unfold set_wavelengths in E.
  unfold bind at 1, modify at 1 in E. cbv iota beta in E.
  unfold bind at 1 in E.
  lazymatch type of E with
  | context [setMaximum _ ?s1] =>
      destruct (setMaximum_run s1 new_wavelengths Hs) as (s2 & E2 & Hb2 & Hs2);
      [reflexivity | assumption | exact Hsub | exact Hmin
      | cbn [slice_slider with_label with_axis]; lia |]
  end.
  rewrite E2 in E. cbv iota beta in E.
  assert (Hsync2 : SyncedInRange s2 new_wavelengths).
  { destruct Hs2 as [H|H]; [|exact H]. unfold SyncedInRange. rewrite H.
    cbn [cv_layout with_label with_axis]. lia. }
  unfold bind at 1, get at 1 in E. cbv iota beta in E.
  unfold bind at 1 in E.
  rewrite (wavelength_at_eq s2 new_wavelengths _
             (ranged_axis _ _ (bound_ranged _ _ Hb2)) Hsync2) in E.
  cbv iota beta in E. unfold bind at 1, modify at 1 in E. cbv iota beta in E.
  unfold modify in E.
  inversion E; subst o s'; clear E. split; [reflexivity|]. split.
  - eapply Bound_frame; [| | | exact Hb2]; reflexivity.
  - exact Hsync2.
Qed.

Lemma apply_to_viewers_invariant s axis i :
  Inv s axis -> 0 <= i < Z.of_nat (List.length axis) ->
  fst (apply_to_viewers i s) = Ok tt /\
  Inv (final (apply_to_viewers i s)) axis.
Proof.
  intros [Hb Hsync] Hi. rewrite apply_to_viewers_eq. cbn [fst final snd].
  split; [reflexivity|]. split.
  - eapply Bound_frame; [| | | exact Hb]; reflexivity.
  - unfold SyncedInRange, applied. cbn [cv_layout emit with_layout].
    destruct (fan_out_synced_index (draw_request (slider_flag s) i) i
                (cv_layout s)) as [H|H]; rewrite H; assumption.
Qed.

Lemma _on_slider_released_eq s :
  _on_slider_released s =
  (Ok tt,
   emit (ChangedDispersionPosition (value (slice_slider s)))
     (with_layout
        (fan_out (FullDraw (value (slice_slider s))) (value (slice_slider s)))
        (with_slider_flag false s))).
Proof.
  unfold _on_slider_released, fan_out, bind, get, modify, with_layout, emit.
  cbn. destruct (synced _ && negb _); reflexivity.
Qed.

Lemma _on_slider_released_invariant s axis :
  Inv s axis ->
  fst (_on_slider_released s) = Ok tt /\
  Inv (final (_on_slider_released s)) axis.
Proof.
  intros [Hb Hsync]. rewrite _on_slider_released_eq. cbn [fst final snd].
  split; [reflexivity|]. split.
  - eapply Bound_frame; [| | | exact Hb]; reflexivity.
  - unfold SyncedInRange. cbn [cv_layout emit with_layout with_slider_flag].
    destruct (fan_out_synced_index (FullDraw (value (slice_slider s)))
                (value (slice_slider s)) (cv_layout s)) as [H|H]; rewrite H.
    + exact (bound_value _ _ Hb).
    + exact Hsync.
Qed.

(** C3 (amended). On a controller bound to the axis (slider range
    [[0, len(axis)-1]], slider value in it) the synced index is an index of
    the axis, and this invariant is established by [enable] on a non-empty
    axis, and preserved by [set_wavelengths] when the new axis is longer
    than the synced index, by [apply_to_viewers] on an index of the axis,
    and by the slider's release. Each of them returns. *)
Theorem synced_index_invariant :
  Np.ArgsortSpec argsort ->
  (forall s units axis,
     axis <> [] -> minimum (slice_slider s) = 0 ->
     0 <= value (slice_slider s) <= maximum (slice_slider s) ->
     fst (enable units axis s) = Ok tt /\
     Inv (final (enable units axis s)) axis) /\
  (forall s axis new_wavelengths new_units,
     Inv s axis ->
     synced_index (cv_layout s) < Z.of_nat (List.length new_wavelengths) ->
     fst (set_wavelengths new_wavelengths new_units s) = Ok tt /\
     Inv (final (set_wavelengths new_wavelengths new_units s)) new_wavelengths) /\
  (forall s axis i,
     Inv s axis -> 0 <= i < Z.of_nat (List.length axis) ->
     fst (apply_to_viewers i s) = Ok tt /\
     Inv (final (apply_to_viewers i s)) axis) /\
  (forall s axis,
     Inv s axis ->
     fst (_on_slider_released s) = Ok tt /\
     Inv (final (_on_slider_released s)) axis).
Proof.
  intros Hs. split; [|split; [|split]].
  - intros. now apply enable_invariant.
  - intros s axis nw nu Hinv Hlt. now apply (set_wavelengths_invariant s axis).
  - intros. now apply apply_to_viewers_invariant.
  - intros. now apply _on_slider_released_invariant.
Qed.

End Invariant.

(* ================================================================== *)
(** * The fan-out to the viewers *)
(* ================================================================== *)

Section FanOut.

Local Open Scope Z_scope.

Lemma draw_on_viewers view d L v :
  viewers (draw_on view d L) v =
  if Nat.eqb v view
  then {| synced := synced (viewers L v); draws := d :: draws (viewers L v) |}
  else viewers L v.
Proof. reflexivity. Qed.

(** The loop over [cube_views]: a synced viewer receives one request per
    occurrence in the list, every other viewer none. *)
Lemma draw_loop d views : forall L,
  let L' :=
    fold_left
      (fun L view => if synced (viewers L view) then draw_on view d L else L)
      views L in
  synced_index L' = synced_index L /\
  forall v,
    synced (viewers L' v) = synced (viewers L v) /\
    draws (viewers L' v) =
      ((if synced (viewers L v)
        then repeat d (count_occ Nat.eq_dec views v) else [])
       ++ draws (viewers L v))%list.
Proof.
  induction views as [|x views IH]; intros L; cbn [fold_left].
  - split; [reflexivity|]. intros v. split; [reflexivity|].
    cbn. now destruct (synced (viewers L v)).
  - cbv zeta in IH.
    destruct (synced (viewers L x)) eqn:Ex.
    + destruct (IH (draw_on x d L)) as [Hi Hv]. split; [exact Hi|].
      intros v. destruct (Hv v) as [Hs Hd]. rewrite Hs, Hd.
      rewrite draw_on_viewers. cbn [count_occ].
      destruct (Nat.eq_dec x v) as [->|Hne].
      * rewrite Nat.eqb_refl. cbn [synced draws]. split; [reflexivity|].
        rewrite Ex. cbn [repeat]. rewrite repeat_cons, <- app_assoc.
        reflexivity.
      * replace (Nat.eqb v x) with false
          by (symmetry; apply Nat.eqb_neq; congruence).
        split; reflexivity.
    + destruct (IH L) as [Hi Hv]. split; [exact Hi|].
      intros v. destruct (Hv v) as [Hs Hd]. rewrite Hs, Hd.
      split; [reflexivity|]. cbn [count_occ].
      destruct (Nat.eq_dec x v) as [->|Hne]; [|reflexivity].
      now rewrite Ex.
Qed.

(** C6. [apply_to_viewers(i)] returns and emits "position changed" with
    [i]. When the active viewer is synced and single-viewer mode is off,
    every synced viewer among the cube views gets a draw request for [i]
    (fast or full by the slider flag; one per occurrence in the list), no
    other viewer gets one, and the synced index becomes [i]. Otherwise only
    the active viewer gets the request and the synced index is kept. *)
Theorem apply_to_viewers_fan_out (s : Controller) (i : Z) :
  let L := cv_layout s in
  let L' := cv_layout (final (apply_to_viewers i s)) in
  let d := draw_request (slider_flag s) i in
  fst (apply_to_viewers i s) = Ok tt /\
  emitted (final (apply_to_viewers i s))
    = ChangedDispersionPosition i :: emitted s /\
  (synced (viewers L (active_cube L)) = true /\ single_viewer_mode L = false ->
   synced_index L' = i /\
   forall v,
     draws (viewers L' v) =
       ((if synced (viewers L v)
         then repeat d (count_occ Nat.eq_dec (cube_views L) v) else [])
        ++ draws (viewers L v))%list) /\
  (synced (viewers L (active_cube L)) = false \/ single_viewer_mode L = true ->
   synced_index L' = synced_index L /\
   forall v,
     draws (viewers L' v) =
       if Nat.eqb v (active_cube L) then d :: draws (viewers L v)
       else draws (viewers L v)).
Proof.
  cbv zeta. rewrite apply_to_viewers_eq. cbn [fst final snd].
  split; [reflexivity|]. split; [reflexivity|].
  unfold applied. cbn [cv_layout emit with_layout]. unfold fan_out. split.
  - intros [Hs Hm]. rewrite Hs, Hm. cbn [negb andb].
    split; [reflexivity|]. intros v.
    cbn [viewers set_synced_index]. unfold draw_synced.
    apply (draw_loop (draw_request (slider_flag s) i) (cube_views (cv_layout s))).
  - intros H.
    replace (synced (viewers (cv_layout s) (active_cube (cv_layout s)))
             && negb (single_viewer_mode (cv_layout s))) with false.
    + split; [reflexivity|]. intros v. rewrite draw_on_viewers.
      now destruct (Nat.eqb v _).
    + destruct H as [-> | ->]; [reflexivity|].
      now rewrite andb_false_r.
Qed.

End FanOut.

(** C6, at the worked configuration: views 0 and 2 are synced, view 1 is
    not, view 0 is active; then the same in single-viewer mode. *)
Lemma apply_to_viewers_fan_out_witness :
  (let L' := cv_layout (final (apply_to_viewers 3 Example.start)) in
   synced_index L' = 3 /\
   draws (viewers L' 0%nat) = [FullDraw 3; FullDraw 2] /\
   draws (viewers L' 1%nat) = [] /\
   draws (viewers L' 2%nat) = [FullDraw 3; FullDraw 2]) /\
  (let L' := cv_layout (final (apply_to_viewers 3 Example.start_single)) in
   synced_index L' = 2 /\
   draws (viewers L' 0%nat) = [FullDraw 3; FullDraw 2] /\
   draws (viewers L' 1%nat) = [] /\
   draws (viewers L' 2%nat) = []).
Proof.
  split.
  - destruct (apply_to_viewers_fan_out Example.start 3) as (_ & _ & H & _).
    destruct (H (conj eq_refl eq_refl)) as [Hi Hd].
    split; [exact Hi|].
    split; [exact (Hd 0%nat)|]. split; [exact (Hd 1%nat) | exact (Hd 2%nat)].
  - destruct (apply_to_viewers_fan_out Example.start_single 3)
      as (_ & _ & _ & H).
    destruct (H (or_intror eq_refl)) as [Hi Hd].
    split; [exact Hi|].
    split; [exact (Hd 0%nat)|]. split; [exact (Hd 1%nat) | exact (Hd 2%nat)].
Defined.

(* ================================================================== *)
(** * The slider and the text boxes *)
(* ================================================================== *)

Section TextBoxes.

Context {B : Builtins}.

Local Open Scope Z_scope.
Local Open Scope py_scope.

Lemma reconciled_slice_text axis i s :
  text (slice_textbox (reconciled axis i s)) =
  match Py.int (text (slice_textbox s)) with
  | Some n => if n =? i then text (slice_textbox s) else Py.str i
  | None => Py.str i
  end.
Proof.
  unfold reconciled.
  destruct (Py.int _) as [n|]; [destruct (n =? i)|];
    destruct (resolves_to _ _ _); reflexivity.
Qed.

Lemma reconciled_wavelength_text axis i s :
  text (wavelength_textbox (reconciled axis i s)) =
  if resolves_to axis (text (wavelength_textbox s)) i
  then text (wavelength_textbox s)
  else str_of_float (nth (Z.to_nat i) axis nan).
Proof.
  unfold reconciled.
  destruct (Py.int _) as [n|]; [destruct (n =? i)|];
    destruct (resolves_to _ _ _); reflexivity.
Qed.


(** ** The slice box *)

(** A text that parses runs the clamp and the slider update. *)
Lemma _on_text_slice_change_run s n :
  Py.int (text (slice_textbox s)) = Some n ->
  _on_text_slice_change s =
  (len <- axis_len ;; setValue (clamped n len))
    (with_slice_textbox (setStyleSheet "") s).
Proof.
  intros Hn.
  unfold _on_text_slice_change. unfold bind at 1, get at 1. cbv iota beta.
  rewrite Hn. unfold bind at 1, modify at 1. cbv iota beta.
  rewrite PyFacts.eq_int_str. reflexivity.
Qed.


Lemma _on_text_slice_change_parsed s axis n :
  wavelengths s = Some axis ->
  Py.int (text (slice_textbox s)) = Some n ->
  _on_text_slice_change s =
  setValue (clamped n (Z.of_nat (List.length axis)))
    (with_slice_textbox (setStyleSheet "") s).
Proof.
  intros Ha Hn. rewrite (_on_text_slice_change_run s n Hn).
  unfold axis_len, bind, get, lift, ret. cbv iota beta.
  cbn [wavelengths with_slice_textbox]. rewrite Ha. reflexivity.
Qed.

Lemma Ranged_frame s s' axis :
  slice_slider s' = slice_slider s -> wavelengths s' = wavelengths s ->
  subscribed s' = subscribed s -> Ranged s axis -> Ranged s' axis.
Proof.
  intros H1 H2 H3 [Ha Hne Hsub Hmin Hmax]. split; congruence.
Qed.


(** C10. [change_slider_value(amount)] returns and its last emitted event
    is "position changed" with the slider's previous value plus [amount],
    not clamped, while the slider itself ends at that sum clamped into
    [[0, len(axis)-1]]. So whenever the sum leaves that range the emitted
    position is outside it and differs from the slider's value, and from
    every state some amount makes that happen. *)
Theorem change_slider_value_emits_unclamped s axis :
  Np.ArgsortSpec argsort -> Bound s axis ->
  let len := Z.of_nat (List.length axis) in
  (forall amount,
     let pos := value (slice_slider s) + amount in
     let s' := final (change_slider_value amount s) in
     fst (change_slider_value amount s) = Ok tt /\
     hd_error (emitted s') = Some (ChangedDispersionPosition pos) /\
     value (slice_slider s') = Z.max 0 (Z.min (len - 1) pos) /\
     (pos < 0 \/ len - 1 < pos ->
      0 <= value (slice_slider s') <= len - 1 /\
      value (slice_slider s') <> pos)) /\
  (exists amount pos,
     let s' := final (change_slider_value amount s) in
     hd_error (emitted s') = Some (ChangedDispersionPosition pos) /\
     len - 1 < pos /\ 0 <= value (slice_slider s') <= len - 1).
Proof.
  intros Hs [Hr Hv]. cbv zeta.
  assert (Hlen : 0 < Z.of_nat (List.length axis)).
  { destruct Hr as [_ Hne _ _ _]. destruct axis; [congruence | cbn; lia]. }
  assert (Hall : forall amount,
    fst (change_slider_value amount s) = Ok tt /\
    hd_error (emitted (final (change_slider_value amount s)))
      = Some (ChangedDispersionPosition (value (slice_slider s) + amount)) /\
    value (slice_slider (final (change_slider_value amount s)))
      = Z.max 0 (Z.min (Z.of_nat (List.length axis) - 1)
                   (value (slice_slider s) + amount))).
  { intros amount.
    assert (Hrun : change_slider_value amount s =
                   (Ok tt,
                    emit (ChangedDispersionPosition
                            (value (slice_slider s) + amount))
                      (final (setValue (value (slice_slider s) + amount) s)))).
    { unfold change_slider_value, bind, get, modify. cbv iota beta.
      now rewrite (setValue_eq _ axis s Hs Hr). }
    rewrite Hrun. cbn [fst final snd emitted emit hd_error slice_slider].
    change (snd (setValue (value (slice_slider s) + amount) s))
      with (final (setValue (value (slice_slider s) + amount) s)).
    rewrite (setValue_value _ axis s Hs Hr). unfold bound.
    rewrite (ranged_minimum _ _ Hr), (ranged_maximum _ _ Hr).
    repeat split. }
  split.
  - intros amount. destruct (Hall amount) as (H1 & H2 & H3).
    rewrite H3. repeat split; try assumption; lia.
  - exists (Z.of_nat (List.length axis)),
           (value (slice_slider s) + Z.of_nat (List.length axis)).
    destruct (Hall (Z.of_nat (List.length axis))) as (_ & H2 & H3).
    rewrite H3. repeat split; try assumption; lia.
Qed.

End TextBoxes.

(* ================================================================== *)
(** * Invalid text, and the cursor of the spectral viewer *)
(* ================================================================== *)

Section Validation.

Context {B : Builtins}.

Local Open Scope Z_scope.
Local Open Scope py_scope.

Lemma setValue_styles v axis s :
  Np.ArgsortSpec argsort -> Ranged s axis ->
  styleSheet (slice_textbox (final (setValue v s)))
    = styleSheet (slice_textbox s) /\
  styleSheet (wavelength_textbox (final (setValue v s)))
    = styleSheet (wavelength_textbox s).
Proof.
  intros Hs Hr. rewrite (setValue_eq v axis s Hs Hr). cbn [final snd].
  destruct (_ =? _); [split; reflexivity|].
  destruct (moved_frame axis (bound (slice_slider s) v) s)
    as (_ & _ & _ & _ & _ & _ & _ & H1 & H2 & _).
  split; assumption.
Qed.


(** ** The cursor position of the spectral viewer *)

Lemma raise_flag_run s :
  exists s1,
    when (negb (slider_flag s)) (modify (with_slider_flag true)) s
      = (Ok tt, s1) /\
    wavelengths s1 = wavelengths s.
Proof.
  destruct (slider_flag s); eexists; split; reflexivity.
Qed.

(** C4. With a redshift [z] that is not zero (and not -1, where the
    division is undefined), the handler of the spectral viewer's cursor
    position turns the observed position [p] into the rest wavelength
    [p / (1 + z)], resolves it to the nearest index [k] of the axis, and
    hands the axis value [axis[k]] to [_on_text_wavelength_change]. With
    no units controller or a zero redshift it hands the position over
    unchanged. Both happen inside the fast-draw scope. *)
Theorem specviz_redshift_correction s axis p :
  Np.ArgsortSpec argsort -> wavelengths s = Some axis -> axis <> [] ->
  (forall z,
     units_controller (cv_layout s) = Some {| redshift_z := z |} ->
     (z =? 0)%float = false -> (1 + z =? 0)%float = false ->
     exists k : nat,
       (k < List.length axis)%nat /\
       nearest_index axis (p / (1 + z))%float = Some k /\
       specviz_wavelength_slider_change (Some p) s =
       fast_draw_scope
         (_on_text_wavelength_change (Some (nth k axis nan))) s) /\
  (forall pos,
     (units_controller (cv_layout s) = None \/
      exists u, units_controller (cv_layout s) = Some u /\
                (redshift_z u =? 0)%float = true) ->
     specviz_wavelength_slider_change pos s =
     fast_draw_scope (_on_text_wavelength_change pos) s).
Proof.
  intros Hs Ha Hne. split.
  - intros z Hu Hz Hz1.
    destruct (nearest_index_some axis (p / (1 + z))%float Hs Hne)
      as (k & Hk & Hlt).
    exists k. split; [exact Hlt|]. split; [exact Hk|].
    unfold specviz_wavelength_slider_change, fast_draw_scope.
    apply bind_cong. intros s0 s0' E. inversion E; subst s0 s0'; clear E.
    cbv zeta. apply bind_cong. intros [] s1 E1.
    assert (Ha1 : wavelengths s1 = Some axis).
    { destruct (raise_flag_run s) as (s1' & E1' & Ha1).
      rewrite E1 in E1'. inversion E1'; subst s1'. congruence. }
    unfold has_redshift. rewrite Hu. cbn [redshift_z]. rewrite Hz.
    unfold bind at 1. unfold bind at 1. unfold lift at 1, ret at 1.
    cbv iota beta. unfold bind at 1. unfold truediv at 1. rewrite Hz1.
    unfold ret at 1. cbv iota beta.
    unfold bind at 1. rewrite (nearest_eq s1 axis _ k Ha1 Hk). cbv iota beta.
    unfold bind at 1.
    rewrite (wavelength_at_eq s1 axis (Z.of_nat k) Ha1) by lia.
    cbv iota beta. unfold ret at 1. cbv iota beta.
    rewrite Nat2Z.id. reflexivity.
  - intros pos Hu.
    unfold specviz_wavelength_slider_change, fast_draw_scope.
    apply bind_cong. intros s0 s0' E. inversion E; subst s0 s0'; clear E.
    cbv zeta. apply bind_cong. intros [] s1 _.
    replace (has_redshift (cv_layout s)) with (@None float).
    + reflexivity.
    + unfold has_redshift. destruct Hu as [-> | (u & -> & ->)]; reflexivity.
Qed.

End Validation.

(* ================================================================== *)
(** * What a move of the slider leaves alone *)
(* ================================================================== *)

Section Frames.

Context {B : Builtins}.

Local Open Scope Z_scope.
Local Open Scope py_scope.

Lemma same_views_refl L : same_views L L.
Proof. split; reflexivity. Qed.

Lemma same_views_trans L1 L2 L3 :
  same_views L1 L2 -> same_views L2 L3 -> same_views L1 L3.
Proof.
  intros [a1 b1 c1 d1 e1] [a2 b2 c2 d2 e2].
  split; try congruence; intros v; now rewrite e2.
Qed.

Lemma draw_on_same_views view d L : same_views L (draw_on view d L).
Proof.
  split; try reflexivity. intros v. rewrite draw_on_viewers.
  now destruct (Nat.eqb v view).
Qed.

Lemma draw_loop_same_views d views : forall L,
  same_views L
    (fold_left
       (fun L view => if synced (viewers L view) then draw_on view d L else L)
       views L).
Proof.
  induction views as [|x views IH]; intros L; cbn [fold_left].
  - apply same_views_refl.
  - destruct (synced (viewers L x)); [|apply IH].
    eapply same_views_trans; [apply (draw_on_same_views x d)|apply IH].
Qed.

Lemma fan_out_same_views d i L : same_views L (fan_out d i L).
Proof.
  unfold fan_out. destruct (synced _ && negb _).
  - destruct (draw_loop_same_views d (cube_views L) L) as [a b c e f].
    split; assumption.
  - apply draw_on_same_views.
Qed.

Lemma Kept_refl s : Kept s s.
Proof. split; try reflexivity. apply same_views_refl. Qed.

Lemma Kept_trans s1 s2 s3 : Kept s1 s2 -> Kept s2 s3 -> Kept s1 s3.
Proof.
  intros H1 H2. destruct H1, H2. split; try congruence.
  eapply same_views_trans; eassumption.
Qed.

Lemma applied_kept i s : Kept s (applied i s).
Proof.
  split; try reflexivity. apply fan_out_same_views.
Qed.

(** The listener, whatever it finds in the boxes and whether or not it
    raises, leaves the slider and the setup alone. *)
Lemma master_index_update_from_kept i s :
  let r := master_index_update_from (fun _ => ret tt) i s in
  Kept s (final r) /\ slice_slider (final r) = slice_slider s.
Proof.
  cbv [master_index_update_from nearest wavelength_at
       bind get when modify ret lift raise].
  repeat match goal with
  | |- context [match ?x with _ => _ end] =>
      lazymatch x with
      | context [match _ with _ => _ end] => fail
      | _ => destruct x eqn:?
      end; cbn [negb fst snd final]
  end;
  try rewrite apply_to_viewers_eq; cbn [final snd];
  (split;
   [ try (eapply Kept_trans; [|apply applied_kept]);
     split; try reflexivity; apply same_views_refl
   | reflexivity ]).
Qed.

(** [setValue] in any state, and whether or not the listener raises:
    the slider holds the bounded value in the same range, and the setup is
    as before. *)
Lemma setValue_kept v s :
  Kept s (final (setValue v s)) /\
  value (slice_slider (final (setValue v s))) = bound (slice_slider s) v /\
  minimum (slice_slider (final (setValue v s))) = minimum (slice_slider s) /\
  maximum (slice_slider (final (setValue v s))) = maximum (slice_slider s).
Proof.
  unfold setValue, signal_depth. rewrite slider_fuel. cbn [slider_setValue].
  destruct (bound (slice_slider s) v =? value (slice_slider s)) eqn:E.
  - cbn [final snd]. split; [apply Kept_refl|].
    split; [|split; reflexivity]. symmetry. now apply Z.eqb_eq.
  - unfold _on_slider_change_from, broadcast, bind, get, when. cbv iota beta.
    destruct (subscribed _).
    + rewrite (master_index_update_from_ext _ (fun _ => ret tt)) by reflexivity.
      destruct (master_index_update_from_kept
                  (value (slice_slider
                     (with_slice_slider (set_value (bound (slice_slider s) v)) s)))
                  (with_slice_slider (set_value (bound (slice_slider s) v)) s))
        as [Hk Hs].
      split.
      * eapply Kept_trans; [|exact Hk].
        split; try reflexivity. apply same_views_refl.
      * rewrite Hs. repeat split.
    + cbn [final snd ret]. split; [|repeat split].
      split; try reflexivity. apply same_views_refl.
Qed.

(** X5. [update_index(v)], in any state and whether or not the listener
    raises, leaves the slider at [v] bounded into the slider's range, and
    changes nothing of the setup: the slider's range, the axis, its units
    and format, the label, the subscription, the fast-draw flag, the
    enabled flags and style sheets of the widgets, the views listed, the
    active view, the mode, the units controller and which viewers are
    synced. *)
Theorem update_index_keeps_setup v s :
  let s' := final (update_index v s) in
  Kept s s' /\
  value (slice_slider s')
    = Z.max (minimum (slice_slider s)) (Z.min (maximum (slice_slider s)) v) /\
  minimum (slice_slider s') = minimum (slice_slider s) /\
  maximum (slice_slider s') = maximum (slice_slider s).
Proof.
  cbv zeta. unfold update_index. exact (setValue_kept v s).
Qed.

End Frames.

(* ================================================================== *)
(** * Index updates that arrive on the hub *)
(* ================================================================== *)

Section HubMessages.

Context {B : Builtins}.

Local Open Scope Z_scope.
Local Open Scope py_scope.

(** [master_index_update] for an index of the axis: the text boxes are
    reconciled, the slider is set if it shows another index, and the index
    is applied to the viewers. *)
Lemma master_index_update_from_run f i axis s :
  Np.ArgsortSpec argsort ->
  wavelengths s = Some axis -> 0 <= i < Z.of_nat (List.length axis) ->
  master_index_update_from f i s =
  (when (negb (value (slice_slider s) =? i)) (f i) ;; apply_to_viewers i)
    (reconciled axis i s).
Proof.
  intros Hs Ha Hi.
  assert (Hne : axis <> []) by (destruct axis; [cbn in Hi; lia | discriminate]).
  unfold master_index_update_from, reconciled, resolves_to.
  unfold bind at 1. unfold get at 1. cbv iota beta.
  set (s1 := match Py.int (text (slice_textbox s)) with
             | Some n => if n =? i then s
                         else with_slice_textbox (setText (Py.str i)) s
             | None => with_slice_textbox (setText (Py.str i)) s
             end).
  assert (H1 : when (negb (match Py.int (text (slice_textbox s)) with
                           | Some n => n | None => -1 end =? i))
                 (modify (with_slice_textbox (setText (Py.str i)))) s
               = (Ok tt, s1)).
  { subst s1. destruct (Py.int (text (slice_textbox s))) as [n|].
    - destruct (n =? i); reflexivity.
    - replace (-1 =? i) with false by (symmetry; apply Z.eqb_neq; lia).
      reflexivity. }
  assert (Ha1 : wavelengths s1 = Some axis).
  { subst s1. destruct (Py.int _) as [n|]; [destruct (n =? i)|]; exact Ha. }
  assert (Hv1 : slice_slider s1 = slice_slider s).
  { subst s1. destruct (Py.int _) as [n|]; [destruct (n =? i)|]; reflexivity. }
  unfold bind at 1. rewrite H1. cbv iota beta.
  destruct (float_of_text (text (wavelength_textbox s))) as [w|].
  - destruct (nearest_index_some axis w Hs Hne) as (k & Hk & _).
    unfold bind at 1. rewrite (nearest_eq s1 axis w k Ha1 Hk). cbv iota beta.
    rewrite Hk. rewrite (Z.eqb_sym i).
    destruct (Z.of_nat k =? i); cbn [negb when].
    + unfold bind at 1. unfold ret at 1. cbv iota beta.
      unfold bind at 1. unfold get at 1. cbv iota beta.
      rewrite Hv1. reflexivity.
    + unfold bind at 1. unfold bind at 1.
      rewrite (wavelength_at_eq s1 axis i Ha1 Hi). cbv iota beta.
      unfold modify at 1. cbv iota beta.
      unfold bind at 1. unfold get at 1. cbv iota beta.
      cbn [with_wavelength_textbox slice_slider]. rewrite Hv1. reflexivity.
  - unfold bind at 1. unfold ret at 1. cbv iota beta.
    replace (i =? -1) with false by (symmetry; apply Z.eqb_neq; lia).
    cbn [negb when].
    unfold bind at 1. unfold bind at 1.
    rewrite (wavelength_at_eq s1 axis i Ha1 Hi). cbv iota beta.
    unfold modify at 1. cbv iota beta.
    unfold bind at 1. unfold get at 1. cbv iota beta.
    cbn [with_wavelength_textbox slice_slider]. rewrite Hv1. reflexivity.
Qed.

Lemma reconciled_slice_int axis i s :
  Py.int (text (slice_textbox (reconciled axis i s))) = Some i.
Proof.
  rewrite reconciled_slice_text.
  destruct (Py.int (text (slice_textbox s))) as [n|] eqn:En;
    [|apply PyFacts.int_str].
  destruct (n =? i) eqn:E; [|apply PyFacts.int_str].
  apply Z.eqb_eq in E. congruence.
Qed.

Lemma reconciled_Ranged axis i s :
  Ranged s axis -> Ranged (reconciled axis i s) axis.
Proof.
  intros Hr.
  destruct (reconciled_frame axis i s) as (H1 & H2 & H3 & _).
  eapply Ranged_frame; eassumption.
Qed.

(** The state [master_index_update] ends in on a ranged controller. *)
Lemma master_index_update_eq i axis s :
  Np.ArgsortSpec argsort -> Ranged s axis ->
  0 <= i < Z.of_nat (List.length axis) ->
  master_index_update i s =
  (Ok tt,
   applied i (if value (slice_slider s) =? i then reconciled axis i s
              else moved axis i (reconciled axis i s))).
Proof.
  intros Hs Hr Hi. unfold master_index_update.
  rewrite (master_index_update_from_run _ i axis s Hs (ranged_axis _ _ Hr) Hi).
  pose proof (reconciled_Ranged axis i s Hr) as Hr2.
  destruct (reconciled_frame axis i s) as (Hsl & _). cbv zeta in Hsl.
  unfold bind.
  destruct (value (slice_slider s) =? i) eqn:E; cbn [negb when].
  - unfold ret. apply apply_to_viewers_eq.
  - rewrite (setValue_eq i axis _ Hs Hr2), (bound_id _ axis i Hr2 Hi).
    rewrite Hsl, (Z.eqb_sym i), E. apply apply_to_viewers_eq.
Qed.

(** X9. [master_index_update(i)] for an index of the axis returns with the
    slider at [i] and the slice box reading [i]. If the slider already
    showed [i], the viewers are asked to draw once and one "position
    changed" is emitted. If it showed another index, setting it runs the
    handler a second time from inside the first, so the viewers are asked
    to draw twice and "position changed" is emitted twice. *)
Theorem hub_update_draws_twice s axis i :
  Np.ArgsortSpec argsort -> Ranged s axis ->
  0 <= i < Z.of_nat (List.length axis) ->
  let r := master_index_update i s in
  let d := draw_request (slider_flag s) i in
  fst r = Ok tt /\
  value (slice_slider (final r)) = i /\
  Py.int (text (slice_textbox (final r))) = Some i /\
  (value (slice_slider s) = i ->
   emitted (final r) = ChangedDispersionPosition i :: emitted s /\
   cv_layout (final r) = fan_out d i (cv_layout s)) /\
  (value (slice_slider s) <> i ->
   emitted (final r)
     = ChangedDispersionPosition i :: ChangedDispersionPosition i :: emitted s /\
   cv_layout (final r) = fan_out d i (fan_out d i (cv_layout s))).
Proof.
  intros Hs Hr Hi. cbv zeta.
  rewrite (master_index_update_eq i axis s Hs Hr Hi). cbn [fst final snd].
  destruct (reconciled_frame axis i s)
    as (Hsl & _ & _ & HL & Hem & Hfl & _). cbv zeta in *.
  destruct (moved_frame axis i (reconciled axis i s))
    as (Mv & _ & _ & _ & _ & Mfl & Mem & _ & _ & ML). cbv zeta in *.
  split; [reflexivity|].
  unfold applied at 1 2.
  cbn [slice_slider slice_textbox emit with_layout].
  destruct (value (slice_slider s) =? i) eqn:E;
    [apply Z.eqb_eq in E | apply Z.eqb_neq in E].
  - split; [congruence|]. split; [apply reconciled_slice_int|].
    split; [|intros Hne; congruence]. intros _.
    unfold applied. cbn [emitted cv_layout emit with_layout].
    rewrite Hem, HL, Hfl. split; reflexivity.
  - split; [exact Mv|]. split.
    + unfold moved, applied. cbn [slice_textbox emit with_layout].
      apply reconciled_slice_int.
    + split; [intros He; congruence|]. intros _.
      unfold applied. cbn [emitted cv_layout emit with_layout].
      rewrite Mem, ML, Mfl, Hem, HL, Hfl. split; reflexivity.
Qed.


End HubMessages.

(* ================================================================== *)
(** * Moving the slider *)
(* ================================================================== *)

Section SliderMoves.

Context {B : Builtins}.

Local Open Scope Z_scope.
Local Open Scope py_scope.

Lemma Ranged_bound s axis v :
  Ranged s axis ->
  bound (slice_slider s) v
    = Z.max 0 (Z.min (Z.of_nat (List.length axis) - 1) v).
Proof.
  intros Hr. unfold bound.
  now rewrite (ranged_minimum _ _ Hr), (ranged_maximum _ _ Hr).
Qed.

(** X6. [update_index(i)] returns with the slider at [i] clamped into
    [[0, len(axis)-1]]. If the slider was there already nothing changes at
    all; otherwise exactly one "position changed" is emitted, for the new
    value. Calling it again with the same [i] changes nothing. *)
Theorem update_index_idempotent s axis i :
  Np.ArgsortSpec argsort -> Ranged s axis ->
  let s1 := final (update_index i s) in
  let k := Z.max 0 (Z.min (Z.of_nat (List.length axis) - 1) i) in
  fst (update_index i s) = Ok tt /\
  value (slice_slider s1) = k /\
  (value (slice_slider s) = k -> s1 = s) /\
  (value (slice_slider s) <> k ->
   emitted s1 = ChangedDispersionPosition k :: emitted s) /\
  update_index i s1 = (Ok tt, s1).
Proof.
  intros Hs Hr. cbv zeta. unfold update_index.
  pose proof (Bound_setValue i axis s Hs Hr) as [Hr1 _].
  pose proof (setValue_value i axis s Hs Hr) as Hv1.
  rewrite (Ranged_bound s axis i Hr) in Hv1.
  split; [now rewrite (setValue_eq i axis s Hs Hr)|].
  split; [exact Hv1|]. split; [|split].
  - intros Hv. rewrite (setValue_eq i axis s Hs Hr), (Ranged_bound s axis i Hr).
    cbn [final snd].
    now replace (_ =? _) with true by (symmetry; apply Z.eqb_eq; congruence).
  - intros Hv. rewrite (setValue_eq i axis s Hs Hr), (Ranged_bound s axis i Hr).
    cbn [final snd].
    replace (_ =? _) with false by (symmetry; apply Z.eqb_neq; congruence).
    apply moved_frame.
  - rewrite (setValue_eq i axis _ Hs Hr1), (Ranged_bound _ axis i Hr1), Hv1.
    now rewrite Z.eqb_refl.
Qed.

(** X7. [update_index(i)] followed by [get_index()], for an index [i] of the
    axis. When the slider moves and the active viewer is synced outside
    single-viewer mode, [get_index] returns [i]. When the slider stood at
    [i] already, or the active viewer is not synced, or single-viewer mode
    is on, the synced index is not touched and [get_index] returns what it
    returned before. *)
Theorem update_index_then_get_index s axis i :
  Np.ArgsortSpec argsort -> Ranged s axis ->
  0 <= i < Z.of_nat (List.length axis) ->
  let L := cv_layout s in
  let r := (update_index i ;; get_index) s in
  (value (slice_slider s) <> i ->
   synced (viewers L (active_cube L)) = true ->
   single_viewer_mode L = false ->
   fst r = Ok i) /\
  (value (slice_slider s) = i \/
   synced (viewers L (active_cube L)) = false \/
   single_viewer_mode L = true ->
   fst r = Ok (synced_index L)).
Proof.
  intros Hs Hr Hi. cbv zeta. unfold update_index, bind, get_index.
  rewrite (setValue_eq i axis s Hs Hr), (bound_id s axis i Hr Hi).
  cbv [bind get ret]. cbn [fst].
  destruct (moved_frame axis i s)
    as (_ & _ & _ & _ & _ & _ & _ & _ & _ & ML). cbv zeta in ML.
  split.
  - intros Hv Hsy Hm.
    replace (i =? value (slice_slider s)) with false
      by (symmetry; apply Z.eqb_neq; congruence).
    rewrite ML. unfold fan_out. rewrite Hsy, Hm. reflexivity.
  - intros H. destruct (i =? value (slice_slider s)) eqn:E; [reflexivity|].
    apply Z.eqb_neq in E. rewrite ML. unfold fan_out.
    destruct H as [H | [-> | ->]]; [congruence | reflexivity |].
    now rewrite andb_false_r.
Qed.

(** X12. Releasing the slider is lowering the fast-draw flag and applying the
    slider's value to the viewers: the loop written out in
    [_on_slider_released] is the one of [apply_to_viewers]. *)
Theorem slider_release_is_full_apply s :
  _on_slider_released s =
  (modify (with_slider_flag false) ;;
   s' <- get ;; apply_to_viewers (value (slice_slider s'))) s.
Proof.
  rewrite _on_slider_released_eq. cbv [bind modify get].
  rewrite apply_to_viewers_eq. reflexivity.
Qed.

(** X13. A drag of the slider: press, move to another index [i] of the axis,
    release. All return; the move asks the viewers for a fast draw of [i]
    and the release for a full draw of [i], in that order and by the same
    fan-out rule; "position changed" is emitted twice for [i]; the
    fast-draw flag is down at the end and the slider is at [i]. *)
Theorem drag_ends_with_full_draw s axis i :
  Np.ArgsortSpec argsort -> Ranged s axis ->
  0 <= i < Z.of_nat (List.length axis) -> i <> value (slice_slider s) ->
  let r := (_on_slider_pressed ;; update_index i ;; _on_slider_released) s in
  fst r = Ok tt /\
  slider_flag (final r) = false /\
  value (slice_slider (final r)) = i /\
  cv_layout (final r)
    = fan_out (FullDraw i) i (fan_out (FastDraw i) i (cv_layout s)) /\
  emitted (final r)
    = ChangedDispersionPosition i :: ChangedDispersionPosition i :: emitted s.
Proof.
  intros Hs Hr Hi Hne. cbv zeta.
  assert (Hr1 : Ranged (with_slider_flag true s) axis)
    by (eapply Ranged_frame; [| | | exact Hr]; reflexivity).
  assert (Hrun :
    (_on_slider_pressed ;; update_index i ;; _on_slider_released) s =
    _on_slider_released (moved axis i (with_slider_flag true s))).
  { unfold _on_slider_pressed, update_index.
    unfold bind at 1. unfold modify at 1. cbv iota beta.
    unfold bind at 1.
    rewrite (setValue_eq i axis _ Hs Hr1), (bound_id _ axis i Hr1 Hi).
    cbn [slice_slider with_slider_flag].
    now replace (i =? value (slice_slider s)) with false
      by (symmetry; apply Z.eqb_neq; congruence). }
  rewrite Hrun, _on_slider_released_eq. cbn [fst final snd].
  destruct (moved_frame axis i (with_slider_flag true s))
    as (Mv & _ & _ & _ & _ & _ & Mem & _ & _ & ML). cbv zeta in *.
  cbn [slider_flag with_slider_flag cv_layout emitted] in Mem, ML.
  cbn [slider_flag emit with_layout with_slider_flag slice_slider
       cv_layout emitted].
  rewrite Mv, ML, Mem. repeat split; reflexivity.
Qed.

Lemma change_slider_value_run s axis amount :
  Np.ArgsortSpec argsort -> Ranged s axis ->
  exists s1,
    change_slider_value amount s = (Ok tt, s1) /\ Bound s1 axis /\
    value (slice_slider s1)
      = Z.max 0 (Z.min (Z.of_nat (List.length axis) - 1)
                   (value (slice_slider s) + amount)) /\
    hd_error (emitted s1)
      = Some (ChangedDispersionPosition (value (slice_slider s) + amount)).
Proof.
  intros Hs Hr.
  exists (emit (ChangedDispersionPosition (value (slice_slider s) + amount))
            (final (setValue (value (slice_slider s) + amount) s))).
  split; [|split; [|split]].
  - unfold change_slider_value, bind, get, modify. cbv iota beta.
    now rewrite (setValue_eq _ axis s Hs Hr).
  - eapply Bound_frame;
      [| | | exact (Bound_setValue (value (slice_slider s) + amount)
                      axis s Hs Hr)];
      reflexivity.
  - cbn [slice_slider emit].
    now rewrite (setValue_value _ axis s Hs Hr), (Ranged_bound s axis _ Hr).
  - reflexivity.
Qed.

(** X8. [change_slider_value(amount)] followed by
    [change_slider_value(-amount)], on a controller bound to the axis.
    Both return. If the first step stays on the axis the slider is back
    where it was. If the first step is cut at an end of the axis, the
    second starts from that end, so the slider ends at the end's index
    minus [amount], cut again, and the position emitted last is that
    difference before cutting. *)
Theorem change_slider_value_round_trip s axis amount :
  Np.ArgsortSpec argsort -> Bound s axis ->
  let v := value (slice_slider s) in
  let last := Z.of_nat (List.length axis) - 1 in
  let cut := Z.max 0 (Z.min last (v + amount)) in
  let r := (change_slider_value amount ;; change_slider_value (- amount)) s in
  fst r = Ok tt /\
  value (slice_slider (final r)) = Z.max 0 (Z.min last (cut - amount)) /\
  hd_error (emitted (final r))
    = Some (ChangedDispersionPosition (cut - amount)) /\
  (0 <= v + amount <= last -> value (slice_slider (final r)) = v).
Proof.
  intros Hs [Hr Hv]. cbv zeta.
  destruct (change_slider_value_run s axis amount Hs Hr)
    as (s1 & E1 & [Hr1 _] & Hv1 & _).
  destruct (change_slider_value_run s1 axis (- amount) Hs Hr1)
    as (s2 & E2 & _ & Hv2 & Hem2).
  unfold bind. rewrite E1, E2. cbn [fst final snd].
  rewrite Hv2, Hem2, Hv1.
  split; [reflexivity|]. split; [f_equal; f_equal; lia|].
  split; [do 2 f_equal; lia|]. intros Hin. lia.
Qed.

End SliderMoves.

(* ================================================================== *)
(** * The handlers keep the controller bound *)
(* ================================================================== *)

Section Handlers.

Context {B : Builtins}.

Local Open Scope Z_scope.
Local Open Scope py_scope.

Lemma Inv_frame s s' axis :
  slice_slider s' = slice_slider s -> wavelengths s' = wavelengths s ->
  subscribed s' = subscribed s ->
  synced_index (cv_layout s') = synced_index (cv_layout s) ->
  Inv s axis -> Inv s' axis.
Proof.
  intros H1 H2 H3 H4 [Hb Hsy]. split.
  - now apply (Bound_frame s s' axis).
  - unfold SyncedInRange in *. now rewrite H4.
Qed.

Lemma applied_Inv i axis s :
  Inv s axis -> 0 <= i < Z.of_nat (List.length axis) ->
  Inv (applied i s) axis.
Proof.
  intros Hinv Hi.
  destruct (apply_to_viewers_invariant s axis i Hinv Hi) as [_ H].
  now rewrite apply_to_viewers_eq in H.
Qed.

Lemma reconciled_Inv i axis s : Inv s axis -> Inv (reconciled axis i s) axis.
Proof.
  destruct (reconciled_frame axis i s) as (H1 & H2 & H3 & H4 & _).
  cbv zeta in *. apply Inv_frame; congruence.
Qed.

Lemma setValue_keeps v axis s :
  Np.ArgsortSpec argsort -> Inv s axis -> keeps axis (setValue v) s.
Proof.
  intros Hs [[Hr Hv] Hsy].
  destruct (setValue_run v axis s Hs Hr) as (s' & E & Hb & _ & Hsync).
  unfold keeps. rewrite E. cbn [fst final snd]. split; [reflexivity|].
  split; [exact Hb|].
  destruct Hsync as [H|H]; [|exact H].
  unfold SyncedInRange. now rewrite H.
Qed.

Lemma master_index_update_keeps i axis s :
  Np.ArgsortSpec argsort -> Inv s axis ->
  0 <= i < Z.of_nat (List.length axis) ->
  keeps axis (master_index_update i) s.
Proof.
  intros Hs Hinv Hi. pose proof Hinv as [[Hr Hv] Hsy]. unfold keeps.
  rewrite (master_index_update_eq i axis s Hs Hr Hi). cbn [fst final snd].
  split; [reflexivity|]. apply applied_Inv; [|exact Hi].
  pose proof (reconciled_Inv i axis s Hinv) as Hinv2.
  destruct (_ =? _); [exact Hinv2|].
  destruct (setValue_keeps i axis _ Hs Hinv2) as [_ H].
  destruct Hinv2 as [[Hr2 Hv2] _].
  rewrite (setValue_eq i axis _ Hs Hr2), (bound_id _ axis i Hr2 Hi) in H.
  cbn [final snd] in H.
  destruct (i =? value (slice_slider (reconciled axis i s))) eqn:E; [|exact H].
  split; [apply Bound_moved; assumption|].
  destruct (moved_frame axis i (reconciled axis i s))
    as (_ & _ & _ & _ & _ & _ & _ & _ & _ & ML). cbv zeta in ML.
  unfold SyncedInRange. rewrite ML.
  destruct (fan_out_synced_index
              (draw_request (slider_flag (reconciled axis i s)) i) i
              (cv_layout (reconciled axis i s))) as [F|F]; rewrite F;
    [exact Hi | apply H].
Qed.

(** X11. On a controller bound to the axis whose synced index is an index of
    the axis, every handler returns and leaves it so, whatever the two
    text boxes hold and whatever the argument: [update_index],
    [change_slider_value], the return handlers of the two text boxes, the
    slider's change and press handlers, the label's setter, and
    [master_index_update] for an index of the axis. *)
Theorem handlers_keep_invariant s axis :
  Np.ArgsortSpec argsort -> Inv s axis ->
  (forall i, keeps axis (update_index i) s) /\
  (forall amount, keeps axis (change_slider_value amount) s) /\
  keeps axis _on_text_slice_change s /\
  (forall pos, keeps axis (_on_text_wavelength_change pos) s) /\
  (forall i, 0 <= i < Z.of_nat (List.length axis) ->
     keeps axis (master_index_update i) s) /\
  keeps axis _on_slider_change s /\
  keeps axis _on_slider_pressed s /\
  (forall new_label, keeps axis (wavelength_label_setter new_label) s).
Proof.
  intros Hs Hinv. pose proof Hinv as [[Hr Hv] Hsy].
  split; [|split; [|split; [|split; [|split; [|split; [|split]]]]]].
  - intros i. exact (setValue_keeps i axis s Hs Hinv).
  - intros amount. unfold keeps, change_slider_value.
    destruct (setValue_keeps (value (slice_slider s) + amount) axis s Hs Hinv)
      as [E Hinv1].
    destruct (setValue (value (slice_slider s) + amount) s) as [o s1] eqn:Es.
    cbn [fst final snd] in E, Hinv1. subst o.
    cbv [bind get modify]. rewrite Es. cbn [fst final snd].
    split; [reflexivity|].
    eapply Inv_frame; [| | | | exact Hinv1]; reflexivity.
  - unfold keeps.
    destruct (Py.int (text (slice_textbox s))) as [n|] eqn:En.
    + rewrite (_on_text_slice_change_parsed s axis n (ranged_axis _ _ Hr) En).
      apply setValue_keeps; [exact Hs|].
      eapply Inv_frame; [| | | | exact Hinv]; reflexivity.
    + assert (E : _on_text_slice_change s
                  = (Ok tt, with_slice_textbox (setStyleSheet RED_BACKGROUND) s)).
      { unfold _on_text_slice_change, bind, get, modify. cbv iota beta.
        now rewrite En. }
      rewrite E. cbn [fst final snd]. split; [reflexivity|].
      eapply Inv_frame; [| | | | exact Hinv]; reflexivity.
  - intros pos. unfold keeps.
    destruct (match pos with
              | Some p => Some p
              | None => float_of_text (text (wavelength_textbox s))
              end) as [w|] eqn:Ew.
    + destruct (nearest_index_some axis w Hs (ranged_nonempty _ _ Hr))
        as (k & Hk & _).
      rewrite (_on_text_wavelength_change_resolved s axis pos w k
                 (ranged_axis _ _ Hr) Ew Hk).
      apply setValue_keeps; [exact Hs|].
      eapply Inv_frame; [| | | | exact Hinv]; reflexivity.
    + assert (E : _on_text_wavelength_change pos s
                  = (Ok tt,
                     with_wavelength_textbox (setStyleSheet RED_BACKGROUND) s)).
      { unfold _on_text_wavelength_change, bind, get, modify. cbv iota beta.
        now rewrite Ew. }
      rewrite E. cbn [fst final snd]. split; [reflexivity|].
      eapply Inv_frame; [| | | | exact Hinv]; reflexivity.
  - intros i Hi. now apply master_index_update_keeps.
  - unfold keeps, _on_slider_change, _on_slider_change_from, broadcast.
    cbv [bind get]. rewrite (ranged_subscribed _ _ Hr). cbn [when].
    apply (master_index_update_keeps _ axis s Hs Hinv). exact Hv.
  - unfold keeps, _on_slider_pressed, modify. cbn [fst final snd].
    split; [reflexivity|].
    eapply Inv_frame; [| | | | exact Hinv]; reflexivity.
  - intros new_label. unfold keeps, wavelength_label_setter.
    cbv [bind get modify]. cbn [fst final snd]. split; [reflexivity|].
    eapply Inv_frame; [| | | | exact Hinv]; reflexivity.
Qed.

End Handlers.

(* ================================================================== *)
(** * The cursor of the spectral viewer and the fast-draw flag *)
(* ================================================================== *)

Section Cursor.

Context {B : Builtins}.

Local Open Scope Z_scope.
Local Open Scope py_scope.

Lemma _on_text_wavelength_change_flag pos s :
  slider_flag (final (_on_text_wavelength_change pos s)) = slider_flag s.
Proof.
  unfold _on_text_wavelength_change. unfold bind at 1, get at 1.
  cbv iota beta.
  destruct (match pos with
            | Some p => Some p
            | None => float_of_text (text (wavelength_textbox s))
            end) as [w|]; [|reflexivity].
  unfold bind at 1. pose proof (nearest_pure w s) as Hp.
  destruct (nearest w s) as [[k|e] s']; cbn [snd] in Hp; subst s';
    [|reflexivity].
  unfold bind at 1, modify at 1. cbv iota beta.
  now rewrite (kept_flag _ _ (proj1 (setValue_kept k _))).
Qed.

(** The conversion of the observed position changes nothing. *)
Lemma rest_position_pure (z : option float) (pos : option float) s :
  snd (rest_position z pos s) = s.
Proof.
  unfold rest_position.
  destruct z as [z|]; [|reflexivity].
  destruct pos as [p|]; [|reflexivity].
  unfold bind at 1, lift at 1, ret at 1. cbv iota beta.
  unfold bind at 1, truediv at 1.
  destruct (1 + z =? 0)%float; [reflexivity|]. unfold ret at 1.
  cbv iota beta. unfold bind at 1.
  pose proof (nearest_pure (p / (1 + z))%float s) as Hp.
  destruct (nearest _ s) as [[k|e] s']; cbn [snd] in Hp; subst s';
    [|reflexivity].
  unfold bind. pose proof (wavelength_at_pure k s) as Hq.
  destruct (wavelength_at k s) as [[w|e] s']; cbn [snd] in Hq; subst s';
    reflexivity.
Qed.

Lemma bind_assoc {A C D} (c : M A) (k : A -> M C) (k' : C -> M D) s :
  bind (bind c k) k' s = bind c (fun a => bind (k a) k') s.
Proof.
  unfold bind. now destruct (c s) as [[a|e] s'].
Qed.

(** The handler is the wavelength handler, run on the converted position
    inside the fast-draw scope. *)
Lemma specviz_wavelength_slider_change_eq pos s :
  specviz_wavelength_slider_change pos s =
  fast_draw_scope
    (pos' <- rest_position (has_redshift (cv_layout s)) pos ;;
     _on_text_wavelength_change pos') s.
Proof.
  unfold specviz_wavelength_slider_change, fast_draw_scope.
  apply bind_cong. intros s0 s0' E. inversion E; subst s0 s0'; clear E.
  cbv zeta. apply bind_cong. intros [] s1 _.
  symmetry. apply bind_assoc.
Qed.

(** X18. [specviz_wavelength_slider_change], in any state and for any
    position: when it returns, the fast-draw flag is as it found it; when
    it raises (before [enable], on an empty axis, at redshift -1), the
    flag is left set, also if it was down before. *)
Theorem specviz_flag_restored s pos :
  let r := specviz_wavelength_slider_change pos s in
  (fst r = Ok tt -> slider_flag (final r) = slider_flag s) /\
  (forall e, fst r = Raise e -> slider_flag (final r) = true).
Proof.
  cbv zeta.
  destruct (specviz_wavelength_slider_change pos s) as [o s'] eqn:E.
  cbn [fst final snd]. unfold specviz_wavelength_slider_change in E.
  unfold bind at 1, get at 1 in E. cbv iota beta zeta in E.
  unfold bind at 1 in E.
  set (s1 := if slider_flag s then s else with_slider_flag true s).
  assert (E1 : when (negb (slider_flag s)) (modify (with_slider_flag true)) s
               = (Ok tt, s1)) by (subst s1; now destruct (slider_flag s)).
  assert (F1 : slider_flag s1 = true)
    by (subst s1; now destruct (slider_flag s) eqn:F).
  rewrite E1 in E. cbv iota beta in E. clearbody s1.
  unfold bind at 1 in E. cbv beta in E.
  pose proof (rest_position_pure (has_redshift (cv_layout s)) pos s1) as Hp.
  unfold rest_position in Hp.
  match type of Hp with
  | snd ?t = _ => destruct t as [[pos'|e0] s2]
  end; cbn [snd] in Hp; subst s2.
  - unfold bind at 1 in E.
    pose proof (_on_text_wavelength_change_flag pos' s1) as Hf.
    destruct (_on_text_wavelength_change pos' s1) as [[[]|e1] s3];
      cbn [final snd] in Hf.
    + destruct (slider_flag s) eqn:F; cbn [negb when] in E;
        inversion E; subst o s'; (split; [intros _ | discriminate]).
      * congruence.
      * reflexivity.
    + inversion E; subst o s'. split; [discriminate|]. intros _ _. congruence.
  - inversion E; subst o s'. split; [discriminate|]. intros _ _. exact F1.
Qed.


(** The wavelength of a slice, if finite, resolves to a slice with an
    equal wavelength. *)
Lemma nearest_index_member axis j :
  Np.ArgsortSpec argsort -> (j < List.length axis)%nat ->
  is_finite (nth j axis nan) = true ->
  forall k, nearest_index axis (nth j axis nan) = Some k ->
  (nth k axis nan =? nth j axis nan)%float = true.
Proof.
  intros Hs Hj Hfin k Hk.
  assert (Hlt : (k < List.length axis)%nat).
  { rewrite <- (abs_diff_length axis (nth j axis nan)).
    exact (ArgsortFacts.head_in_range argsort Hs _ k Hk). }
  assert (Hdj : Np.key (Np.abs_diff axis (nth j axis nan)) j = 0%float).
  { rewrite NpFacts.key_abs_diff by assumption.
    now rewrite (NpFacts.sub_self _ Hfin). }
  assert (Hdk : abs (nth k axis nan - nth j axis nan) = 0%float).
  { apply NpFacts.lt_zero_abs. rewrite <- Hdj at 1.
    rewrite <- NpFacts.key_abs_diff by assumption.
    apply (ArgsortFacts.head_min argsort Hs
             (Np.abs_diff axis (nth j axis nan)) k j); [exact Hk|].
    now rewrite abs_diff_length. }
  rewrite <- (SubFacts.abs_sub_eqb _ _ Hfin), Hdk. reflexivity.
Qed.

(** X17. A cursor position [p] from the spectral viewer, on a controller bound
    to the axis. With a redshift [z] (not zero, not -1) the target is the
    axis wavelength nearest to the rest wavelength [p / (1 + z)];
    otherwise it is [p] itself. The handler returns with the slider at the
    index [k] nearest to the target and the fast-draw flag as it found it.
    With a redshift and a finite target, slice [k] holds a wavelength equal
    to the target. If the slider moved, the viewers were asked for a fast
    draw of [k] whether or not the flag was set, and one "position
    changed" was emitted; if it stood at [k] already, nothing was drawn or
    emitted. *)
Theorem specviz_cursor_moves_slider s axis p :
  Np.ArgsortSpec argsort -> Ranged s axis ->
  (forall z, has_redshift (cv_layout s) = Some z ->
             (1 + z =? 0)%float = false) ->
  let r := specviz_wavelength_slider_change (Some p) s in
  exists (w : float) (k : nat),
    match has_redshift (cv_layout s) with
    | Some z =>
        exists j : nat,
          nearest_index axis (p / (1 + z))%float = Some j /\
          w = nth j axis nan /\
          (is_finite w = true -> (nth k axis nan =? w)%float = true)
    | None => w = p
    end /\
    nearest_index axis w = Some k /\ (k < List.length axis)%nat /\
    fst r = Ok tt /\
    value (slice_slider (final r)) = Z.of_nat k /\
    slider_flag (final r) = slider_flag s /\
    (value (slice_slider s) = Z.of_nat k ->
     cv_layout (final r) = cv_layout s /\ emitted (final r) = emitted s) /\
    (value (slice_slider s) <> Z.of_nat k ->
     cv_layout (final r)
       = fan_out (FastDraw (Z.of_nat k)) (Z.of_nat k) (cv_layout s) /\
     emitted (final r)
       = ChangedDispersionPosition (Z.of_nat k) :: emitted s).
Proof.
  intros Hs Hr Hz. cbv zeta.
  set (s1 := if slider_flag s then s else with_slider_flag true s).
  assert (E1 : when (negb (slider_flag s)) (modify (with_slider_flag true)) s
               = (Ok tt, s1)) by (subst s1; now destruct (slider_flag s)).
  assert (F1 : slider_flag s1 = true)
    by (subst s1; now destruct (slider_flag s) eqn:F).
  assert (Hr1 : Ranged s1 axis).
  { subst s1. destruct (slider_flag s); [exact Hr|].
    eapply Ranged_frame; [| | | exact Hr]; reflexivity. }
  assert (Hv1 : value (slice_slider s1) = value (slice_slider s))
    by (subst s1; now destruct (slider_flag s)).
  assert (HL1 : cv_layout s1 = cv_layout s)
    by (subst s1; now destruct (slider_flag s)).
  assert (Hem1 : emitted s1 = emitted s)
    by (subst s1; now destruct (slider_flag s)).
  clearbody s1.
  (* the target *)
  assert (Hw : exists w,
    rest_position (has_redshift (cv_layout s)) (Some p) s1 = (Ok (Some w), s1)
    /\ match has_redshift (cv_layout s) with
       | Some z => exists j : nat,
           nearest_index axis (p / (1 + z))%float = Some j /\
           (j < List.length axis)%nat /\ w = nth j axis nan
       | None => w = p
       end).
  { unfold rest_position.
    destruct (has_redshift (cv_layout s)) as [z|] eqn:Ez.
    - destruct (nearest_index_some axis (p / (1 + z))%float Hs
                  (ranged_nonempty _ _ Hr)) as (j & Hj & Hlt).
      exists (nth j axis nan). split; [|exists j; auto].
      unfold bind at 1. unfold lift at 1, ret at 1. cbv iota beta.
      unfold bind at 1, truediv at 1. rewrite (Hz z eq_refl).
      unfold ret at 1. cbv iota beta. unfold bind at 1.
      rewrite (nearest_eq s1 axis _ j (ranged_axis _ _ Hr1) Hj).
      cbv iota beta. unfold bind at 1.
      rewrite (wavelength_at_eq s1 axis (Z.of_nat j) (ranged_axis _ _ Hr1))
        by lia.
      cbv iota beta. unfold ret. now rewrite Nat2Z.id.
    - exists p. split; reflexivity. }
  destruct Hw as (w & Ew & Htarget).
  destruct (nearest_index_some axis w Hs (ranged_nonempty _ _ Hr))
    as (k & Hk & Hlt).
  exists w, k.
  split.
  { destruct (has_redshift (cv_layout s)) as [z|]; [|exact Htarget].
    destruct Htarget as (j & Hj & Hjlt & ->).
    exists j. split; [exact Hj|]. split; [reflexivity|].
    intros Hfin. exact (nearest_index_member axis j Hs Hjlt Hfin k Hk). }
  split; [exact Hk|]. split; [exact Hlt|].
  set (s0 := with_wavelength_textbox (setStyleSheet "") s1).
  assert (Hr0 : Ranged s0 axis)
    by (eapply Ranged_frame; [| | | exact Hr1]; reflexivity).
  set (X := if Z.of_nat k =? value (slice_slider s) then s0
            else moved axis (Z.of_nat k) s0).
  assert (Hrun : specviz_wavelength_slider_change (Some p) s =
                 (Ok tt, if slider_flag s then X
                         else with_slider_flag false X)).
  { rewrite specviz_wavelength_slider_change_eq. unfold fast_draw_scope.
    unfold bind at 1, get at 1. cbv iota beta zeta.
    unfold bind at 1. rewrite E1. cbv iota beta.
    unfold bind at 1. unfold bind at 1. rewrite Ew. cbv iota beta.
    rewrite (_on_text_wavelength_change_resolved s1 axis (Some w) w k
               (ranged_axis _ _ Hr1) eq_refl Hk).
    fold s0.
    rewrite (setValue_eq _ axis s0 Hs Hr0),
            (bound_id s0 axis (Z.of_nat k) Hr0) by lia.
    unfold s0 at 1. cbn [slice_slider with_wavelength_textbox].
    rewrite Hv1. fold X. cbv iota beta.
    now destruct (slider_flag s). }
  rewrite Hrun. cbn [fst final snd]. split; [reflexivity|].
  destruct (moved_frame axis (Z.of_nat k) s0)
    as (Mv & _ & _ & _ & _ & Mfl & Mem & _ & _ & ML). cbv zeta in *.
  assert (F0 : slider_flag s0 = true) by exact F1.
  assert (HL0 : cv_layout s0 = cv_layout s) by exact HL1.
  assert (Hem0 : emitted s0 = emitted s) by exact Hem1.
  assert (Hv0 : value (slice_slider s0) = value (slice_slider s))
    by exact Hv1.
  rewrite F0, HL0 in ML. rewrite Hem0 in Mem. rewrite F0 in Mfl.
  clearbody s0.
  assert (HX : value (slice_slider X) = Z.of_nat k /\
               slider_flag X = true /\
               (value (slice_slider s) = Z.of_nat k ->
                cv_layout X = cv_layout s /\ emitted X = emitted s) /\
               (value (slice_slider s) <> Z.of_nat k ->
                cv_layout X = fan_out (FastDraw (Z.of_nat k)) (Z.of_nat k)
                                (cv_layout s) /\
                emitted X = ChangedDispersionPosition (Z.of_nat k)
                              :: emitted s)).
  { subst X.
    destruct (Z.of_nat k =? value (slice_slider s)) eqn:E;
      [apply Z.eqb_eq in E | apply Z.eqb_neq in E].
    - split; [congruence|]. split; [exact F0|].
      split; [intros _; split; assumption | intros H; congruence].
    - split; [exact Mv|]. split; [exact Mfl|].
      split; [intros H; congruence | intros _; split; assumption]. }
  clearbody X. destruct HX as (X1 & X2 & X3 & X4).
  destruct (slider_flag s) eqn:F.
  - repeat split; try assumption; [apply X3 | apply X3 | apply X4 | apply X4];
      assumption.
  - cbn [slice_slider slider_flag cv_layout emitted with_slider_flag].
    repeat split; try assumption; [apply X3 | apply X3 | apply X4 | apply X4];
      assumption.
Qed.

End Cursor.

(* ================================================================== *)
(** * Text entered in the boxes *)
(* ================================================================== *)

Section TextEntry.

Context {B : Builtins}.

Local Open Scope Z_scope.
Local Open Scope py_scope.

(** X14. A target wavelength, typed into the wavelength box ([pos] is [None])
    or handed over as [pos], moves the slider to its nearest index [k].
    If the slider stood at [k] already the boxes keep their text. If it
    moved, the slice box reads [k]; a typed wavelength is kept as typed, it
    is not replaced by the wavelength of slice [k]; and a box whose text
    does not resolve to [k] is rewritten with [str] of that wavelength. *)
Theorem typed_wavelength_is_kept s axis pos w :
  Np.ArgsortSpec argsort -> Ranged s axis ->
  match pos with
  | Some p => Some p
  | None => float_of_text (text (wavelength_textbox s))
  end = Some w ->
  let r := _on_text_wavelength_change pos s in
  exists k : nat,
    nearest_index axis w = Some k /\
    fst r = Ok tt /\
    value (slice_slider (final r)) = Z.of_nat k /\
    (value (slice_slider s) = Z.of_nat k ->
     text (slice_textbox (final r)) = text (slice_textbox s) /\
     text (wavelength_textbox (final r)) = text (wavelength_textbox s)) /\
    (value (slice_slider s) <> Z.of_nat k ->
     Py.int (text (slice_textbox (final r))) = Some (Z.of_nat k) /\
     (pos = None ->
      text (wavelength_textbox (final r)) = text (wavelength_textbox s)) /\
     (resolves_to axis (text (wavelength_textbox s)) (Z.of_nat k) = false ->
      text (wavelength_textbox (final r))
        = str_of_float (nth k axis nan))).
Proof.
  intros Hs Hr Hw. cbv zeta.
  destruct (nearest_index_some axis w Hs (ranged_nonempty _ _ Hr))
    as (k & Hk & Hlt).
  exists k. split; [exact Hk|].
  rewrite (_on_text_wavelength_change_resolved s axis pos w k
             (ranged_axis _ _ Hr) Hw Hk).
  assert (Hr' : Ranged (with_wavelength_textbox (setStyleSheet "") s) axis)
    by (eapply Ranged_frame; [| | | exact Hr]; reflexivity).
  rewrite (setValue_eq _ axis _ Hs Hr'), (bound_id _ axis (Z.of_nat k) Hr')
    by lia.
  cbn [fst final snd slice_slider with_wavelength_textbox].
  split; [reflexivity|].
  destruct (Z.of_nat k =? value (slice_slider s)) eqn:E;
    [apply Z.eqb_eq in E | apply Z.eqb_neq in E].
  - split; [now symmetry|]. split; [|intros Hne; congruence].
    intros _. split; reflexivity.
  - split; [apply moved_frame|]. split; [intros He; congruence|].
    intros _. unfold moved, applied.
    cbn [slice_textbox wavelength_textbox emit with_layout].
    split; [apply reconciled_slice_int|].
    rewrite reconciled_wavelength_text.
    cbn [wavelength_textbox with_slice_slider with_wavelength_textbox
         text setStyleSheet].
    split.
    + intros ->. unfold resolves_to. rewrite Hw, Hk, Z.eqb_refl. reflexivity.
    + intros ->. now rewrite Nat2Z.id.
Qed.

(** X16. [_update_slice_textboxes(i)] for an index of the axis writes [str(i)]
    into the slice box and the wavelength of slice [i], in the stored
    format, into the wavelength box, and touches nothing else. What it
    wrote is read back: a return press in the slice box then puts the
    slider at [i] and leaves [str(i)] in the box. For an index past the end
    of the axis it raises [IndexError] with the slice box already
    overwritten. *)
Theorem update_slice_textboxes_read_back s axis i :
  Np.ArgsortSpec argsort -> Ranged s axis ->
  (0 <= i < Z.of_nat (List.length axis) ->
   let s1 :=
     with_wavelength_textbox
       (setText (format_float (wavelength_format s) (nth (Z.to_nat i) axis nan)))
       (with_slice_textbox (setText (Py.str i)) s) in
   _update_slice_textboxes i s = (Ok tt, s1) /\
   fst (_on_text_slice_change s1) = Ok tt /\
   value (slice_slider (final (_on_text_slice_change s1))) = i /\
   text (slice_textbox (final (_on_text_slice_change s1))) = Py.str i) /\
  (Z.of_nat (List.length axis) <= i ->
   _update_slice_textboxes i s
     = (Raise Py.IndexError, with_slice_textbox (setText (Py.str i)) s)).
Proof.
  intros Hs Hr. split.
  - intros Hi. cbv zeta.
    set (s1 := with_wavelength_textbox _ _).
    assert (Hr1 : Ranged s1 axis)
      by (eapply Ranged_frame; [| | | exact Hr]; reflexivity).
    split.
    { unfold _update_slice_textboxes.
      unfold bind at 1, modify at 1. cbv iota beta.
      unfold bind at 1, get at 1. cbv iota beta. unfold bind at 1.
      rewrite (wavelength_at_eq _ axis i) by
        (try exact Hi; exact (ranged_axis _ _ Hr)).
      reflexivity. }
    assert (En : Py.int (text (slice_textbox s1)) = Some i)
      by (subst s1; cbn; apply PyFacts.int_str).
    rewrite (_on_text_slice_change_parsed s1 axis i (ranged_axis _ _ Hr1) En).
    assert (Hc : clamped i (Z.of_nat (List.length axis)) = i).
    { unfold clamped.
      replace (i <? 0) with false by (symmetry; apply Z.ltb_ge; lia).
      rewrite Z.gtb_ltb.
      now replace (Z.of_nat (List.length axis) - 1 <? i) with false
        by (symmetry; apply Z.ltb_ge; lia). }
    rewrite Hc.
    assert (Hr2 : Ranged (with_slice_textbox (setStyleSheet "") s1) axis)
      by (eapply Ranged_frame; [| | | exact Hr1]; reflexivity).
    rewrite (setValue_eq i axis _ Hs Hr2), (bound_id _ axis i Hr2 Hi).
    cbn [fst final snd]. split; [reflexivity|].
    destruct (i =? _) eqn:E.
    + apply Z.eqb_eq in E. split; [now symmetry | reflexivity].
    + split; [apply moved_frame|].
      unfold moved, applied. cbn [slice_textbox emit with_layout].
      rewrite reconciled_slice_text.
      cbn [slice_textbox with_slice_slider with_slice_textbox text
           setStyleSheet].
      subst s1.
      cbn [slice_textbox with_wavelength_textbox with_slice_textbox text
           setText].
      now rewrite PyFacts.int_str, Z.eqb_refl.
  - intros Hi. unfold _update_slice_textboxes.
    unfold bind at 1, modify at 1. cbv iota beta.
    unfold bind at 1, get at 1. cbv iota beta.
    cbv [wavelength_at bind get lift raise ret].
    cbn [wavelengths with_slice_textbox]. rewrite (ranged_axis _ _ Hr).
    unfold Py.index.
    replace (i <? Z.of_nat (List.length axis)) with false
      by (symmetry; apply Z.ltb_ge; lia).
    replace (i <? 0) with false by (symmetry; apply Z.ltb_ge; lia).
    now rewrite !andb_false_r.
Qed.

End TextEntry.

(* ================================================================== *)
(** * Setting the controller up: [enable] and [set_wavelengths] *)
(* ================================================================== *)

Section Setup.

Context {B : Builtins}.

Local Open Scope Z_scope.
Local Open Scope py_scope.

Lemma moved_kept axis i s : Kept s (moved axis i s).
Proof.
  unfold moved, reconciled.
  destruct (Py.int _) as [n|]; [destruct (n =? i)|];
    destruct (resolves_to _ _ _);
    (eapply Kept_trans; [|apply applied_kept]);
    split; try reflexivity; apply same_views_refl.
Qed.

Lemma moved_slice_int axis i s :
  Py.int (text (slice_textbox (moved axis i s))) = Some i.
Proof.
  unfold moved, applied. cbn [slice_textbox emit with_layout].
  apply reconciled_slice_int.
Qed.

(** [setValue] on a ranged controller, with what the listener did if the
    slider moved. *)
Lemma setValue_facts v axis s :
  Np.ArgsortSpec argsort -> Ranged s axis ->
  exists s',
    setValue v s = (Ok tt, s') /\ Bound s' axis /\ Kept s s' /\
    value (slice_slider s')
      = Z.max 0 (Z.min (Z.of_nat (List.length axis) - 1) v) /\
    (value (slice_slider s') = value (slice_slider s) -> s' = s) /\
    (value (slice_slider s') <> value (slice_slider s) ->
     Py.int (text (slice_textbox s')) = Some (value (slice_slider s'))) /\
    (synced_index (cv_layout s') = synced_index (cv_layout s) \/
     SyncedInRange s' axis).
Proof.
  intros Hs Hr. exists (final (setValue v s)).
  pose proof (Bound_setValue v axis s Hs Hr) as Hb.
  pose proof (setValue_value v axis s Hs Hr) as Hv.
  rewrite (Ranged_bound s axis v Hr) in Hv.
  assert (Hsy : synced_index (cv_layout (final (setValue v s)))
                  = synced_index (cv_layout s) \/
                SyncedInRange (final (setValue v s)) axis).
  { destruct (setValue_synced_index v axis s Hs Hr) as [H|H];
      [right | now left].
    unfold SyncedInRange. rewrite H. now apply bound_in_range. }
  revert Hb Hv Hsy.
  rewrite (setValue_eq v axis s Hs Hr), (Ranged_bound s axis v Hr).
  cbn [final snd]. intros Hb Hv Hsy.
  split; [reflexivity|]. split; [exact Hb|].
  destruct (_ =? _) eqn:E; [apply Z.eqb_eq in E | apply Z.eqb_neq in E].
  - split; [apply Kept_refl|]. split; [auto|]. split; [reflexivity|].
    split; [|exact Hsy]. intros H. congruence.
  - split; [apply moved_kept|]. split; [exact Hv|].
    split; [intros H; congruence|]. split; [|exact Hsy]. intros _.
    rewrite Hv. apply moved_slice_int.
Qed.

(** [setMaximum(len(axis) - 1)] on a controller that holds [axis] and
    whose slider starts at 0: the slider's value is cut to the new range,
    and the listener runs if that moved it. *)
Lemma setMaximum_facts s axis :
  Np.ArgsortSpec argsort ->
  wavelengths s = Some axis -> axis <> [] -> subscribed s = true ->
  minimum (slice_slider s) = 0 ->
  0 <= value (slice_slider s) <= maximum (slice_slider s) ->
  exists s',
    setMaximum (Z.of_nat (List.length axis) - 1) s = (Ok tt, s') /\
    Bound s' axis /\ Kept s s' /\
    value (slice_slider s')
      = Z.min (value (slice_slider s)) (Z.of_nat (List.length axis) - 1) /\
    (value (slice_slider s') = value (slice_slider s) ->
     slice_textbox s' = slice_textbox s /\
     wavelength_textbox s' = wavelength_textbox s /\
     cv_layout s' = cv_layout s /\ emitted s' = emitted s) /\
    (value (slice_slider s') <> value (slice_slider s) ->
     Py.int (text (slice_textbox s')) = Some (value (slice_slider s'))) /\
    (synced_index (cv_layout s') = synced_index (cv_layout s) \/
     SyncedInRange s' axis).
Proof.
  intros Hs Ha Hne Hsub Hmin Hval.
  assert (Hlen : 0 < Z.of_nat (List.length axis))
    by (destruct axis; [congruence | cbn; lia]).
  unfold setMaximum, setRange, bind, get, when. cbv iota beta. rewrite Hmin.
  replace (Z.min 0 (Z.of_nat (List.length axis) - 1)) with 0 by lia.
  replace (Z.max 0 (Z.of_nat (List.length axis) - 1))
    with (Z.of_nat (List.length axis) - 1) by lia.
  cbn [Z.eqb andb].
  destruct (Z.of_nat (List.length axis) - 1 =? maximum (slice_slider s)) eqn:E;
    cbn [negb].
  - apply Z.eqb_eq in E. exists s. split; [reflexivity|].
    split; [split; [split; auto; lia | lia]|].
    split; [apply Kept_refl|]. split; [lia|].
    split; [intros _; repeat split|]. split; [intros H; congruence|].
    now left.
  - unfold modify. cbv iota beta.
    set (s1 := with_slice_slider
                 (set_range 0 (Z.of_nat (List.length axis) - 1)) s).
    assert (Hr1 : Ranged s1 axis) by (split; auto).
    destruct (setValue_facts (value (slice_slider s)) axis s1 Hs Hr1)
      as (s' & Hrun & Hb & Hk & Hv & Hsame & Hmoved & Hsy).
    exists s'. split; [exact Hrun|]. split; [exact Hb|].
    split; [|split; [|split; [|split]]].
    + eapply Kept_trans; [|exact Hk].
      split; try reflexivity. apply same_views_refl.
    + rewrite Hv. lia.
    + intros H. rewrite (Hsame H). repeat split.
    + exact Hmoved.
    + exact Hsy.
Qed.

(** What [enable] leaves on a non-empty axis. *)
Lemma enable_run s units axis :
  Np.ArgsortSpec argsort -> axis <> [] ->
  minimum (slice_slider s) = 0 ->
  0 <= value (slice_slider s) <= maximum (slice_slider s) ->
  let r := enable units axis s in
  let middle := Z.of_nat (List.length axis) / 2 in
  fst r = Ok tt /\
  (sl_enabled (slice_slider (final r)) = true /\
   le_enabled (slice_textbox (final r)) = true /\
   le_enabled (wavelength_textbox (final r)) = true) /\
  subscribed (final r) = true /\
  (wavelengths (final r) = Some axis /\
   wavelength_units (final r) = Some units /\
   wavelength_format (final r) = "{:.3}") /\
  (wavelength_label_text (final r) = wavelength_label_text s /\
   wavelength_textbox_label (final r)
     = label_of (wavelength_label_text s) (Some units)) /\
  (minimum (slice_slider (final r)) = 0 /\
   maximum (slice_slider (final r)) = Z.of_nat (List.length axis) - 1) /\
  value (slice_slider (final r)) = middle /\
  synced_index (cv_layout (final r)) = middle /\
  text (wavelength_textbox (final r))
    = format_float "{:.3}" (nth (Z.to_nat middle) axis nan) /\
  (value (slice_slider s) <> middle ->
   Py.int (text (slice_textbox (final r))) = Some middle).
Proof.
  intros Hs Hne Hmin Hval. cbv zeta.
  assert (Hlen : 0 < Z.of_nat (List.length axis))
    by (destruct axis; [congruence | cbn; lia]).
  assert (Hmid : 0 <= Z.of_nat (List.length axis) / 2
                 < Z.of_nat (List.length axis)).
  { split; [apply Z.div_pos; lia | apply Z.div_lt_upper_bound; lia]. }
  destruct (enable units axis s) as [o s'] eqn:E. cbn [fst final snd].
  unfold enable in E.
  unfold bind at 1 in E. unfold set_enabled, bind at 1, modify at 1 in E.
  cbv iota beta in E. unfold bind at 1, modify at 1 in E. cbv iota beta in E.
  unfold modify at 1 in E. cbv iota beta in E.
  unfold bind at 1, modify at 1 in E. cbv iota beta in E.
  unfold bind at 1 in E. rewrite setMinimum_zero in E by (cbn; lia).
  cbv iota beta in E.
  unfold bind at 1, modify at 1 in E. cbv iota beta in E.
  unfold bind at 1 in E.
  lazymatch type of E with
  | context [setMaximum _ ?s3] =>
      set (s1 := s3) in E;
      destruct (setMaximum_facts s1 axis Hs)
        as (s2 & E2 & Hb2 & Hk2 & Hv2 & Hsame2 & Hmoved2 & _);
      [reflexivity | assumption | reflexivity | exact Hmin | exact Hval |]
  end.
  rewrite E2 in E. cbv iota beta in E.
  destruct (setValue_facts (Z.of_nat (List.length axis) / 2) axis s2 Hs
              (bound_ranged _ _ Hb2))
    as (s3 & E3 & Hb3 & Hk3 & Hv3 & Hsame3 & Hmoved3 & _).
  replace (Z.max 0 (Z.min (Z.of_nat (List.length axis) - 1)
                      (Z.of_nat (List.length axis) / 2)))
    with (Z.of_nat (List.length axis) / 2) in Hv3 by lia.
  unfold bind at 1 in E. rewrite E3 in E. cbv iota beta in E.
  unfold bind at 1 in E.
  rewrite (wavelength_at_eq s3 axis _
             (ranged_axis _ _ (bound_ranged _ _ Hb3)) Hmid) in E.
  cbv iota beta in E. unfold bind at 1, get at 1 in E. cbv iota beta in E.
  unfold bind at 1, modify at 1 in E. cbv iota beta in E. unfold modify in E.
  inversion E; subst o s'; clear E.
  pose proof (Kept_trans _ _ _ Hk2 Hk3) as Hk.
  destruct Hk as [K1 K2 K3 K4 K5 K6 K7 K8 K9 K10 K11 K12 K13].
  destruct Hb3 as [[Ha3 _ Hsub3 Hmin3 Hmax3] _].
  cbn [sl_enabled le_enabled subscribed wavelengths wavelength_units
       wavelength_format wavelength_textbox_label wavelength_label_text
       slice_slider slice_textbox
       wavelength_textbox cv_layout synced_index text setText
       with_layout with_wavelength_textbox set_synced_index].
  rewrite K3, K8, K9, K10, K2, K4, K5.
  split; [reflexivity|]. split; [repeat split|]. split; [exact Hsub3|].
  split; [repeat split; exact Ha3|]. split; [split; reflexivity|].
  split; [split; assumption|]. split; [exact Hv3|]. split; [reflexivity|].
  split; [reflexivity|].
  intros Hnm.
  destruct (Z.eq_dec (value (slice_slider s3)) (value (slice_slider s2)))
    as [Heq|Hneq].
  - rewrite (Hsame3 Heq). rewrite Hv3 in Heq.
    assert (Hn2 : value (slice_slider s2) <> value (slice_slider s1))
      by (subst s1; cbn [slice_slider with_label with_axis with_subscribed
                        with_wavelength_textbox with_slice_textbox
                        with_slice_slider set_slider_enabled value];
          congruence).
    rewrite (Hmoved2 Hn2). congruence.
  - rewrite (Hmoved3 Hneq). congruence.
Qed.

(** X1. [enable] on a non-empty axis, from a slider whose range starts at 0.
    It returns with the three widgets enabled, the controller subscribed,
    the axis and its unit stored with the format ['{:.3}'], the label
    showing the label text and the unit, the slider's range
    [[0, len(axis)-1]], and the slider and the synced index both at the
    middle index [len(axis) // 2]. The wavelength box shows the middle
    wavelength in that format; the slice box reads the middle index if the
    slider was not there before. *)
Theorem enable_shows_middle_slice s units axis :
  Np.ArgsortSpec argsort -> axis <> [] ->
  minimum (slice_slider s) = 0 ->
  0 <= value (slice_slider s) <= maximum (slice_slider s) ->
  let r := enable units axis s in
  let middle := Z.of_nat (List.length axis) / 2 in
  fst r = Ok tt /\
  (sl_enabled (slice_slider (final r)) = true /\
   le_enabled (slice_textbox (final r)) = true /\
   le_enabled (wavelength_textbox (final r)) = true) /\
  subscribed (final r) = true /\
  (wavelengths (final r) = Some axis /\
   wavelength_units (final r) = Some units /\
   wavelength_format (final r) = "{:.3}") /\
  (wavelength_label_text (final r) = wavelength_label_text s /\
   wavelength_textbox_label (final r)
     = label_of (wavelength_label_text s) (Some units)) /\
  (minimum (slice_slider (final r)) = 0 /\
   maximum (slice_slider (final r)) = Z.of_nat (List.length axis) - 1) /\
  value (slice_slider (final r)) = middle /\
  synced_index (cv_layout (final r)) = middle /\
  text (wavelength_textbox (final r))
    = format_float "{:.3}" (nth (Z.to_nat middle) axis nan) /\
  (value (slice_slider s) <> middle ->
   Py.int (text (slice_textbox (final r))) = Some middle).
Proof. exact (enable_run s units axis). Qed.

(** X3. [set_wavelengths] on a bound controller, with a new axis that the
    synced index is an index of. It returns with the new axis and its unit
    stored with the format ['{:.3}'], the label showing the label text and
    the new unit, the slider's range [[0, len(new axis)-1]] and its value
    cut to that range. The wavelength box shows the new wavelength at the
    synced index in that format, and the unit change is the last event
    emitted. If the slider's value fits the new range, nothing else
    happens: the slice box, the layout and the earlier events are as
    before. *)
Theorem set_wavelengths_shows_synced_wavelength
    s axis new_wavelengths new_units :
  Np.ArgsortSpec argsort -> Inv s axis ->
  synced_index (cv_layout s) < Z.of_nat (List.length new_wavelengths) ->
  let r := set_wavelengths new_wavelengths new_units s in
  let last := Z.of_nat (List.length new_wavelengths) - 1 in
  fst r = Ok tt /\
  (wavelengths (final r) = Some new_wavelengths /\
   wavelength_units (final r) = Some new_units /\
   wavelength_format (final r) = "{:.3}") /\
  wavelength_textbox_label (final r)
    = label_of (wavelength_label_text s) (Some new_units) /\
  (minimum (slice_slider (final r)) = 0 /\
   maximum (slice_slider (final r)) = last) /\
  value (slice_slider (final r)) = Z.min (value (slice_slider s)) last /\
  text (wavelength_textbox (final r))
    = format_float "{:.3}"
        (nth (Z.to_nat (synced_index (cv_layout (final r))))
           new_wavelengths nan) /\
  hd_error (emitted (final r)) = Some (ChangedUnits new_units) /\
  (value (slice_slider s) <= last ->
   slice_textbox (final r) = slice_textbox s /\
   cv_layout (final r) = cv_layout s /\
   emitted (final r) = ChangedUnits new_units :: emitted s).
Proof.
  intros Hs [[[Ha Hne Hsub Hmin Hmax] Hv] Hsync] Hnew. cbv zeta.
  unfold SyncedInRange in Hsync.
  assert (Hne' : new_wavelengths <> [])
    by (destruct new_wavelengths; [cbn in Hnew; lia | discriminate]).
  destruct (set_wavelengths new_wavelengths new_units s) as [o s'] eqn:E.
  cbn [fst final snd]. unfold set_wavelengths in E.
  unfold bind at 1, modify at 1 in E. cbv iota beta in E.
  unfold bind at 1 in E.
  lazymatch type of E with
  | context [setMaximum _ ?s3] =>
      set (s1 := s3) in E;
      destruct (setMaximum_facts s1 new_wavelengths Hs)
        as (s2 & E2 & Hb2 & Hk2 & Hv2 & Hsame2 & _ & Hs2);
      [reflexivity | assumption | exact Hsub | exact Hmin
      | unfold s1; cbn [slice_slider with_label with_axis]; lia |]
  end.
  rewrite E2 in E. cbv iota beta in E.
  assert (Hsync2 : SyncedInRange s2 new_wavelengths).
  { destruct Hs2 as [H|H]; [|exact H]. unfold SyncedInRange. rewrite H.
    unfold s1. cbn [cv_layout with_label with_axis]. lia. }
  unfold bind at 1, get at 1 in E. cbv iota beta in E.
  unfold bind at 1 in E.
  rewrite (wavelength_at_eq s2 new_wavelengths _
             (ranged_axis _ _ (bound_ranged _ _ Hb2)) Hsync2) in E.
  cbv iota beta in E. unfold bind at 1, modify at 1 in E. cbv iota beta in E.
  unfold modify in E.
  inversion E; subst o s'; clear E.
  destruct Hk2 as [K1 K2 K3 K4 K5 K6 K7 K8 K9 K10 K11 K12 K13].
  destruct Hb2 as [[Ha2 _ Hsub2 Hmin2 Hmax2] _].
  cbn [wavelengths wavelength_units wavelength_format
       wavelength_textbox_label slice_slider slice_textbox
       wavelength_textbox cv_layout emitted hd_error text setText
       emit with_wavelength_textbox].
  rewrite K3, K2, K4, Hv2.
  split; [reflexivity|]. split; [repeat split; exact Ha2|].
  split; [reflexivity|]. split; [split; assumption|].
  split; [reflexivity|]. split; [reflexivity|]. split; [reflexivity|].
  intros Hfit.
  destruct Hsame2 as (T1 & _ & T3 & T4);
    [rewrite Hv2; unfold s1; cbn [slice_slider with_label with_axis]; lia|].
  rewrite T1, T3, T4. repeat split.
Qed.

Lemma nearest_index_nil w :
  Np.ArgsortSpec argsort -> nearest_index [] w = None.
Proof.
  intros Hs. unfold nearest_index. cbn [Np.abs_diff map].
  pose proof (Np.argsort_perm argsort Hs []) as Hp. cbn in Hp.
  apply Permutation_sym, Permutation_nil in Hp. now rewrite Hp.
Qed.

Lemma index_nil {A} (i : Z) : Py.index (@nil A) i = None.
Proof.
  unfold Py.index. cbn [List.length].
  repeat match goal with
  | |- context [if ?c then _ else _] => destruct c
  | |- nth_error [] ?n = None => now destruct n
  end; reflexivity.
Qed.

(** The listener on an empty axis either returns or raises [IndexError]. *)
Lemma empty_axis_listener i s :
  Np.ArgsortSpec argsort -> wavelengths s = Some [] ->
  let r := master_index_update_from (fun _ => ret tt) i s in
  fst r = Ok tt \/ fst r = Raise Py.IndexError.
Proof.
  intros Hs Ha.
  cbv [master_index_update_from nearest wavelength_at
       bind get when modify ret lift raise].
  repeat first
    [ rewrite Ha
    | rewrite (nearest_index_nil _ Hs)
    | rewrite index_nil
    | progress cbn [wavelengths with_slice_textbox with_wavelength_textbox
                    negb fst snd]
    | match goal with
      | |- context [match ?x with _ => _ end] =>
          lazymatch x with
          | context [match _ with _ => _ end] => fail
          | _ => destruct x eqn:?
          end
      end ];
  try rewrite apply_to_viewers_eq; cbn [fst]; auto.
Qed.

(** X2. [enable] on an empty axis always raises [IndexError]: at the latest
    when it looks up the wavelength of the middle index 0. *)
Theorem enable_empty_axis_raises s units :
  Np.ArgsortSpec argsort ->
  minimum (slice_slider s) = 0 ->
  0 <= value (slice_slider s) <= maximum (slice_slider s) ->
  fst (enable units [] s) = Raise Py.IndexError.
Proof.
  intros Hs Hmin Hval.
  destruct (enable units [] s) as [o s'] eqn:E. cbn [fst].
  unfold enable in E.
  unfold bind at 1 in E. unfold set_enabled, bind at 1, modify at 1 in E.
  cbv iota beta in E. unfold bind at 1, modify at 1 in E. cbv iota beta in E.
  unfold modify at 1 in E. cbv iota beta in E.
  unfold bind at 1, modify at 1 in E. cbv iota beta in E.
  unfold bind at 1 in E. rewrite setMinimum_zero in E by (cbn; lia).
  cbv iota beta in E.
  unfold bind at 1, modify at 1 in E. cbv iota beta in E.
  unfold bind at 1 in E.
  lazymatch type of E with
  | context [setMaximum _ ?s3] => set (s1 := s3) in E
  end.
  assert (Ha1 : wavelengths s1 = Some []) by reflexivity.
  assert (Hv1 : value (slice_slider s1) = value (slice_slider s))
    by reflexivity.
  assert (Hmin1 : minimum (slice_slider s1) = 0) by exact Hmin.
  assert (Hsub1 : subscribed s1 = true) by reflexivity.
  clearbody s1. cbn [List.length Z.of_nat Z.sub Z.opp Z.add] in E.
  set (s2 := with_slice_slider (set_value (-1))
               (with_slice_slider (set_range (-1) (-1)) s1)).
  assert (E2 : setMaximum (-1) s1 =
               master_index_update_from (fun _ => ret tt) (-1) s2).
  { unfold setMaximum, setRange. cbv [bind get when modify].
    rewrite Hmin1.
    change (Z.min 0 (-1)) with (-1). change (Z.max (-1) (-1)) with (-1).
    change (-1 =? 0) with false. cbn [andb negb].
    unfold setValue, signal_depth. rewrite slider_fuel.
    cbn [slider_setValue]. unfold bound.
    cbn [slice_slider with_slice_slider set_range minimum maximum value].
    replace (Z.max (-1) (Z.min (-1) (value (slice_slider s1)))) with (-1)
      by lia.
    replace (-1 =? value (slice_slider s1)) with false
      by (symmetry; apply Z.eqb_neq; lia).
    unfold _on_slider_change_from, broadcast. cbv [bind get when].
    cbn [subscribed with_slice_slider]. rewrite Hsub1.
    apply master_index_update_from_ext. reflexivity. }
  rewrite E2 in E.
  destruct (empty_axis_listener (-1) s2 Hs Ha1) as [H|H];
    destruct (master_index_update_from_kept (-1) s2) as [Hk Hsl];
    cbv zeta in *;
    destruct (master_index_update_from (fun _ => ret tt) (-1) s2)
      as [[[]|e] s3]; cbn [fst final snd] in *; try discriminate.
  - unfold bind at 1 in E.
    assert (E3 : setValue (0 / 2) s3 = (Ok tt, s3)).
    { unfold setValue, signal_depth. cbn [slider_setValue]. unfold bound.
      rewrite Hsl. cbn. reflexivity. }
    rewrite E3 in E. cbv iota beta in E.
    cbv [bind wavelength_at get lift raise ret] in E.
    rewrite (kept_wavelengths _ _ Hk) in E.
    subst s2. cbn [wavelengths with_slice_slider] in E. rewrite Ha1 in E.
    rewrite index_nil in E. now inversion E.
  - inversion H; subst e. now inversion E.
Qed.

(** X4. The label widget shows the label text and the unit, as
    ['{} ({})'.format(label, unit)]. Setting the label returns, stores the
    text and shows it with the stored unit, touching nothing else; before
    [enable] there is no unit and the label reads ["... (None)"]. A label
    set before [enable] is kept by it: after [enable] the widget shows that
    label with the new unit. *)
Theorem wavelength_label_follows s new_label :
  let r := wavelength_label_setter new_label s in
  (fst r = Ok tt /\
   wavelength_label_text (final r) = new_label /\
   wavelength_textbox_label (final r)
     = (new_label ++ " ("
          ++ match wavelength_units s with Some u => u | None => "None" end
          ++ ")")%string /\
   final r = with_label (wavelength_textbox_label (final r))
               (with_label_text new_label s)) /\
  (forall units axis,
     Np.ArgsortSpec argsort -> axis <> [] ->
     minimum (slice_slider s) = 0 ->
     0 <= value (slice_slider s) <= maximum (slice_slider s) ->
     let r2 := (wavelength_label_setter new_label ;; enable units axis) s in
     fst r2 = Ok tt /\
     wavelength_label_text (final r2) = new_label /\
     wavelength_textbox_label (final r2)
       = (new_label ++ " (" ++ units ++ ")")%string).
Proof.
  cbv zeta. split.
  - unfold wavelength_label_setter. cbv [bind modify get].
    cbn [fst final snd]. repeat split.
  - intros units axis Hs Hne Hmin Hval.
    assert (E : wavelength_label_setter new_label s =
                (Ok tt,
                 with_label (label_of new_label (wavelength_units s))
                   (with_label_text new_label s))) by reflexivity.
    unfold bind. rewrite E.
    destruct (enable_run
                (with_label (label_of new_label (wavelength_units s))
                   (with_label_text new_label s))
                units axis Hs Hne Hmin Hval)
      as (H1 & _ & _ & _ & (Ht & H5) & _).
    cbv zeta in *.
    split; [exact H1|]. split; [exact Ht | exact H5].
Qed.

End Setup.

(* ================================================================== *)
(** * Targets that are not on the number line *)
(* ================================================================== *)

Section OffScale.

Context {B : Builtins}.

Local Open Scope Z_scope.
Local Open Scope py_scope.

(** The distance to NaN is NaN. *)
Lemma abs_sub_nan a w : is_nan w = true -> abs (a - w) = nan.
Proof.
  intros H. apply Prim2SF_inj. rewrite abs_spec, sub_spec. revert H.
  unfold is_nan. rewrite eqb_spec.
  destruct (Prim2SF w) as [[|]|[|]| |sw mw ew] eqn:E; cbn;
    try discriminate.
  - intros _. now destruct (Prim2SF a).
  - rewrite Z.compare_refl, Pos.compare_cont_refl. now destruct sw.
Qed.

(** The distance from a finite number to an infinity is infinite. *)
Lemma abs_sub_infinity a w :
  is_finite a = true -> is_infinity w = true -> abs (a - w) = infinity.
Proof.
  intros Ha Hw. apply Prim2SF_inj.
  rewrite abs_spec, sub_spec, NpFacts.Prim2SF_infinity. revert Ha Hw.
  unfold is_finite, is_nan, is_infinity.
  rewrite !eqb_spec, !abs_spec, NpFacts.Prim2SF_infinity.
  destruct (Prim2SF w) as [[|]|[|]| |sw mw ew];
    destruct (Prim2SF a) as [[|]|[|]| |sa ma ea]; cbn;
    try discriminate; try reflexivity;
    try (intros _; discriminate); try (intros _ _; reflexivity).
Qed.

(** When all keys are the same, a stable argsort starts with index 0. *)
Lemma head_constant (l : list float) (c : float) k :
  Np.ArgsortSpec argsort -> Np.ArgsortStable argsort ->
  (forall j, (j < List.length l)%nat -> Np.key l j = c) ->
  hd_error (argsort l) = Some k -> k = 0%nat.
Proof.
  intros Hs Hst Hc Hk. destruct k as [|k]; [reflexivity|]. exfalso.
  pose proof (ArgsortFacts.head_in_range argsort Hs l _ Hk) as Hr.
  pose proof (ArgsortFacts.head_lowest argsort Hs l (S k) 0%nat Hst Hk
                ltac:(lia)) as Hlt.
  rewrite !Hc in Hlt by lia. now rewrite NpFacts.lt_irrefl in Hlt.
Qed.

(** X15. A target that is NaN, or an infinity on an axis of finite
    wavelengths, is at the same distance from every slice. The wavelength
    handler takes it as valid all the same: it returns with the error
    style cleared and the slider at the index the ordering routine puts
    first, an index of the axis. If that routine is stable, it is
    index 0. *)
Theorem off_scale_target_is_accepted s axis pos w :
  Np.ArgsortSpec argsort -> Ranged s axis ->
  match pos with
  | Some p => Some p
  | None => float_of_text (text (wavelength_textbox s))
  end = Some w ->
  is_nan w = true \/
  (is_infinity w = true /\ Forall (fun a => is_finite a = true) axis) ->
  let r := _on_text_wavelength_change pos s in
  exists (c : float) (k : nat),
    (forall j, (j < List.length axis)%nat -> abs (nth j axis nan - w) = c) /\
    nearest_index axis w = Some k /\ (k < List.length axis)%nat /\
    fst r = Ok tt /\
    value (slice_slider (final r)) = Z.of_nat k /\
    styleSheet (wavelength_textbox (final r)) = "" /\
    (Np.ArgsortStable argsort -> k = 0%nat).
Proof.
  intros Hs Hr Hw Hoff. cbv zeta.
  destruct (nearest_index_some axis w Hs (ranged_nonempty _ _ Hr))
    as (k & Hk & Hlt).
  assert (Hc : exists c, forall j, (j < List.length axis)%nat ->
                 abs (nth j axis nan - w) = c).
  { destruct Hoff as [Hnan | [Hinf Hfin]].
    - exists nan. intros j Hj. now apply abs_sub_nan.
    - exists infinity. intros j Hj.
      apply abs_sub_infinity; [|exact Hinf].
      rewrite Forall_forall in Hfin. apply Hfin. now apply nth_In. }
  destruct Hc as (c & Hc).
  exists c, k. split; [exact Hc|]. split; [exact Hk|]. split; [exact Hlt|].
  rewrite (_on_text_wavelength_change_resolved s axis pos w k
             (ranged_axis _ _ Hr) Hw Hk).
  assert (Hr' : Ranged (with_wavelength_textbox (setStyleSheet "") s) axis)
    by (eapply Ranged_frame; [| | | exact Hr]; reflexivity).
  split; [now rewrite (setValue_eq _ axis _ Hs Hr')|].
  split; [|split].
  - rewrite (setValue_value _ axis _ Hs Hr').
    apply (bound_id _ axis); [assumption|]. lia.
  - now rewrite (proj2 (setValue_styles _ axis _ Hs Hr')).
  - intros Hst.
    apply (head_constant (Np.abs_diff axis w) c k Hs Hst); [|exact Hk].
    intros j Hj. rewrite abs_diff_length in Hj.
    rewrite NpFacts.key_abs_diff by assumption. now apply Hc.
Qed.

End OffScale.

(* ================================================================== *)
(** * The claims at the worked configuration *)
(* ================================================================== *)

#[local] Existing Instance Example.builtins.

Section Worked.

Local Open Scope Z_scope.

Let typed (t : string) : Controller :=
  with_slice_textbox (setText t) Example.start.

Lemma example_typed_bound t : Bound (typed t) Example.axis.
Proof.
  eapply Bound_frame; [| | | exact example_start_bound]; reflexivity.
Qed.

Lemma example_start_inv : Inv Example.start Example.axis.
Proof.
  split; [exact example_start_bound|].
  vm_compute. split; [discriminate | reflexivity].
Qed.

Lemma example_start_single_inv : Inv Example.start_single Example.axis.
Proof.
  split; [split|].
  - split; [reflexivity | discriminate | reflexivity..].
  - vm_compute. split; [discriminate | reflexivity].
  - vm_compute. split; [discriminate | reflexivity].
Qed.

End Worked.



(** C3 as the spec states it fails: [apply_to_viewers] stores any index it
    is given; [set_wavelengths] with an axis shorter than the synced index
    keeps that index (here in single-viewer mode) and raises; [enable] on an
    empty axis raises with no valid index to hold. *)
Lemma synced_index_invariant_counterexample :
  Inv Example.start Example.axis /\
  (let r := apply_to_viewers 7 Example.start in
   fst r = Ok tt /\ wavelengths (final r) = Some Example.axis /\
   List.length Example.axis = 4%nat /\
   synced_index (cv_layout (final r)) = 7%Z) /\
  Inv Example.start_single Example.axis /\
  (let r := set_wavelengths [1%float] "nm" Example.start_single in
   fst r = Raise Py.IndexError /\ wavelengths (final r) = Some [1%float] /\
   synced_index (cv_layout (final r)) = 2%Z) /\
  (let r := enable "um" [] (init Example.layout) in
   fst r = Raise Py.IndexError /\ wavelengths (final r) = Some []).
Proof.
  split; [exact example_start_inv|].
  split; [vm_compute; repeat split|].
  split; [exact example_start_single_inv|].
  vm_compute. repeat split.
Qed.

(** C3 (amended), at the worked configuration: [enable] from the fresh
    controller, [set_wavelengths] to the reversed axis, [apply_to_viewers]
    on index 1 and the slider's release. *)
Lemma synced_index_invariant_witness :
  (fst (enable "um" Example.axis (init Example.layout)) = Ok tt /\
   Inv (final (enable "um" Example.axis (init Example.layout))) Example.axis) /\
  (fst (set_wavelengths (rev Example.axis) "nm" Example.start) = Ok tt /\
   Inv (final (set_wavelengths (rev Example.axis) "nm" Example.start))
     (rev Example.axis)) /\
  (fst (apply_to_viewers 1 Example.start) = Ok tt /\
   Inv (final (apply_to_viewers 1 Example.start)) Example.axis) /\
  (fst (_on_slider_released Example.start) = Ok tt /\
   Inv (final (_on_slider_released Example.start)) Example.axis).
Proof.
  destruct (@synced_index_invariant Example.builtins example_argsort_spec)
    as (H1 & H2 & H3 & H4).
  split; [|split; [|split]].
  - apply H1; [discriminate | reflexivity |].
    vm_compute; split; discriminate.
  - apply (H2 Example.start Example.axis); [exact example_start_inv|].
    reflexivity.
  - apply H3; [exact example_start_inv|].
    vm_compute; split; [discriminate | reflexivity].
  - apply H4. exact example_start_inv.
Defined.

(** C4, at redshift 1: the observed position 5 is the rest wavelength 2.5,
    which is [axis[2]]; and with no units controller the position is handed
    over as it is. *)
Lemma specviz_redshift_correction_witness :
  (exists k : nat,
     nearest_index Example.axis 2.5%float = Some k /\
     specviz_wavelength_slider_change (Some 5%float) Example.start_redshift =
     fast_draw_scope
       (_on_text_wavelength_change (Some (nth k Example.axis nan)))
       Example.start_redshift) /\
  specviz_wavelength_slider_change (Some 2.25%float) Example.start =
  fast_draw_scope (_on_text_wavelength_change (Some 2.25%float)) Example.start.
Proof.
  split.
  - destruct (@specviz_redshift_correction Example.builtins
                Example.start_redshift Example.axis 5%float
                example_argsort_spec eq_refl
                ltac:(discriminate)) as [H _].
    destruct (H 1%float eq_refl eq_refl eq_refl) as (k & _ & Hk & Hrun).
    exists k. split; [exact Hk | exact Hrun].
  - destruct (@specviz_redshift_correction Example.builtins
                Example.start Example.axis 0%float
                example_argsort_spec eq_refl
                ltac:(discriminate)) as [_ H].
    apply H. left. reflexivity.
Defined.

(** C4 as the spec states it fails at the redshift -1, which is not zero:
    the division by [1 + z] raises [ZeroDivisionError], nothing is handed
    to [_on_text_wavelength_change], the slider and the boxes stay as they
    were, and the fast-draw flag is left set. *)
Lemma specviz_redshift_correction_counterexample :
  let s := Example.start_redshift_minus_one in
  let r := specviz_wavelength_slider_change (Some 5%float) s in
  units_controller (cv_layout s) = Some {| redshift_z := (-1)%float |} /\
  ((-1) =? 0)%float = false /\
  wavelengths s = Some Example.axis /\
  fst r = Raise Py.ZeroDivisionError /\
  slice_slider (final r) = slice_slider s /\
  slice_textbox (final r) = slice_textbox s /\
  wavelength_textbox (final r) = wavelength_textbox s /\
  emitted (final r) = emitted s /\
  slider_flag s = false /\ slider_flag (final r) = true.
Proof. vm_compute. repeat split. Qed.




(** C10, five steps up from index 2 of a 4-slice axis: position 7 is
    emitted while the slider stops at 3. *)
Lemma change_slider_value_emits_unclamped_witness :
  let s' := final (change_slider_value 5 Example.start) in
  hd_error (emitted s') = Some (ChangedDispersionPosition 7) /\
  value (slice_slider s') = 3%Z.
Proof.
  destruct (@change_slider_value_emits_unclamped Example.builtins
              Example.start Example.axis example_argsort_spec
              example_start_bound)
    as (H & _).
  destruct (H 5%Z) as (_ & Hev & Hval & _).
  split; [exact Hev | exact Hval].
Defined.

(* ================================================================== *)
(** * The further properties at the worked configuration *)
(* ================================================================== *)

Section WorkedFurther.

Local Open Scope Z_scope.

Lemma example_start_ranged : Ranged Example.start Example.axis.
Proof. exact (bound_ranged _ _ example_start_bound). Qed.

Lemma example_init_slider :
  minimum (slice_slider (init Example.layout)) = 0 /\
  0 <= value (slice_slider (init Example.layout))
    <= maximum (slice_slider (init Example.layout)).
Proof. vm_compute. repeat split; discriminate. Qed.

End WorkedFurther.

(** X9: a hub message for index 1 while the slider shows 2: two events and two
    draw requests per synced viewer. *)
Lemma hub_update_draws_twice_witness :
  let r := master_index_update 1 Example.start in
  fst r = Ok tt /\
  value (slice_slider (final r)) = 1%Z /\
  emitted (final r)
    = ChangedDispersionPosition 1 :: ChangedDispersionPosition 1
        :: emitted Example.start /\
  draws (viewers (cv_layout (final r)) 0%nat)
    = [FullDraw 1; FullDraw 1; FullDraw 2].
Proof.
  destruct (@hub_update_draws_twice Example.builtins Example.start
              Example.axis 1%Z example_argsort_spec example_start_ranged
              ltac:(vm_compute; split; [discriminate | reflexivity]))
    as (Hok & Hv & _ & _ & Hmoved).
  destruct (Hmoved ltac:(vm_compute; discriminate)) as [Hem HL].
  cbv zeta. split; [exact Hok|]. split; [exact Hv|]. split; [exact Hem|].
  rewrite HL. reflexivity.
Defined.


(** X6: [update_index(9)] on the axis of four slices: the slider stops at 3,
    and a second call changes nothing. *)
Lemma update_index_idempotent_witness :
  let s1 := final (update_index 9 Example.start) in
  value (slice_slider s1) = 3%Z /\
  update_index 9 s1 = (Ok tt, s1).
Proof.
  destruct (@update_index_idempotent Example.builtins Example.start
              Example.axis 9%Z example_argsort_spec example_start_ranged)
    as (_ & Hv & _ & _ & Hagain).
  split; [exact Hv | exact Hagain].
Defined.

(** X7: [update_index(1)] then [get_index()]: 1 where the active viewer is
    synced, the earlier 2 in single-viewer mode. *)
Lemma update_index_then_get_index_witness :
  fst ((update_index 1 ;; get_index)%py Example.start) = Ok 1%Z /\
  fst ((update_index 1 ;; get_index)%py Example.start_single) = Ok 2%Z.
Proof.
  split.
  - destruct (@update_index_then_get_index Example.builtins Example.start
                Example.axis 1%Z example_argsort_spec example_start_ranged
                ltac:(vm_compute; split; [discriminate | reflexivity]))
      as [H _].
    apply H; [vm_compute; discriminate | reflexivity | reflexivity].
  - destruct (@update_index_then_get_index Example.builtins
                Example.start_single Example.axis 1%Z example_argsort_spec
                (bound_ranged _ _ (proj1 example_start_single_inv))
                ltac:(vm_compute; split; [discriminate | reflexivity]))
      as [_ H].
    apply H. right. right. reflexivity.
Defined.

(** X13: a drag from slice 2 to slice 3: the active viewer gets a fast draw and
    then a full draw of slice 3. *)
Lemma drag_ends_with_full_draw_witness :
  let r := (_on_slider_pressed ;; update_index 3 ;; _on_slider_released)%py
             Example.start in
  slider_flag (final r) = false /\
  draws (viewers (cv_layout (final r)) 0%nat)
    = [FullDraw 3; FastDraw 3; FullDraw 2].
Proof.
  destruct (@drag_ends_with_full_draw Example.builtins Example.start
              Example.axis 3%Z example_argsort_spec example_start_ranged
              ltac:(vm_compute; split; [discriminate | reflexivity])
              ltac:(vm_compute; discriminate))
    as (_ & Hfl & _ & HL & _).
  cbv zeta. split; [exact Hfl|]. rewrite HL. reflexivity.
Defined.

(** X11: the handlers on the worked controller, with "abc" in the slice box. *)
Lemma handlers_keep_invariant_witness :
  let s := with_slice_textbox (setText "abc") Example.start in
  keeps Example.axis (update_index 9) s /\
  keeps Example.axis _on_text_slice_change s /\
  keeps Example.axis (master_index_update 3) s.
Proof.
  assert (Hinv : Inv (with_slice_textbox (setText "abc") Example.start)
                   Example.axis).
  { split; [apply example_typed_bound|]. exact (proj2 example_start_inv). }
  destruct (@handlers_keep_invariant Example.builtins
              (with_slice_textbox (setText "abc") Example.start)
              Example.axis example_argsort_spec Hinv)
    as (H1 & _ & H3 & _ & H5 & _).
  cbv zeta. split; [exact (H1 9%Z)|]. split; [exact H3|].
  apply H5. vm_compute. split; [discriminate | reflexivity].
Defined.


(** X17: the cursor of the spectral viewer at the observed position 2 with
    redshift 1: the rest wavelength is 1, which is slice 0. *)
Lemma specviz_cursor_moves_slider_witness :
  let r := specviz_wavelength_slider_change (Some 2%float)
             Example.start_redshift in
  fst r = Ok tt /\
  value (slice_slider (final r)) = 0%Z /\
  slider_flag (final r) = false /\
  draws (viewers (cv_layout (final r)) 0%nat) = [FastDraw 0; FullDraw 2].
Proof.
  assert (Hr : Ranged Example.start_redshift Example.axis)
    by (split; [reflexivity | discriminate | reflexivity..]).
  destruct (@specviz_cursor_moves_slider Example.builtins
              Example.start_redshift Example.axis 2%float
              example_argsort_spec Hr
              ltac:(intros z Hz; vm_compute in Hz; inversion Hz; reflexivity))
    as (w & k & Htarget & Hk & _ & Hok & Hv & Hfl & _ & Hmoved).
  assert (Hw : w = 1%float).
  { vm_compute in Htarget. destruct Htarget as (j & Hj & -> & _).
    inversion Hj; subst j. reflexivity. }
  subst w.
  assert (k = 0%nat) by (vm_compute in Hk; now inversion Hk). subst k.
  cbv zeta. split; [exact Hok|]. split; [exact Hv|]. split; [exact Hfl|].
  destruct (Hmoved ltac:(vm_compute; discriminate)) as [HL _].
  rewrite HL. reflexivity.
Defined.

(** X14: "2.25" typed into the wavelength box while the slider shows slice 1:
    the slider goes to slice 2 and the box keeps "2.25". *)
Lemma typed_wavelength_is_kept_witness :
  let s := with_wavelength_textbox (setText "2.25")
             (final (setValue 1 Example.start)) in
  let r := _on_text_wavelength_change None s in
  fst r = Ok tt /\
  value (slice_slider (final r)) = 2%Z /\
  text (wavelength_textbox (final r)) = "2.25"%string /\
  Py.int (text (slice_textbox (final r))) = Some 2%Z.
Proof.
  assert (Hr : Ranged (with_wavelength_textbox (setText "2.25")
                         (final (setValue 1 Example.start))) Example.axis).
  { eapply Ranged_frame;
      [| | | exact (bound_ranged _ _
                      (Bound_setValue 1 Example.axis Example.start
                         example_argsort_spec example_start_ranged))];
      reflexivity. }
  destruct (@typed_wavelength_is_kept Example.builtins _ Example.axis
              None 2.25%float example_argsort_spec Hr eq_refl)
    as (k & Hk & Hok & Hv & _ & Hmoved).
  assert (k = 2%nat) by (vm_compute in Hk; now inversion Hk). subst k.
  destruct (Hmoved ltac:(vm_compute; discriminate)) as (Hint & Hkeep & _).
  cbv zeta. split; [exact Hok|]. split; [exact Hv|].
  split; [exact (Hkeep eq_refl) | exact Hint].
Defined.

(** X16: [_update_slice_textboxes(1)] and a return press in the slice box. *)
Lemma update_slice_textboxes_read_back_witness :
  let s1 := final (_update_slice_textboxes 1 Example.start) in
  text (slice_textbox s1) = "1"%string /\
  text (wavelength_textbox s1) = "1.06"%string /\
  value (slice_slider (final (_on_text_slice_change s1))) = 1%Z.
Proof.
  destruct (@update_slice_textboxes_read_back Example.builtins Example.start
              Example.axis 1%Z example_argsort_spec example_start_ranged)
    as [H _].
  destruct (H ltac:(vm_compute; split; [discriminate | reflexivity]))
    as (Hrun & _ & Hv & _).
  cbv zeta. rewrite Hrun. cbn [final snd].
  split; [reflexivity|]. split; [reflexivity | exact Hv].
Defined.

(** X1: [enable] on the fresh controller and the worked axis: slice 2 of 4,
    wavelength 2.5. *)
Lemma enable_shows_middle_slice_witness :
  let r := enable "um" Example.axis (init Example.layout) in
  fst r = Ok tt /\
  value (slice_slider (final r)) = 2%Z /\
  synced_index (cv_layout (final r)) = 2%Z /\
  text (wavelength_textbox (final r)) = "2.5"%string /\
  wavelength_textbox_label (final r) = "Obs Wavelength (um)"%string /\
  Py.int (text (slice_textbox (final r))) = Some 2%Z.
Proof.
  destruct (@enable_shows_middle_slice Example.builtins
              (init Example.layout) "um" Example.axis example_argsort_spec
              ltac:(discriminate) (proj1 example_init_slider)
              (proj2 example_init_slider))
    as (Hok & _ & _ & _ & (_ & Hlabel) & _ & Hv & Hsy & Htext & Hint).
  cbv zeta. split; [exact Hok|]. split; [exact Hv|]. split; [exact Hsy|].
  split; [exact Htext|]. split; [exact Hlabel|].
  apply Hint. vm_compute. discriminate.
Defined.

(** X3: [set_wavelengths] to the reversed axis in nanometres: the synced index
    stays 2, where the new axis holds 1.0625. *)
Lemma set_wavelengths_shows_synced_wavelength_witness :
  let r := set_wavelengths (rev Example.axis) "nm" Example.start in
  fst r = Ok tt /\
  text (wavelength_textbox (final r)) = "1.06"%string /\
  wavelength_textbox_label (final r) = "Obs Wavelength (nm)"%string /\
  emitted (final r) = ChangedUnits "nm" :: emitted Example.start.
Proof.
  destruct (@set_wavelengths_shows_synced_wavelength Example.builtins
              Example.start Example.axis (rev Example.axis) "nm"
              example_argsort_spec example_start_inv eq_refl)
    as (Hok & _ & Hlabel & _ & _ & Htext & _ & Hfit).
  destruct (Hfit ltac:(vm_compute; discriminate)) as (_ & HL & Hem).
  cbv zeta. split; [exact Hok|]. split; [|split; [exact Hlabel | exact Hem]].
  rewrite Htext, HL. reflexivity.
Defined.

(** X2: [enable] with no wavelengths. *)
Lemma enable_empty_axis_raises_witness :
  fst (enable "um" [] (init Example.layout)) = Raise Py.IndexError.
Proof.
  exact (@enable_empty_axis_raises Example.builtins (init Example.layout)
           "um" example_argsort_spec (proj1 example_init_slider)
           (proj2 example_init_slider)).
Defined.

(** X15: NaN handed to the wavelength handler of the worked controller,
    whose ordering routine is stable. *)
Lemma off_scale_target_is_accepted_witness :
  let r := _on_text_wavelength_change (Some nan) Example.start in
  fst r = Ok tt /\ value (slice_slider (final r)) = 0%Z /\
  styleSheet (wavelength_textbox (final r)) = ""%string.
Proof.
  destruct (@off_scale_target_is_accepted Example.builtins
              Example.start Example.axis (Some nan) nan
              example_argsort_spec example_start_ranged eq_refl
              (or_introl eq_refl))
    as (c & k & _ & _ & _ & Hok & Hv & Hst & Hk).
  rewrite (Hk example_argsort_stable) in Hv.
  cbv zeta. split; [exact Hok|]. split; [exact Hv | exact Hst].
Defined.

(** X8: from slice 2 of 4: one up and one down comes back to 2; five up and
    five down ends at 0, with -2 emitted last. *)
Lemma change_slider_value_round_trip_witness :
  value (slice_slider
           (final ((change_slider_value 1 ;; change_slider_value (-1))%py
                     Example.start))) = 2%Z /\
  (let r := (change_slider_value 5 ;; change_slider_value (-5))%py
              Example.start in
   value (slice_slider (final r)) = 0%Z /\
   hd_error (emitted (final r)) = Some (ChangedDispersionPosition (-2))).
Proof.
  split.
  - destruct (@change_slider_value_round_trip Example.builtins Example.start
                Example.axis 1%Z example_argsort_spec example_start_bound)
      as (_ & _ & _ & H).
    apply H. vm_compute. split; discriminate.
  - destruct (@change_slider_value_round_trip Example.builtins Example.start
                Example.axis 5%Z example_argsort_spec example_start_bound)
      as (_ & Hv & Hem & _).
    split; [exact Hv | exact Hem].
Defined.

(** X18: the cursor handler before [enable]: it raises and leaves the flag
    set. *)
Lemma specviz_flag_restored_witness :
  let r := specviz_wavelength_slider_change (Some 2.5%float)
             (init Example.layout) in
  fst r = Raise Py.TypeError /\
  slider_flag (init Example.layout) = false /\
  slider_flag (final r) = true.
Proof.
  destruct (@specviz_flag_restored Example.builtins (init Example.layout)
              (Some 2.5%float)) as [_ H].
  cbv zeta. split; [reflexivity|]. split; [reflexivity|].
  exact (H Py.TypeError eq_refl).
Defined.

(** X4: the label set to "Rest Wavelength" before [enable], and [enable]
    after it. *)
Lemma wavelength_label_follows_witness :
  wavelength_textbox_label
    (final (wavelength_label_setter "Rest Wavelength" (init Example.layout)))
    = "Rest Wavelength (None)"%string /\
  wavelength_textbox_label
    (final ((wavelength_label_setter "Rest Wavelength" ;;
             enable "um" Example.axis)%py (init Example.layout)))
    = "Rest Wavelength (um)"%string.
Proof.
  destruct (@wavelength_label_follows Example.builtins (init Example.layout)
              "Rest Wavelength") as [(_ & _ & H1 & _) H2].
  split; [exact H1|].
  destruct (H2 "um"%string Example.axis example_argsort_spec
              ltac:(discriminate) (proj1 example_init_slider)
              (proj2 example_init_slider)) as (_ & _ & H).
  exact H.
Defined.
